(** * A four-function calculator engine: model and verified properties

    The engine lives in [src/frontend_calculator/src/App.js]: seven React
    state cells ([display], [prevValue], [pendingOp], [lastOp],
    [previousLine], [overwrite], [error]) and one handler per key.  Each
    handler runs to completion against the state of the render it closes
    over, so a handler is a function from states to states.

    JavaScript numbers are IEEE 754 binary64 values; they are modelled by
    [spec_float] of the Standard Library at precision 53 and exponent
    bound 1024, with the library's round-to-nearest-even operations. *)

From Stdlib Require Import ZArith Bool List Lia.
From Stdlib Require Import Ascii String.
From Stdlib Require Import Decimal DecimalString.
From Stdlib Require Import SpecFloat.
Import ListNotations.

Local Open Scope string_scope.
Local Open Scope Z_scope.

(** ** JavaScript numbers *)

Module JSNumber.

Definition prec : Z := 53.
Definition emax : Z := 1024.

Definition num : Type := spec_float.

Definition add : num -> num -> num := SFadd prec emax.
Definition sub : num -> num -> num := SFsub prec emax.
Definition mul : num -> num -> num := SFmul prec emax.
Definition div : num -> num -> num := SFdiv prec emax.

(** The number nearest to the integer [z] (exact below [2^53]). *)
Definition of_Z (z : Z) : num := binary_normalize prec emax z 0 false.

(** [Number.EPSILON], that is [2^-52]. *)
Definition EPSILON : num := S754_finite false 4503599627370496 (-104).

(** [Number.isFinite]. *)
Definition isFinite (x : num) : bool :=
  match x with
  | S754_zero _ | S754_finite _ _ _ => true
  | S754_infinity _ | S754_nan => false
  end.

Definition isNaN (x : num) : bool :=
  match x with S754_nan => true | _ => false end.

(** [x === 0]: both zeros compare equal to [0]. *)
Definition is_zero (x : num) : bool :=
  match x with S754_zero _ => true | _ => false end.

(** [Object.is(x, -0)]. *)
Definition is_neg_zero (x : num) : bool :=
  match x with S754_zero true => true | _ => false end.

(** Structural equality; on canonical values it is [Object.is] except
    that it is only used on values that are not NaN. *)
Definition same (x y : num) : bool :=
  match x, y with
  | S754_zero a, S754_zero b => Bool.eqb a b
  | S754_infinity a, S754_infinity b => Bool.eqb a b
  | S754_nan, S754_nan => true
  | S754_finite a m e, S754_finite b m' e' =>
      Bool.eqb a b && Pos.eqb m m' && Z.eqb e e'
  | _, _ => false
  end.

(** [Math.round]: the nearest integer, a tie going towards [+∞]; zeros,
    infinities, NaN and integers are returned as they are, and a result
    of zero keeps the sign of the argument. *)
Definition round (x : num) : num :=
  match x with
  | S754_finite sx m e =>
      if 0 <=? e then x
      else
        let d := 2 ^ (- e) in
        let sm := if sx then Z.neg m else Z.pos m in
        let r := (2 * sm + d) / (2 * d) in
        if r =? 0 then S754_zero sx else of_Z r
  | _ => x
  end.

(** The number nearest to [s * 10^q] for a positive integer [s]: the
    exact value is rounded once, to nearest, ties to even. *)
Definition of_decimal (neg : bool) (s : positive) (q : Z) : num :=
  if 0 <=? q then binary_round prec emax neg (s * Z.to_pos (10 ^ q))%positive 0
  else
    let '(mz, ez, lz) :=
      SFdiv_core_binary prec emax (Z.pos s) 0 (10 ^ (- q)) 0 in
    binary_round_aux prec emax neg mz ez lz.

(** *** [Number::toString] (radix 10)

    For a positive finite [x] the language standard asks for integers
    [n], [k], [s] with [10^(k-1) <= s < 10^k], such that [s * 10^(n-k)]
    converts back to [x], with [k] as small as possible and, among the
    candidates, [s * 10^(n-k)] closest to [x].  The search below works on
    the exact value [a / b] of [x]. *)

Definition digits (s : Z) : string :=
  NilZero.string_of_uint (N.to_uint (Z.to_N s)).

Fixpoint zeros (n : nat) : string :=
  match n with
  | O => ""
  | S n' => String "0" (zeros n')
  end.

(** The exact value of a positive finite number as a fraction. *)
Definition fraction (m : positive) (e : Z) : Z * Z :=
  if 0 <=? e then (Z.pos m * 2 ^ e, 1) else (Z.pos m, 2 ^ (- e)).

Fixpoint scale_up (fuel : nat) (a b n : Z) : Z :=
  match fuel with
  | O => n
  | S fuel' => if a <? b then n else scale_up fuel' a (10 * b) (n + 1)
  end.

Fixpoint scale_down (fuel : nat) (a b n : Z) : Z :=
  match fuel with
  | O => n
  | S fuel' => if b <=? 10 * a then n else scale_down fuel' (10 * a) b (n - 1)
  end.

(** The [n] with [10^(n-1) <= a/b < 10^n]; binary64 magnitudes lie
    between [10^-324] and [10^309]. *)
Definition magnitude (a b : Z) : Z :=
  if b <=? a then scale_up 400 a b 0 else scale_down 400 a b 0.

(** The [k]-digit candidates next to [a/b] on the grid [10^(n-k)]: the
    one below and the one above; a candidate counts when it converts
    back to [x], and the closer one wins (the even one on a tie). *)
Definition candidate (x : num) (a b n k : Z) : option (Z * Z) :=
  let q := n - k in
  let '(A, B) := if 0 <=? q then (a, b * 10 ^ q) else (a * 10 ^ (- q), b) in
  let lo := A / B in
  let r := A mod B in
  let hi := lo + 1 in
  let ok_lo := same (of_decimal false (Z.to_pos lo) q) x in
  let ok_hi := same (of_decimal false (Z.to_pos hi) q) x in
  let prefer_lo :=
    match 2 * r ?= B with
    | Lt => true
    | Gt => false
    | Eq => Z.even lo
    end in
  if ok_lo && (prefer_lo || negb ok_hi) then Some (lo, n)
  else if ok_hi then Some (if hi =? 10 ^ k then (10 ^ (k - 1), n + 1) else (hi, n))
  else None.

(** Shortest digits: [k] grows from 1 to 17, the number of digits that
    tells any two binary64 values apart; the branch taken when the fuel
    runs out only makes the function total. *)
Fixpoint shortest (fuel : nat) (x : num) (a b n k : Z) : Z * Z :=
  match fuel with
  | O =>
      let q := n - k in
      let '(A, B) := if 0 <=? q then (a, b * 10 ^ q) else (a * 10 ^ (- q), b) in
      (A / B, n)
  | S fuel' =>
      match candidate x a b n k with
      | Some sn => sn
      | None => shortest fuel' x a b n (k + 1)
      end
  end.

(** The digits [ds] of [s] laid out for the decimal exponent [n]. *)
Definition render (ds : string) (n : Z) : string :=
  let k := Z.of_nat (String.length ds) in
  if (k <=? n) && (n <=? 21) then ds ++ zeros (Z.to_nat (n - k))
  else if (0 <? n) && (n <=? 21) then
    substring 0 (Z.to_nat n) ds ++ "." ++
    substring (Z.to_nat n) (Z.to_nat (k - n)) ds
  else if (-6 <? n) && (n <=? 0) then "0." ++ zeros (Z.to_nat (- n)) ++ ds
  else
    let e := n - 1 in
    let es := (if e <? 0 then "-" else "+") ++ digits (Z.abs e) in
    match ds with
    | String c EmptyString => String c ("e" ++ es)
    | String c rest => String c ("." ++ rest ++ "e" ++ es)
    | EmptyString => "e" ++ es
    end.

Definition toString_pos (m : positive) (e : Z) : string :=
  let '(a, b) := fraction m e in
  let '(s, n) := shortest 17 (S754_finite false m e) a b (magnitude a b) 1 in
  render (digits s) n.

(** [String(x)]. *)
Definition toString (x : num) : string :=
  match x with
  | S754_nan => "NaN"
  | S754_zero _ => "0"
  | S754_infinity false => "Infinity"
  | S754_infinity true => "-Infinity"
  | S754_finite false m e => toString_pos m e
  | S754_finite true m e => "-" ++ toString_pos m e
  end.

(** *** [Number(string)]

    The decimal literals of the language: an optional sign, then
    [Infinity] or digits with an optional fraction and an optional
    exponent.  The empty string is [+0]; anything else is NaN.  White
    space and the radix prefixes [0x], [0o], [0b] are left out: no key
    puts them on the display. *)

Definition is_digit (c : ascii) : bool :=
  let n := nat_of_ascii c in (48 <=? n)%nat && (n <=? 57)%nat.

Definition digit_value (c : ascii) : Z := Z.of_nat (nat_of_ascii c) - 48.

(** The longest prefix of digits, and what follows it. *)
Fixpoint span_digits (s : string) : string * string :=
  match s with
  | String c r =>
      if is_digit c then let '(d, t) := span_digits r in (String c d, t)
      else (EmptyString, s)
  | EmptyString => (EmptyString, EmptyString)
  end.

Fixpoint digits_value (acc : Z) (s : string) : Z :=
  match s with
  | String c r => digits_value (10 * acc + digit_value c) r
  | EmptyString => acc
  end.

(** The exponent part: empty, or [e]/[E], an optional sign and at least
    one digit, up to the end of the string. *)
Definition parse_exponent (s : string) : option Z :=
  match s with
  | EmptyString => Some 0
  | String c r =>
      if Ascii.eqb c "e" || Ascii.eqb c "E" then
        let '(neg, r') :=
          match r with
          | String "-" t => (true, t)
          | String "+" t => (false, t)
          | _ => (false, r)
          end in
        match span_digits r' with
        | (String d ds, EmptyString) =>
            let v := digits_value 0 (String d ds) in
            Some (if neg then - v else v)
        | _ => None
        end
      else None
  end.

(** An unsigned decimal literal as [(s, q)], standing for [s * 10^q]. *)
Definition parse_unsigned (s : string) : option (Z * Z) :=
  let '(ip, r1) := span_digits s in
  let '(fp, r2) :=
    match r1 with
    | String "." t => span_digits t
    | _ => (EmptyString, r1)
    end in
  match ip ++ fp with
  | EmptyString => None
  | ds =>
      match parse_exponent r2 with
      | Some e => Some (digits_value 0 ds, e - Z.of_nat (String.length fp))
      | None => None
      end
  end.

Definition ofString (s : string) : num :=
  match s with
  | EmptyString => S754_zero false
  | _ =>
      let '(neg, u) :=
        match s with
        | String "-" t => (true, t)
        | String "+" t => (false, t)
        | _ => (false, s)
        end in
      if String.eqb u "Infinity" then S754_infinity neg
      else
        match parse_unsigned u with
        | Some (0, _) => S754_zero neg
        | Some (m, q) => of_decimal neg (Z.to_pos m) q
        | None => S754_nan
        end
  end.

End JSNumber.

(** ** JavaScript strings

    The display only ever holds ASCII text, so a string is a [string] of
    the Standard Library and its length is the number of characters. *)

Module JSString.

(** [s.includes(c)] for a one-character needle. *)
Fixpoint includes (c : ascii) (s : string) : bool :=
  match s with
  | String c' r => Ascii.eqb c' c || includes c r
  | EmptyString => false
  end.

(** [s.startsWith(c)] and [s.endsWith(c)] for a one-character needle. *)
Definition startsWith (c : ascii) (s : string) : bool :=
  match s with
  | String c' _ => Ascii.eqb c' c
  | EmptyString => false
  end.

Fixpoint endsWith (c : ascii) (s : string) : bool :=
  match s with
  | String c' EmptyString => Ascii.eqb c' c
  | String _ r => endsWith c r
  | EmptyString => false
  end.

(** [s.slice(1)]. *)
Definition slice_from_1 (s : string) : string :=
  match s with
  | String _ r => r
  | EmptyString => EmptyString
  end.

(** [s.slice(0, -1)]. *)
Fixpoint slice_to_last (s : string) : string :=
  match s with
  | String _ EmptyString => EmptyString
  | String c r => String c (slice_to_last r)
  | EmptyString => EmptyString
  end.

Fixpoint drop_zeros (l : list ascii) : list ascii :=
  match l with
  | c :: r => if Ascii.eqb c "0" then drop_zeros r else l
  | [] => []
  end.

(** [s.replace(/\.?0+$/, "")]: the match, when there is one, is the
    whole run of zeros that ends the string together with a point right
    before it; it is found from the end of the string. *)
Definition trim_list (l : list ascii) : list ascii :=
  match List.rev l with
  | c :: r =>
      if Ascii.eqb c "0" then
        match drop_zeros r with
        | c' :: r' =>
            if Ascii.eqb c' "." then List.rev r' else List.rev (c' :: r')
        | [] => []
        end
      else l
  | [] => l
  end.

Definition trim_zeros (s : string) : string :=
  string_of_list_ascii (trim_list (list_ascii_of_string s)).

End JSString.

(** ** The calculator of [App.js] *)

Import JSNumber JSString.

(** The operator keys: ["+"], ["-"], ["*"], ["/"]; the keypad and the
    keyboard handler send no other value, so the [default] branches of
    [compute] and [opSymbol] have no counterpart here. *)
Inductive Op : Type := Plus | Minus | Times | Divide.

(** The [{ op, rhs }] object of [lastOp]. *)
Record LastOp : Type := mkLastOp { op : Op; rhs : num }.

(** The state cells of [App]. *)
Record State : Type := mkState {
  display : string;
  prevValue : option num;
  pendingOp : option Op;
  lastOp : option LastOp;
  previousLine : string;
  overwrite : bool;
  error : bool
}.

(** The initial values given to [useState]. *)
Definition initial : State :=
  {| display := "0"; prevValue := None; pendingOp := None; lastOp := None;
     previousLine := ""; overwrite := false; error := false |}.

Definition zero : num := S754_zero false.
Definition hundred : num := of_Z 100.
Definition ten_to_10 : num := of_Z 10000000000.

Definition isFiniteNumber (n : num) : bool := isFinite n.

Definition parseDisplayToNumber (valueStr : string) : num :=
  if String.eqb valueStr "-" || String.eqb valueStr "" || String.eqb valueStr "."
  then zero
  else
    let n := ofString valueStr in
    if isNaN n then zero else n.

Definition formatNumber (n : num) : string :=
  if negb (isFiniteNumber n) then "Error"
  else
    let rounded := div (round (mul (add n EPSILON) ten_to_10)) ten_to_10 in
    let normalized := if is_neg_zero rounded then zero else rounded in
    let s := toString normalized in
    if includes "e" s || includes "E" s then s
    else if includes "." s then trim_zeros s
    else s.

Definition setErrorState (st : State) : State :=
  {| display := "Error"; prevValue := None; pendingOp := None; lastOp := None;
     previousLine := ""; overwrite := true; error := true |}.

Definition clearAll (st : State) : State :=
  {| display := "0"; prevValue := None; pendingOp := None; lastOp := None;
     previousLine := ""; overwrite := false; error := false |}.

(** The [{ ok, value }] object returned by [compute]. *)
Record Computed : Type := mkComputed { ok : bool; value : num }.

Definition compute (a : num) (o : Op) (b : num) : Computed :=
  if negb (isFiniteNumber a) || negb (isFiniteNumber b)
  then {| ok := false; value := S754_nan |}
  else
    match o with
    | Plus => {| ok := true; value := add a b |}
    | Minus => {| ok := true; value := sub a b |}
    | Times => {| ok := true; value := mul a b |}
    | Divide =>
        if is_zero b then {| ok := false; value := S754_nan |}
        else {| ok := true; value := div a b |}
    end.

(** [String(digit)] for the number a digit key sends (0 to 9 from the
    keypad and the keyboard): its decimal numeral. *)
Definition String_of_digit (digit : nat) : string :=
  NilZero.string_of_uint (Nat.to_uint digit).

Definition inputDigit (digit : nat) (st : State) : State :=
  if error st then
    {| display := String_of_digit digit; prevValue := None; pendingOp := None;
       lastOp := None; previousLine := ""; overwrite := false; error := false |}
  else if overwrite st then
    {| display := String_of_digit digit; prevValue := prevValue st;
       pendingOp := pendingOp st; lastOp := lastOp st;
       previousLine := previousLine st; overwrite := false; error := error st |}
  else
    let prev := display st in
    let next :=
      if String.eqb prev "0" then String_of_digit digit
      else if String.eqb prev "-0" then "-" ++ String_of_digit digit
      else prev ++ String_of_digit digit in
    {| display := next; prevValue := prevValue st; pendingOp := pendingOp st;
       lastOp := lastOp st; previousLine := previousLine st;
       overwrite := overwrite st; error := error st |}.

Definition inputDecimal (st : State) : State :=
  if error st then
    {| display := "0."; prevValue := None; pendingOp := None; lastOp := None;
       previousLine := ""; overwrite := false; error := false |}
  else if overwrite st then
    {| display := "0."; prevValue := prevValue st; pendingOp := pendingOp st;
       lastOp := lastOp st; previousLine := previousLine st;
       overwrite := false; error := error st |}
  else
    let prev := display st in
    let next :=
      if includes "." prev then prev
      else if String.eqb prev "Error" then "0."
      else if String.eqb prev "-" || String.eqb prev "" then "0."
      else prev ++ "." in
    {| display := next; prevValue := prevValue st; pendingOp := pendingOp st;
       lastOp := lastOp st; previousLine := previousLine st;
       overwrite := overwrite st; error := error st |}.

Definition toggleSign (st : State) : State :=
  if error st then st
  else
    let prev := display st in
    let next :=
      if String.eqb prev "0" || String.eqb prev "0." then
        "-0" ++ (if endsWith "." prev then "." else "")
      else if String.eqb prev "-0" || String.eqb prev "-0." then
        "0" ++ (if endsWith "." prev then "." else "")
      else if startsWith "-" prev then slice_from_1 prev
      else "-" ++ prev in
    {| display := next; prevValue := prevValue st; pendingOp := pendingOp st;
       lastOp := lastOp st; previousLine := previousLine st;
       overwrite := overwrite st; error := error st |}.

Definition backspace (st : State) : State :=
  if error st then clearAll st
  else
    let prev := display st in
    let next :=
      if overwrite st then "0"
      else if (String.length prev <=? 1)%nat then "0"
      else if (String.length prev =? 2)%nat && startsWith "-" prev then "0"
      else slice_to_last prev in
    {| display := next; prevValue := prevValue st; pendingOp := pendingOp st;
       lastOp := lastOp st; previousLine := previousLine st;
       overwrite := overwrite st; error := error st |}.

Definition opSymbol (o : Op) : string :=
  match o with
  | Times => "×"
  | Divide => "÷"
  | Plus => "+"
  | Minus => "−"
  end.

Definition applyPercent (st : State) : State :=
  if error st then st
  else
    let current := parseDisplayToNumber (display st) in
    match pendingOp st, prevValue st with
    | Some _, Some pv =>
        let pctValue := mul pv (div current hundred) in
        {| display := formatNumber pctValue; prevValue := prevValue st;
           pendingOp := pendingOp st; lastOp := lastOp st;
           previousLine := previousLine st; overwrite := true;
           error := error st |}
    | _, _ =>
        let value := div current hundred in
        {| display := formatNumber value; prevValue := prevValue st;
           pendingOp := pendingOp st; lastOp := lastOp st;
           previousLine := previousLine st; overwrite := true;
           error := error st |}
    end.

(** The template [`${a} ${opSymbol(o)}`]. *)
Definition line (a : string) (o : Op) : string := a ++ " " ++ opSymbol o.

Definition setOperator (o : Op) (st : State) : State :=
  if error st then st
  else
    let current := parseDisplayToNumber (display st) in
    match pendingOp st with
    | Some pending =>
        if overwrite st then
          {| display := display st; prevValue := prevValue st;
             pendingOp := Some o; lastOp := lastOp st;
             previousLine :=
               line (formatNumber (match prevValue st with
                                   | Some pv => pv
                                   | None => zero
                                   end)) o;
             overwrite := overwrite st; error := error st |}
        else
          match prevValue st with
          | Some pv =>
              let result := compute pv pending current in
              if negb (ok result) || negb (isFiniteNumber (value result))
              then setErrorState st
              else
                let formatted := formatNumber (value result) in
                let numeric := ofString formatted in
                {| display := formatted; prevValue := Some numeric;
                   pendingOp := Some o; lastOp := None;
                   previousLine := line formatted o; overwrite := true;
                   error := error st |}
          | None =>
              {| display := display st; prevValue := Some current;
                 pendingOp := Some o; lastOp := None;
                 previousLine := line (formatNumber current) o;
                 overwrite := true; error := error st |}
          end
    | None =>
        {| display := display st; prevValue := Some current;
           pendingOp := Some o; lastOp := None;
           previousLine := line (formatNumber current) o;
           overwrite := true; error := error st |}
    end.

Definition evaluateEquals (st : State) : State :=
  if error st then st
  else
    let current := parseDisplayToNumber (display st) in
    match pendingOp st, prevValue st, lastOp st with
    | Some pending, Some pv, _ =>
        let result := compute pv pending current in
        if negb (ok result) || negb (isFiniteNumber (value result))
        then setErrorState st
        else
          let formatted := formatNumber (value result) in
          let resultNum := ofString formatted in
          {| display := formatted; prevValue := Some resultNum;
             pendingOp := None;
             lastOp := Some {| op := pending; rhs := current |};
             previousLine := ""; overwrite := true; error := error st |}
    | None, _, Some last =>
        let lhs := parseDisplayToNumber (display st) in
        let result := compute lhs (op last) (rhs last) in
        if negb (ok result) || negb (isFiniteNumber (value result))
        then setErrorState st
        else
          let formatted := formatNumber (value result) in
          {| display := formatted; prevValue := prevValue st;
             pendingOp := pendingOp st; lastOp := lastOp st;
             previousLine := previousLine st; overwrite := true;
             error := error st |}
    | _, _, _ =>
        {| display := display st; prevValue := prevValue st;
           pendingOp := pendingOp st; lastOp := lastOp st;
           previousLine := previousLine st; overwrite := true;
           error := error st |}
    end.

(** The actions [handleButton] dispatches on. *)
Inductive Action : Type :=
  | digit (value : nat)
  | decimal
  | op_key (value : Op)
  | equals
  | clear
  | sign
  | percent
  | backspace_key.

Definition handleButton (st : State) (action : Action) : State :=
  match action with
  | digit d => inputDigit d st
  | decimal => inputDecimal st
  | op_key o => setOperator o st
  | equals => evaluateEquals st
  | clear => clearAll st
  | sign => toggleSign st
  | percent => applyPercent st
  | backspace_key => backspace st
  end.

(** The state after a sequence of key presses, each handled against the
    state the previous one left. *)
Definition run (actions : list Action) : State :=
  fold_left handleButton actions initial.

(** What the page shows: the main line, the secondary line and the
    error flag. *)
Definition snapshot (st : State) : string * string * bool :=
  (display st, previousLine st, error st).

(** ** Notions the properties are stated with *)

(** How the cells hang together: the Error state holds nothing but the
    marker; a pending operator comes with its left operand and without a
    remembered operation; with no operator pending, a stored operand is
    there exactly when a remembered operation is, and the secondary line
    is blank. *)
Record coherent (st : State) : Prop := {
  coh_error :
    error st = true ->
    display st = "Error" /\ prevValue st = None /\ pendingOp st = None /\
    lastOp st = None /\ previousLine st = "" /\ overwrite st = true;
  coh_pending :
    forall p, pendingOp st = Some p -> prevValue st <> None /\ lastOp st = None;
  coh_idle :
    pendingOp st = None ->
    (prevValue st = None <-> lastOp st = None) /\ previousLine st = ""
}.

(** *** The shape of the display *)

Fixpoint all_digits (s : string) : bool :=
  match s with
  | String c r => is_digit c && all_digits r
  | EmptyString => true
  end.

(** Digits with at most one point, after at least one digit: ["12"],
    ["12."], ["12.5"]. *)
Fixpoint unsigned_numeral (s : string) : bool :=
  match s with
  | String c r =>
      is_digit c &&
      match r with
      | EmptyString => true
      | String c' t =>
          if Ascii.eqb c' "." then all_digits t else unsigned_numeral r
      end
  | EmptyString => false
  end.

(** A partial or complete decimal numeral: an optional minus sign and
    an unsigned numeral. *)
Definition decimal_numeral (s : string) : bool :=
  match s with
  | String c r => if Ascii.eqb c "-" then unsigned_numeral r else unsigned_numeral s
  | EmptyString => false
  end.

(** The display the specification promises: a decimal numeral or the
    error marker. *)
Definition numeral_or_marker (s : string) : Prop :=
  decimal_numeral s = true \/ s = "Error".

(** A weaker shape that every key keeps: the text is not empty, not a
    lone minus sign and does not start with two of them. *)
Definition well_headed (s : string) : bool :=
  match s with
  | String c r =>
      if Ascii.eqb c "-" then
        match r with
        | String c' _ => negb (Ascii.eqb c' "-")
        | EmptyString => false
        end
      else true
  | EmptyString => false
  end.

(** What [String(x)] starts with: an optional minus sign and then
    neither a minus sign nor a point. *)
Definition lead (c : ascii) : bool :=
  negb (Ascii.eqb c "-") && negb (Ascii.eqb c ".").

Definition led (s : string) : bool :=
  match s with
  | String c r =>
      if Ascii.eqb c "-" then
        match r with
        | String c' _ => lead c'
        | EmptyString => false
        end
      else lead c
  | EmptyString => false
  end.

(** The keys that edit the entry, as opposed to those that write a
    computed result. *)
Definition editing (a : Action) : bool :=
  match a with
  | digit _ | decimal | sign | backspace_key | clear => true
  | op_key _ | equals | percent => false
  end.

(** The number of points in a text, and whether it ends in a digit. *)
Fixpoint count_points (s : string) : nat :=
  match s with
  | String c r => (if Ascii.eqb c "." then 1 else 0) + count_points r
  | EmptyString => 0
  end.

Fixpoint ends_in_digit (s : string) : bool :=
  match s with
  | String c EmptyString => is_digit c
  | String _ r => ends_in_digit r
  | EmptyString => false
  end.

(** *** The stored operand, read to the letter *)

(** Read to the letter, the stored operand would be present exactly
    when an operator is pending or the last key was an equals that
    completed a pending operation. *)
Definition completed_equals (actions : list Action) : Prop :=
  exists before,
    actions = (before ++ [equals])%list /\
    pendingOp (run before) <> None /\
    error (run actions) = false.

Definition operand_only_pending_or_just_after_equals : Prop :=
  forall actions,
    prevValue (run actions) <> None <->
    (pendingOp (run actions) <> None \/ completed_equals actions).

(** *** Chaining, read to the letter *)

(** The keys that enter a right operand: digits and the point type one,
    and percent puts its result on the display as the operand. *)
Definition entering (a : Action) : bool :=
  match a with
  | digit _ | decimal | percent => true
  | _ => false
  end.

(** Read to the letter, an operator key computes the pending operation
    whenever an operator is pending and a right operand has been
    entered since it was selected. *)
Definition operator_computes_entered_operand : Prop :=
  forall before p entry o,
    entry <> [] -> forallb entering entry = true ->
    let st := run (before ++ op_key p :: entry) in
    forall pv pending,
      prevValue st = Some pv -> pendingOp st = Some pending ->
      let result := compute pv pending (parseDisplayToNumber (display st)) in
      ok result && isFiniteNumber (value result) = true ->
      display (setOperator o st) = formatNumber (value result).

(** *** Rounding to ten places, on exact values *)

(** A fraction of fewer than ten digits, filled with zeros on the left. *)
Definition pad_10 (s : string) : string :=
  zeros (10 - String.length s) ++ s.

(** The decimal rendering of a finite number rounded to ten decimal
    places, computed on its exact value: the nearest multiple of
    [10^-10] (a tie going up in magnitude), written without exponent,
    a zero fraction dropped and trailing zeros trimmed; zero is ["0"]
    whatever its sign. *)
Definition rounded_to_10_places (n : num) : string :=
  match n with
  | S754_zero _ => "0"
  | S754_finite sx m e =>
      let '(a, b) := fraction m e in
      let k := (2 * a * 10 ^ 10 + b) / (2 * b) in
      let body :=
        if k mod 10 ^ 10 =? 0 then digits (k / 10 ^ 10)
        else trim_zeros (digits (k / 10 ^ 10) ++ "." ++ pad_10 (digits (k mod 10 ^ 10))) in
      if sx && negb (k =? 0) then "-" ++ body else body
  | _ => "Error"
  end.

(** ** The keyboard and the keypad of [App.js] *)

(** The test [/^\d$/]: the key is one character, a decimal digit. *)
Definition is_digit_key (key : string) : bool :=
  match key with
  | String c EmptyString => is_digit c
  | _ => false
  end.

(** [Number(key)] for a key that passed the digit test. *)
Definition Number_of_digit_key (key : string) : nat :=
  match key with
  | String c _ => Z.to_nat (digit_value c)
  | EmptyString => 0%nat
  end.

(** The [keydown] listener, as the action it hands to [handleButton]
    (after [preventDefault]), or [None] when it lets the event pass.
    [tag] is the tag name of the event's target, empty when there is
    none; [key] is the event's [key]. *)
Definition onKeyDown (tag key : string) : option Action :=
  if String.eqb tag "INPUT" || String.eqb tag "TEXTAREA" || String.eqb tag "SELECT"
  then None
  else if is_digit_key key then Some (digit (Number_of_digit_key key))
  else if String.eqb key "." then Some decimal
  else if String.eqb key "+" then Some (op_key Plus)
  else if String.eqb key "-" then Some (op_key Minus)
  else if String.eqb key "*" || String.eqb key "x" || String.eqb key "X"
  then Some (op_key Times)
  else if String.eqb key "/" then Some (op_key Divide)
  else if String.eqb key "%" then Some percent
  else if String.eqb key "Enter" || String.eqb key "=" then Some equals
  else if String.eqb key "Escape" then Some clear
  else if String.eqb key "Backspace" then Some backspace_key
  else None.

(** A button of the page: its label, its [ariaLabel] when it has one,
    and the action its click hands to [handleButton]. *)
Record Button : Type := mkButton {
  label : string;
  ariaLabel : option string;
  action : Action
}.

(** [aria-label={ariaLabel ?? label}]. *)
Definition accessible_name (b : Button) : string :=
  match ariaLabel b with
  | Some n => n
  | None => label b
  end.

(** The nineteen buttons of the keypad, in the order of the page. *)
Definition keypad : list Button :=
  [ mkButton "AC" (Some "Clear all") clear;
    mkButton "±" (Some "Toggle sign") sign;
    mkButton "%" (Some "Percent") percent;
    mkButton "÷" (Some "Divide") (op_key Divide);
    mkButton "7" None (digit 7);
    mkButton "8" None (digit 8);
    mkButton "9" None (digit 9);
    mkButton "×" (Some "Multiply") (op_key Times);
    mkButton "4" None (digit 4);
    mkButton "5" None (digit 5);
    mkButton "6" None (digit 6);
    mkButton "−" (Some "Subtract") (op_key Minus);
    mkButton "1" None (digit 1);
    mkButton "2" None (digit 2);
    mkButton "3" None (digit 3);
    mkButton "+" (Some "Add") (op_key Plus);
    mkButton "0" None (digit 0);
    mkButton "." (Some "Decimal") decimal;
    mkButton "=" (Some "Equals") equals ].

(** The backspace button of the footer. *)
Definition footer_button : Button :=
  mkButton "⌫" (Some "Backspace") backspace_key.

Definition buttons : list Button := (keypad ++ [footer_button])%list.

(** ** Notions for the further properties *)

(** What makes the remembered operation fit for a replay. *)
Definition replayable (st : State) : Prop :=
  forall l,
    lastOp st = Some l ->
    isFiniteNumber (rhs l) = true /\ (op l = Divide -> is_zero (rhs l) = false).

(** The secondary line as the pending operator leaves it. *)
Definition line_follows (st : State) : Prop :=
  match pendingOp st with
  | Some p => exists v, previousLine st = formatNumber v ++ " " ++ opSymbol p
  | None => previousLine st = ""
  end.

(** The text of the digit keys pressed, one after the other. *)
Fixpoint typed (ds : list nat) : string :=
  match ds with
  | [] => ""
  | d :: r => String_of_digit d ++ typed r
  end.

(** A text that starts with a digit from 1 to 9. *)
Definition starts_with_nonzero_digit (s : string) : Prop :=
  exists c r, s = String c r /\ is_digit c = true /\ c <> "0"%char.

(** The number written by a list of decimal digits. *)
Definition decimal_value (ds : list nat) : Z :=
  fold_left (fun acc d => 10 * acc + Z.of_nat d) ds 0.

(** What [String(x)] can start with: a digit, a minus sign, or the
    first letter of [Infinity] or [NaN]. *)
Definition number_head (c : ascii) : bool :=
  is_digit c || Ascii.eqb c "-" || Ascii.eqb c "I" || Ascii.eqb c "N".

(** Exponential notation as [String(x)] writes it: a digit, an optional
    fraction, [e], a sign and the digits of the exponent. *)
Definition exponent_form (s : string) : Prop :=
  exists c fp sg ex,
    is_digit c = true /\ all_digits fp = true /\
    (sg = "+" \/ sg = "-") /\ all_digits ex = true /\ ex <> "" /\
    (s = String c ("e" ++ sg ++ ex) \/
     s = String c ("." ++ fp ++ "e" ++ sg ++ ex)).

(** A stored operand that is a number. *)
Definition operand_is_number (st : State) : Prop :=
  forall v, prevValue st = Some v -> isNaN v = false.

(** *** The shapes the display takes *)

(** What the main line can show: a decimal numeral; a number in
    exponential notation, with or without a minus sign; the name of an
    infinity; the error marker, with or without a minus sign. *)
Definition shown_shape (s : string) : Prop :=
  decimal_numeral s = true \/
  exponent_form s \/
  (exists r, s = String "-" r /\ exponent_form r) \/
  s = "Infinity" \/ s = "-Infinity" \/
  s = "Error" \/ s = "-Error".

(** The display has one of these shapes, and is a decimal numeral while
    an entry is being typed (the overwrite flag is off). *)
Definition display_shape (st : State) : Prop :=
  shown_shape (display st) /\
  (overwrite st = false -> decimal_numeral (display st) = true).

(** Keys that multiply 10000000000 by itself until the product reaches
    1e300. *)
Definition overflowing_keys : list Action :=
  (digit 1 :: repeat (digit 0) 10 ++ [op_key Times; equals] ++ repeat equals 28)%list.

(** Keys that show 1e-7. *)
Definition tiny_keys : list Action :=
  [decimal; digit 0; digit 0; digit 0; digit 0; digit 1; percent].

(** * Properties *)

(** ** Reachable states and what every key press keeps true *)

Lemma run_snoc (actions : list Action) (a : Action) :
  run (actions ++ [a]) = handleButton (run actions) a.
Proof.
  unfold run. rewrite fold_left_app. reflexivity.
Qed.

(** Induction over the key presses that lead to a state. *)
Lemma run_ind (P : State -> Prop) :
  P initial ->
  (forall st a, P st -> P (handleButton st a)) ->
  forall actions, P (run actions).
Proof.
  intros Hinit Hstep actions.
  induction actions as [| a actions IH] using rev_ind.
  - exact Hinit.
  - rewrite run_snoc. apply Hstep, IH.
Qed.

Ltac unfold_handlers :=
  unfold handleButton, inputDigit, inputDecimal, toggleSign, backspace,
    applyPercent, setOperator, evaluateEquals, setErrorState, clearAll in *;
  cbn [display prevValue pendingOp lastOp previousLine overwrite error] in *.

Ltac split_ifs :=
  repeat match goal with
    | |- context [if ?b then _ else _] => destruct b eqn:?
    | |- context [match ?o with Some _ => _ | None => _ end] => destruct o eqn:?
    end;
  cbn [display prevValue pendingOp lastOp previousLine overwrite error] in *.

Lemma coherent_initial : coherent initial.
Proof.
  split; cbn; intros; try discriminate; repeat split; reflexivity.
Qed.

Lemma coherent_step (st : State) (a : Action) :
  coherent st -> coherent (handleButton st a).
Proof.
  intros [He Hp Hi].
  destruct st as [d pv po lo pl ow er].
  cbn [display prevValue pendingOp lastOp previousLine overwrite error] in *.
  destruct a; unfold_handlers; split_ifs;
    split; cbn [display prevValue pendingOp lastOp previousLine overwrite error];
    intros; subst;
    try discriminate;
    try (specialize (He eq_refl); destruct He as (? & ? & ? & ? & ? & ?));
    try match goal with
      | H : forall p, Some ?q = Some p -> _ |- _ =>
          destruct (H q eq_refl) as [? ?]
      end;
    try match goal with
      | H : None = None -> _ |- _ => destruct (H eq_refl) as [[? ?] ?]
      end;
    subst; try discriminate; try congruence;
    repeat split; intros; try congruence; try discriminate; auto.
Qed.

Lemma coherent_run (actions : list Action) : coherent (run actions).
Proof.
  apply run_ind; [exact coherent_initial | exact coherent_step].
Qed.

(** ** Division by zero and recovery *)

(** Any digit pressed in the Error state starts afresh. *)
Lemma inputDigit_from_error (d : nat) (st : State) :
  error st = true ->
  inputDigit d st =
    {| display := String_of_digit d; prevValue := None; pendingOp := None;
       lastOp := None; previousLine := ""; overwrite := false;
       error := false |}.
Proof.
  intros H. unfold inputDigit. rewrite H. reflexivity.
Qed.

(** C1: pressing 8, ÷, 0, = puts the engine in the Error state (error
    flag set, display showing the error marker); pressing 5 next shows
    "5", clears the flag and leaves no pending operator, stored operand,
    secondary line or remembered operation. *)
Theorem divide_by_zero_then_digit :
  let st := run [digit 8; op_key Divide; digit 0; equals] in
  st = setErrorState (run [digit 8; op_key Divide; digit 0]) /\
  snapshot st = ("Error", "", true) /\
  let st' := handleButton st (digit 5) in
  display st' = "5" /\ error st' = false /\ pendingOp st' = None /\
  prevValue st' = None /\ previousLine st' = "" /\ lastOp st' = None.
Proof.
  vm_compute. repeat split.
Qed.

(** ** Repeated equals *)

(** C2: pressing 5, +, 3 and then = three times shows "8", "11", "14",
    the remembered operation staying [+ 3] throughout; in general, with
    no operator pending and an operation remembered, = applies that
    operation to the number on the display and, when the result is
    finite, changes nothing but the display and the overwrite flag. *)
Theorem repeated_equals :
  (let st1 := run [digit 5; op_key Plus; digit 3; equals] in
   let st2 := handleButton st1 equals in
   let st3 := handleButton st2 equals in
   display st1 = "8" /\ display st2 = "11" /\ display st3 = "14" /\
   lastOp st1 = Some {| op := Plus; rhs := of_Z 3 |} /\
   lastOp st2 = lastOp st1 /\ lastOp st3 = lastOp st1) /\
  (forall d pv last pl ow,
     let st :=
       {| display := d; prevValue := pv; pendingOp := None;
          lastOp := Some last; previousLine := pl; overwrite := ow;
          error := false |} in
     let result := compute (parseDisplayToNumber d) (op last) (rhs last) in
     evaluateEquals st =
       if ok result && isFiniteNumber (value result) then
         {| display := formatNumber (value result); prevValue := pv;
            pendingOp := None; lastOp := Some last; previousLine := pl;
            overwrite := true; error := false |}
       else setErrorState st).
Proof.
  split.
  - vm_compute. repeat split.
  - intros d pv last pl ow st result. subst st result.
    unfold evaluateEquals.
    cbn [display prevValue pendingOp lastOp previousLine overwrite error].
    destruct pv;
      destruct (ok (compute (parseDisplayToNumber d) (op last) (rhs last)));
      destruct (isFiniteNumber
                  (value (compute (parseDisplayToNumber d) (op last) (rhs last))));
      reflexivity.
Qed.

(** ** Chaining *)

(** After 200, +, 10, % the display holds the operand 20 that percent
    entered, with + pending on the stored 200; pressing × then does not
    compute 200 + 20 = 220 but only replaces the operator, and 2, =
    shows 200 × 2 = 400. *)
Lemma percent_operand_not_computed :
  let keys :=
    [digit 2; digit 0; digit 0; op_key Plus; digit 1; digit 0; percent] in
  let st := run keys in
  display st = "20" /\ prevValue st = Some (of_Z 200) /\
  pendingOp st = Some Plus /\ overwrite st = true /\
  formatNumber (value (compute (of_Z 200) Plus (parseDisplayToNumber "20")))
    = "220" /\
  display (setOperator Times st) = "20" /\
  prevValue (setOperator Times st) = Some (of_Z 200) /\
  display (run (keys ++ [op_key Times; digit 2; equals])) = "400" /\
  ~ operator_computes_entered_operand.
Proof.
  cbv zeta.
  split; [vm_compute; reflexivity |].
  split; [vm_compute; reflexivity |].
  split; [vm_compute; reflexivity |].
  split; [vm_compute; reflexivity |].
  split; [vm_compute; reflexivity |].
  split; [vm_compute; reflexivity |].
  split; [vm_compute; reflexivity |].
  split; [vm_compute; reflexivity |].
  intros H.
  assert (E : display
                (setOperator Times
                   (run ([digit 2; digit 0; digit 0] ++
                         op_key Plus :: [digit 1; digit 0; percent]))) =
              formatNumber
                (value (compute (of_Z 200) Plus (parseDisplayToNumber "20")))).
  { apply (H [digit 2; digit 0; digit 0] Plus [digit 1; digit 0; percent]
             Times).
    - discriminate.
    - reflexivity.
    - vm_compute. reflexivity.
    - vm_compute. reflexivity.
    - vm_compute. reflexivity. }
  vm_compute in E. discriminate E.
Qed.

(** How each key leaves the overwrite flag, in a reachable state. *)
Lemma overwrite_after (st : State) (a : Action) :
  coherent st ->
  overwrite (handleButton st a) =
    match a with
    | digit _ | decimal | clear => false
    | op_key _ | equals | percent => true
    | sign => overwrite st
    | backspace_key => overwrite st && negb (error st)
    end.
Proof.
  intros [He _ _].
  destruct st as [d pv po lo pl ow er].
  cbn [display prevValue pendingOp lastOp previousLine overwrite error] in *.
  destruct a; unfold_handlers;
    (destruct er;
     [try (destruct (He eq_refl) as (_ & _ & _ & _ & _ & ->)); reflexivity |]);
    destruct ow; try reflexivity;
    destruct po, pv, lo; try reflexivity;
    destruct (negb _ || negb _); reflexivity.
Qed.

(** C3, as the code has it: pressing 2, +, 3, +, 4, = shows "9", and 2,
    +, 3, ×, 4, = shows "20" (no precedence).  With an operator pending,
    an operator key computes the pending operation on the stored
    operand and the display, the result becoming the display and the
    new left operand, when the overwrite flag is off; when the flag is
    set it only replaces the pending operator.  In a reachable state a
    pending operator comes with a stored operand and no error, and the
    flag is off after a digit, the point and clear, set after an
    operator key, equals and percent, and left as it was by the sign
    key and by backspace: the pending operation is computed when the
    right operand was typed, not when percent put it on the display
    (200, +, 10, %, ×, 2, = shows "400"). *)
Theorem chaining_left_to_right :
  display (run [digit 2; op_key Plus; digit 3; op_key Plus; digit 4; equals])
    = "9" /\
  display (run [digit 2; op_key Plus; digit 3; op_key Plus]) = "5" /\
  display (run [digit 2; op_key Plus; digit 3; op_key Times; digit 4; equals])
    = "20" /\
  (forall d pv pending lo pl o,
     let st :=
       {| display := d; prevValue := Some pv; pendingOp := Some pending;
          lastOp := lo; previousLine := pl; overwrite := false;
          error := false |} in
     let result := compute pv pending (parseDisplayToNumber d) in
     setOperator o st =
       if ok result && isFiniteNumber (value result) then
         {| display := formatNumber (value result);
            prevValue := Some (ofString (formatNumber (value result)));
            pendingOp := Some o; lastOp := None;
            previousLine := formatNumber (value result) ++ " " ++ opSymbol o;
            overwrite := true; error := false |}
       else setErrorState st) /\
  (forall d pv pending lo pl o,
     let st :=
       {| display := d; prevValue := Some pv; pendingOp := Some pending;
          lastOp := lo; previousLine := pl; overwrite := true;
          error := false |} in
     setOperator o st =
       {| display := d; prevValue := Some pv; pendingOp := Some o;
          lastOp := lo;
          previousLine := formatNumber pv ++ " " ++ opSymbol o;
          overwrite := true; error := false |}) /\
  (forall actions,
     let st := run actions in
     (pendingOp st <> None -> prevValue st <> None /\ error st = false) /\
     (forall a,
        overwrite (handleButton st a) =
          match a with
          | digit _ | decimal | clear => false
          | op_key _ | equals | percent => true
          | sign => overwrite st
          | backspace_key => overwrite st && negb (error st)
          end)) /\
  display (run [digit 2; digit 0; digit 0; op_key Plus; digit 1; digit 0;
                percent; op_key Times; digit 2; equals]) = "400".
Proof.
  split; [vm_compute; reflexivity |].
  split; [vm_compute; reflexivity |].
  split; [vm_compute; reflexivity |].
  split.
  { intros d pv pending lo pl o st result. subst st result.
    unfold setOperator.
    cbn [display prevValue pendingOp lastOp previousLine overwrite error].
    destruct (ok (compute pv pending (parseDisplayToNumber d)));
      destruct (isFiniteNumber
                  (value (compute pv pending (parseDisplayToNumber d))));
      reflexivity. }
  split; [reflexivity |].
  split; [| vm_compute; reflexivity].
  intros actions st.
  pose proof (coherent_run actions) as Hc. fold st in Hc.
  split.
  - intros Hp. destruct (pendingOp st) as [p |] eqn:Ep; [| congruence].
    split; [apply (coh_pending _ Hc p Ep) |].
    destruct (error st) eqn:Ee; [| reflexivity].
    destruct (coh_error _ Hc Ee) as (_ & _ & Hn & _). congruence.
  - intros a. apply overwrite_after, Hc.
Qed.

(** ** Percent *)

(** C4: with an operator pending and a stored operand, percent shows
    the formatted [previousOperand * (current / 100)] and sets the
    overwrite flag, every other cell staying as it was; 200, +, 10, %
    shows "20" and a following = shows "220".  With no operator pending
    (and no error latched, where percent does nothing) it shows the
    formatted [current / 100]. *)
Theorem percent_of_operand :
  (forall actions pending pv,
     let st := run actions in
     pendingOp st = Some pending -> prevValue st = Some pv ->
     applyPercent st =
       {| display :=
            formatNumber (mul pv (div (parseDisplayToNumber (display st)) hundred));
          prevValue := Some pv; pendingOp := Some pending;
          lastOp := lastOp st; previousLine := previousLine st;
          overwrite := true; error := false |}) /\
  (forall st,
     pendingOp st = None -> error st = false ->
     applyPercent st =
       {| display := formatNumber (div (parseDisplayToNumber (display st)) hundred);
          prevValue := prevValue st; pendingOp := None;
          lastOp := lastOp st; previousLine := previousLine st;
          overwrite := true; error := false |}) /\
  (let st :=
     run [digit 2; digit 0; digit 0; op_key Plus; digit 1; digit 0; percent] in
   display st = "20" /\ display (handleButton st equals) = "220").
Proof.
  split; [| split].
  - intros actions pending pv st Hp Hv.
    assert (He : error st = false).
    { destruct (error st) eqn:E; [| reflexivity].
      destruct (coh_error _ (coherent_run actions) E) as (_ & _ & Hn & _).
      fold st in Hn. congruence. }
    unfold applyPercent. rewrite He, Hp, Hv. reflexivity.
  - intros st Hp He. unfold applyPercent. rewrite He, Hp. reflexivity.
  - vm_compute. split; reflexivity.
Qed.

(** The claim's example, through the theorem: after 200, +, 10 the
    percent key shows 10 percent of 200. *)
Lemma percent_of_operand_example :
  let st := run [digit 2; digit 0; digit 0; op_key Plus; digit 1; digit 0] in
  pendingOp st = Some Plus /\ prevValue st = Some (of_Z 200) /\
  display (applyPercent st) = "20" /\ overwrite (applyPercent st) = true /\
  pendingOp (applyPercent st) = Some Plus /\
  prevValue (applyPercent st) = Some (of_Z 200).
Proof.
  pose proof (proj1 percent_of_operand
                [digit 2; digit 0; digit 0; op_key Plus; digit 1; digit 0]
                Plus (of_Z 200)) as E.
  cbv zeta in *.
  assert (Hp : pendingOp
                 (run [digit 2; digit 0; digit 0; op_key Plus; digit 1; digit 0])
               = Some Plus) by (vm_compute; reflexivity).
  assert (Hv : prevValue
                 (run [digit 2; digit 0; digit 0; op_key Plus; digit 1; digit 0])
               = Some (of_Z 200)) by (vm_compute; reflexivity).
  split; [exact Hp |]. split; [exact Hv |].
  rewrite (E Hp Hv).
  cbn [display prevValue pendingOp lastOp previousLine overwrite error].
  split; [vm_compute; reflexivity |].
  split; [reflexivity |]. split; reflexivity.
Defined.

(** ** Replacing the pending operator *)

(** C5: in every reachable state with an operator pending and the
    overwrite flag set, an operator key only replaces the pending
    operator and rewrites the secondary line as the formatted stored
    operand, a space and the new symbol; display, stored operand,
    remembered operation, overwrite flag and error flag stay. *)
Theorem operator_replaced_without_operand :
  forall (actions : list Action) (pending o : Op),
    let st := run actions in
    pendingOp st = Some pending -> overwrite st = true ->
    exists pv,
      prevValue st = Some pv /\ error st = false /\
      setOperator o st =
        {| display := display st; prevValue := prevValue st;
           pendingOp := Some o; lastOp := lastOp st;
           previousLine := formatNumber pv ++ " " ++ opSymbol o;
           overwrite := overwrite st; error := error st |}.
Proof.
  intros actions pending o st Hp Ho.
  pose proof (coherent_run actions) as [He Hpend _]. fold st in He, Hpend.
  destruct (Hpend pending Hp) as [Hv _].
  destruct (prevValue st) as [pv |] eqn:Epv; [| congruence].
  assert (Herr : error st = false).
  { destruct (error st); [| reflexivity].
    destruct (He eq_refl) as (_ & _ & Hn & _). congruence. }
  exists pv. split; [reflexivity |]. split; [exact Herr |].
  unfold setOperator. rewrite Herr, Hp, Ho, Epv. reflexivity.
Qed.

(** The claim's example: 5, +, × leaves "5 ×" on the secondary line,
    multiply pending and 5 stored. *)
Lemma operator_replaced_example :
  let st := run [digit 5; op_key Plus] in
  pendingOp st = Some Plus /\ overwrite st = true /\
  let st' := setOperator Times st in
  st' = run [digit 5; op_key Plus; op_key Times] /\
  previousLine st' = "5 ×" /\ pendingOp st' = Some Times /\
  prevValue st' = Some (of_Z 5) /\ display st' = "5" /\
  lastOp st' = None /\ overwrite st' = true /\ error st' = false.
Proof.
  pose proof (operator_replaced_without_operand [digit 5; op_key Plus]
                Plus Times) as E.
  cbv zeta in *.
  assert (Hp : pendingOp (run [digit 5; op_key Plus]) = Some Plus)
    by (vm_compute; reflexivity).
  assert (Ho : overwrite (run [digit 5; op_key Plus]) = true)
    by (vm_compute; reflexivity).
  split; [exact Hp |]. split; [exact Ho |].
  destruct (E Hp Ho) as (pv & Hv & _ & Heq).
  rewrite Heq.
  assert (H5 : prevValue (run [digit 5; op_key Plus]) = Some (of_Z 5))
    by (vm_compute; reflexivity).
  assert (Hpv : pv = of_Z 5) by congruence.
  subst pv. vm_compute. repeat split.
Defined.

(** ** The stored operand *)

(** After 5, +, 3, = the result 8 stays stored while the next number is
    typed: pressing 7 leaves the operand in place with no operator
    pending, and the last key is not an equals. *)
Lemma stale_operand_after_equals :
  ~ operand_only_pending_or_just_after_equals.
Proof.
  intros H.
  destruct (H [digit 5; op_key Plus; digit 3; equals; digit 7]) as [H1 _].
  destruct H1 as [Hp | (before & Heq & _)].
  - vm_compute. discriminate.
  - vm_compute in Hp. congruence.
  - change [digit 5; op_key Plus; digit 3; equals; digit 7]
      with ([digit 5; op_key Plus; digit 3; equals] ++ [digit 7])%list in Heq.
    apply app_inj_tail in Heq. destruct Heq as [_ Heq]. discriminate.
Qed.

(** Only an equals that completes a pending operation creates the
    remembered operation. *)
Lemma lastOp_origin (st : State) (a : Action) :
  lastOp (handleButton st a) <> None ->
  lastOp st <> None \/ (a = equals /\ pendingOp st <> None).
Proof.
  destruct st as [d pv po lo pl ow er].
  destruct a; unfold_handlers; split_ifs; intros H;
    try (left; exact H); try (exfalso; apply H; reflexivity);
    try (left; discriminate);
    try (right; split; [reflexivity | discriminate]).
Qed.

(** Once an operation is remembered, only an operator key, clear or a
    failed replay ends it; any other key keeps it and the stored
    operand. *)
Lemma lastOp_kept (st : State) (a : Action) :
  lastOp st <> None -> pendingOp st = None -> error st = false ->
  match a with
  | op_key _ | clear => lastOp (handleButton st a) = None
  | _ =>
      (lastOp (handleButton st a) = lastOp st /\
       prevValue (handleButton st a) = prevValue st) \/
      (a = equals /\ error (handleButton st a) = true)
  end.
Proof.
  destruct st as [d pv po lo pl ow er].
  cbn [display prevValue pendingOp lastOp previousLine overwrite error].
  intros Hl -> ->.
  destruct lo as [l |]; [clear Hl | congruence].
  destruct a; unfold_handlers; try reflexivity;
    try (left; split_ifs; split; reflexivity).
  destruct pv; destruct (negb _ || negb _); cbn [lastOp prevValue error]; auto.
Qed.

(** C6, as the code has it: in every reachable state the stored operand
    is present exactly when an operator is pending or an operation is
    remembered; a pending operator excludes a remembered operation; only
    an equals that completes a pending operation creates the remembered
    operation, and once it is there every key other than an operator
    key, clear and an equals whose replay fails keeps it and the stored
    operand, so the operand stays from a completed equals on, also
    while the next number is typed or equals is repeated; an operator
    key pressed with no operator pending stores the number on the
    display in its place and forgets the remembered operation (5, +, 3,
    =, 7, +, 1, = shows "8"); and no operator is pending initially,
    after clear, and in the Error state. *)
Theorem stored_operand_presence :
  forall actions,
    let st := run actions in
    (prevValue st <> None <-> pendingOp st <> None \/ lastOp st <> None) /\
    (pendingOp st <> None -> lastOp st = None) /\
    (forall a, lastOp (handleButton st a) <> None ->
               lastOp st <> None \/ (a = equals /\ pendingOp st <> None)) /\
    (forall a, lastOp st <> None ->
               match a with
               | op_key _ | clear => lastOp (handleButton st a) = None
               | _ =>
                   (lastOp (handleButton st a) = lastOp st /\
                    prevValue (handleButton st a) = prevValue st) \/
                   (a = equals /\ error (handleButton st a) = true)
               end) /\
    (forall o, pendingOp st = None -> error st = false ->
               setOperator o st =
                 {| display := display st;
                    prevValue := Some (parseDisplayToNumber (display st));
                    pendingOp := Some o; lastOp := None;
                    previousLine :=
                      formatNumber (parseDisplayToNumber (display st))
                        ++ " " ++ opSymbol o;
                    overwrite := true; error := false |}) /\
    prevValue (run [digit 5; op_key Plus; digit 3; equals; digit 7])
      = Some (of_Z 8) /\
    prevValue (run [digit 5; op_key Plus; digit 3; equals; digit 7; op_key Plus])
      = Some (of_Z 7) /\
    display (run [digit 5; op_key Plus; digit 3; equals;
                  digit 7; op_key Plus; digit 1; equals]) = "8" /\
    pendingOp initial = None /\
    pendingOp (clearAll st) = None /\
    pendingOp (setErrorState st) = None /\
    (error st = true -> pendingOp st = None).
Proof.
  intros actions st.
  pose proof (coherent_run actions) as [He Hp Hi]. fold st in He, Hp, Hi.
  split; [| split; [| split; [| split; [| split]]]].
  - destruct (pendingOp st) as [p |] eqn:Ep.
    + destruct (Hp p eq_refl) as [Hv _]. split; intros _.
      * left. discriminate.
      * exact Hv.
    + destruct (Hi eq_refl) as [[H1 H2] _]. split.
      * intros Hv. right. intros Hl. apply Hv, H2, Hl.
      * intros [Hc | Hl]; [congruence |]. intros Hv. apply Hl, H1, Hv.
  - intros Hn. destruct (pendingOp st) as [p |] eqn:Ep; [| congruence].
    apply (Hp p eq_refl).
  - intros a. apply lastOp_origin.
  - intros a Hl. apply lastOp_kept; [exact Hl | |].
    + destruct (pendingOp st) as [p |] eqn:Ep; [| reflexivity].
      destruct (Hp p eq_refl) as [_ Hn]. congruence.
    + destruct (error st) eqn:Ee; [| reflexivity].
      destruct (He eq_refl) as (_ & _ & _ & Hn & _). congruence.
  - intros o Ho Hr. unfold setOperator. rewrite Ho, Hr. reflexivity.
  - split; [vm_compute; reflexivity |].
    split; [vm_compute; reflexivity |].
    split; [vm_compute; reflexivity |].
    split; [reflexivity |]. split; [reflexivity |]. split; [reflexivity |].
    intros E. apply (He E).
Qed.

(** ** The operand stored after a computation *)

(** A repeated equals computes too, and leaves the stored operand
    alone: after 5, +, 3, =, = the display shows 11 and the stored
    operand is still 8. *)
Lemma replay_leaves_stored_operand :
  let st := run [digit 5; op_key Plus; digit 3; equals] in
  let result := compute (parseDisplayToNumber (display st)) Plus (of_Z 3) in
  lastOp st = Some {| op := Plus; rhs := of_Z 3 |} /\
  ok result = true /\ isFiniteNumber (value result) = true /\
  display (evaluateEquals st) = formatNumber (value result) /\
  prevValue (evaluateEquals st) <> Some (ofString (display (evaluateEquals st))).
Proof.
  vm_compute. repeat split. discriminate.
Qed.

(** C10, as the code has it: when an operator key or equals computes a
    pending operation and the result is finite, the display becomes the
    formatted result and the stored operand the number read back from
    that text, not the raw result (the repeated-equals replay stores
    nothing). *)
Theorem pending_result_stored_reparsed :
  forall (st : State) (o pending : Op) (pv : num),
    error st = false ->
    pendingOp st = Some pending ->
    prevValue st = Some pv ->
    let result := compute pv pending (parseDisplayToNumber (display st)) in
    ok result = true ->
    isFiniteNumber (value result) = true ->
    (overwrite st = false ->
     display (setOperator o st) = formatNumber (value result) /\
     prevValue (setOperator o st) = Some (ofString (display (setOperator o st)))) /\
    display (evaluateEquals st) = formatNumber (value result) /\
    prevValue (evaluateEquals st) = Some (ofString (display (evaluateEquals st))).
Proof.
  intros st o pending pv He Hp Hv result Hok Hfin. subst result.
  split; [intros Ho; unfold setOperator; rewrite He, Hp, Ho, Hv
         | unfold evaluateEquals; rewrite He, Hp, Hv];
    cbv zeta; rewrite Hok, Hfin;
    cbn [negb orb display prevValue pendingOp lastOp previousLine overwrite error];
    split; reflexivity.
Qed.

(** 0.1 + 0.2: the raw sum is 0.30000000000000004, the display shows
    "0.3" and the operand stored by equals, and by a chaining operator
    key, is the number 0.3. *)
Lemma pending_result_stored_example :
  let st := run [decimal; digit 1; op_key Plus; decimal; digit 2] in
  let raw := add (ofString "0.1") (ofString "0.2") in
  value (compute (ofString "0.1") Plus (parseDisplayToNumber (display st))) = raw /\
  display (evaluateEquals st) = "0.3" /\
  prevValue (evaluateEquals st) = Some (ofString "0.3") /\
  prevValue (setOperator Times st) = Some (ofString "0.3") /\
  ofString "0.3" <> raw.
Proof.
  pose proof (pending_result_stored_reparsed
                (run [decimal; digit 1; op_key Plus; decimal; digit 2])
                Times Plus (ofString "0.1")) as E.
  cbv zeta in *.
  assert (He : error (run [decimal; digit 1; op_key Plus; decimal; digit 2])
               = false) by (vm_compute; reflexivity).
  assert (Hp : pendingOp (run [decimal; digit 1; op_key Plus; decimal; digit 2])
               = Some Plus) by (vm_compute; reflexivity).
  assert (Hv : prevValue (run [decimal; digit 1; op_key Plus; decimal; digit 2])
               = Some (ofString "0.1")) by (vm_compute; reflexivity).
  assert (Ho : overwrite (run [decimal; digit 1; op_key Plus; decimal; digit 2])
               = false) by (vm_compute; reflexivity).
  destruct (E He Hp Hv) as [Hop [Hd Hs]];
    [vm_compute; reflexivity | vm_compute; reflexivity |].
  destruct (Hop Ho) as [Hd' Hs'].
  assert (Hf : formatNumber
                 (value (compute (ofString "0.1") Plus
                           (parseDisplayToNumber
                              (display (run [decimal; digit 1; op_key Plus;
                                             decimal; digit 2])))))
               = "0.3") by (vm_compute; reflexivity).
  split; [vm_compute; reflexivity |].
  split; [rewrite Hd; exact Hf |].
  split; [rewrite Hs, Hd, Hf; reflexivity |].
  split; [rewrite Hs', Hd', Hf; reflexivity |].
  vm_compute. discriminate.
Defined.

(** ** The shape of the display *)

Lemma is_digit_lead (c : ascii) : is_digit c = true -> lead c = true.
Proof.
  destruct c as [[|] [|] [|] [|] [|] [|] [|] [|]];
    intros H; try reflexivity; discriminate H.
Qed.

Lemma is_digit_not_minus (c : ascii) : is_digit c = true -> Ascii.eqb c "-" = false.
Proof.
  destruct c as [[|] [|] [|] [|] [|] [|] [|] [|]];
    intros H; try reflexivity; discriminate H.
Qed.

Lemma is_digit_not_point (c : ascii) : is_digit c = true -> Ascii.eqb c "." = false.
Proof.
  destruct c as [[|] [|] [|] [|] [|] [|] [|] [|]];
    intros H; try reflexivity; discriminate H.
Qed.

Lemma uint_all_digits (u : uint) : all_digits (NilEmpty.string_of_uint u) = true.
Proof.
  induction u; cbn [NilEmpty.string_of_uint all_digits]; auto.
Qed.

(** A printed natural number is a digit followed by digits. *)
Lemma decimal_string_shape (u : uint) :
  exists c r,
    NilZero.string_of_uint u = String c r /\
    is_digit c = true /\ all_digits r = true.
Proof.
  destruct u; cbn [NilZero.string_of_uint NilEmpty.string_of_uint];
    eexists; eexists; (split; [reflexivity |]);
    (split; [reflexivity |]); try reflexivity; apply uint_all_digits.
Qed.

Lemma all_digits_app (s t : string) :
  all_digits s = true -> all_digits t = true -> all_digits (s ++ t) = true.
Proof.
  induction s as [| c r IH]; cbn [append all_digits]; [auto |].
  intros H Ht. apply andb_true_iff in H. destruct H as [Hc Hr].
  rewrite Hc. cbn. auto.
Qed.

Lemma all_digits_numeral (c : ascii) (r : string) :
  is_digit c = true -> all_digits r = true -> unsigned_numeral (String c r) = true.
Proof.
  revert c. induction r as [| c' t IH]; intros c Hc Hr.
  - cbn. rewrite Hc. reflexivity.
  - cbn [all_digits] in Hr. apply andb_true_iff in Hr. destruct Hr as [Hc' Ht].
    cbn [unsigned_numeral]. fold unsigned_numeral.
    rewrite Hc, (is_digit_not_point _ Hc'). cbn [andb].
    apply (IH c' Hc' Ht).
Qed.

Lemma unsigned_numeral_head (s : string) :
  unsigned_numeral s = true ->
  exists c r, s = String c r /\ is_digit c = true.
Proof.
  destruct s as [| c r]; cbn [unsigned_numeral]; [discriminate |].
  intros H. apply andb_true_iff in H. destruct H as [Hc _].
  exists c, r. auto.
Qed.

(** Typing digits after a numeral gives a numeral. *)
Lemma unsigned_numeral_app_digits (p x : string) :
  unsigned_numeral p = true -> all_digits x = true ->
  unsigned_numeral (p ++ x) = true.
Proof.
  induction p as [| c r IH]; [discriminate |].
  intros Hp Hx. cbn [unsigned_numeral] in Hp. fold unsigned_numeral in Hp.
  apply andb_true_iff in Hp. destruct Hp as [Hc Hr].
  destruct r as [| c' t].
  - cbn [append]. destruct x as [| cx rx].
    + cbn. rewrite Hc. reflexivity.
    + cbn [all_digits] in Hx. apply andb_true_iff in Hx. destruct Hx as [Hcx Hrx].
      cbn [unsigned_numeral]. fold unsigned_numeral.
      rewrite Hc, (is_digit_not_point _ Hcx). cbn [andb].
      apply all_digits_numeral; assumption.
  - cbn [append]. cbn [unsigned_numeral]. fold unsigned_numeral.
    rewrite Hc. cbn [andb].
    destruct (Ascii.eqb c' ".") eqn:E.
    + apply all_digits_app; assumption.
    + apply (IH Hr Hx).
Qed.

(** Typing the point after a numeral without one gives a numeral. *)
Lemma unsigned_numeral_app_point (p : string) :
  unsigned_numeral p = true -> includes "." p = false ->
  unsigned_numeral (p ++ ".") = true.
Proof.
  induction p as [| c r IH]; [discriminate |].
  intros Hp Hi. cbn [unsigned_numeral] in Hp. fold unsigned_numeral in Hp.
  apply andb_true_iff in Hp. destruct Hp as [Hc Hr].
  cbn [includes] in Hi. apply orb_false_iff in Hi. destruct Hi as [_ Hi].
  destruct r as [| c' t].
  - cbn. rewrite Hc. reflexivity.
  - cbn [append]. cbn [unsigned_numeral]. fold unsigned_numeral.
    rewrite Hc. cbn [andb].
    destruct (Ascii.eqb c' ".") eqn:E.
    + cbn [includes] in Hi. rewrite E in Hi. discriminate.
    + apply (IH Hr Hi).
Qed.

Lemma all_digits_slice_to_last (s : string) :
  all_digits s = true -> all_digits (slice_to_last s) = true.
Proof.
  induction s as [| c r IH]; [auto |].
  intros H. cbn [all_digits] in H. apply andb_true_iff in H. destruct H as [Hc Hr].
  destruct r as [| c' t]; [reflexivity |].
  cbn [slice_to_last]. fold slice_to_last.
  cbn [all_digits]. rewrite Hc. cbn [andb]. apply (IH Hr).
Qed.

(** Deleting the last character of a numeral of two characters or more
    gives a numeral. *)
Lemma unsigned_numeral_slice_to_last (c c' : ascii) (t : string) :
  unsigned_numeral (String c (String c' t)) = true ->
  unsigned_numeral (slice_to_last (String c (String c' t))) = true.
Proof.
  revert c c'. induction t as [| c'' u IH]; intros c c' H.
  - cbn [unsigned_numeral] in H. apply andb_true_iff in H. destruct H as [Hc _].
    cbn. rewrite Hc. reflexivity.
  - cbn [unsigned_numeral] in H. fold unsigned_numeral in H.
    apply andb_true_iff in H. destruct H as [Hc Hr].
    change (slice_to_last (String c (String c' (String c'' u))))
      with (String c (slice_to_last (String c' (String c'' u)))).
    change (slice_to_last (String c' (String c'' u)))
      with (String c' (slice_to_last (String c'' u))).
    cbn [unsigned_numeral]. fold unsigned_numeral.
    rewrite Hc. cbn [andb].
    destruct (Ascii.eqb c' ".") eqn:E.
    + apply all_digits_slice_to_last. exact Hr.
    + change (String c' (slice_to_last (String c'' u)))
        with (slice_to_last (String c' (String c'' u))).
      apply IH. exact Hr.
Qed.

(** *** The five editing keys keep a numeral a numeral *)

Lemma String_of_digit_shape (d : nat) :
  exists c r,
    String_of_digit d = String c r /\ is_digit c = true /\ all_digits r = true.
Proof.
  apply decimal_string_shape.
Qed.

Lemma String_of_digit_numeral (d : nat) :
  decimal_numeral (String_of_digit d) = true /\
  unsigned_numeral (String_of_digit d) = true /\
  all_digits (String_of_digit d) = true.
Proof.
  destruct (String_of_digit_shape d) as (c & r & -> & Hc & Hr).
  unfold decimal_numeral. rewrite (is_digit_not_minus _ Hc).
  rewrite (all_digits_numeral _ _ Hc Hr).
  cbn [all_digits]. rewrite Hc, Hr. auto.
Qed.

Lemma decimal_numeral_app_digits (p x : string) :
  decimal_numeral p = true -> all_digits x = true ->
  decimal_numeral (p ++ x) = true.
Proof.
  destruct p as [| c r]; [discriminate |].
  unfold decimal_numeral. cbn [append].
  destruct (Ascii.eqb c "-"); intros Hp Hx.
  - apply unsigned_numeral_app_digits; assumption.
  - apply (unsigned_numeral_app_digits (String c r)); assumption.
Qed.

Lemma decimal_numeral_app_point (p : string) :
  decimal_numeral p = true -> includes "." p = false ->
  decimal_numeral (p ++ ".") = true.
Proof.
  destruct p as [| c r]; [discriminate |].
  unfold decimal_numeral. cbn [append].
  destruct (Ascii.eqb c "-") eqn:E; intros Hp Hi.
  - apply unsigned_numeral_app_point; [assumption |].
    cbn [includes] in Hi. apply orb_false_iff in Hi. apply Hi.
  - apply (unsigned_numeral_app_point (String c r)); assumption.
Qed.

Lemma decimal_numeral_toggle (p : string) :
  decimal_numeral p = true ->
  decimal_numeral
    (if startsWith "-" p then slice_from_1 p else "-" ++ p) = true.
Proof.
  destruct p as [| c r]; [discriminate |].
  unfold decimal_numeral at 1. cbn [startsWith slice_from_1].
  destruct (Ascii.eqb c "-") eqn:E; intros Hp.
  - destruct (unsigned_numeral_head _ Hp) as (c' & r' & -> & Hc').
    unfold decimal_numeral. rewrite (is_digit_not_minus _ Hc'). exact Hp.
  - cbn [append decimal_numeral]. cbn. exact Hp.
Qed.

Lemma decimal_numeral_backspace (p : string) :
  decimal_numeral p = true ->
  (String.length p <=? 1)%nat = false ->
  (String.length p =? 2)%nat && startsWith "-" p = false ->
  decimal_numeral (slice_to_last p) = true.
Proof.
  destruct p as [| c [| c' t]]; try discriminate.
  unfold decimal_numeral at 1. cbn [startsWith String.length].
  destruct (Ascii.eqb c "-") eqn:E; intros Hp _ H2.
  - destruct t as [| c'' u].
    + cbn in H2. discriminate.
    + change (slice_to_last (String c (String c' (String c'' u))))
        with (String c (slice_to_last (String c' (String c'' u)))).
      unfold decimal_numeral. rewrite E.
      apply unsigned_numeral_slice_to_last. exact Hp.
  - pose proof (unsigned_numeral_slice_to_last _ _ _ Hp) as Hs.
    destruct (unsigned_numeral_head _ Hs) as (c1 & r1 & Heq & Hc1).
    rewrite Heq in *. unfold decimal_numeral.
    rewrite (is_digit_not_minus _ Hc1). exact Hs.
Qed.

Lemma editing_keeps_numeral (st : State) (a : Action) :
  editing a = true ->
  decimal_numeral (display st) = true \/ error st = true ->
  decimal_numeral (display (handleButton st a)) = true \/
  error (handleButton st a) = true.
Proof.
  destruct st as [d pv po lo pl ow er].
  cbn [display error].
  destruct a as [n | | | | | | |]; cbn [editing]; try discriminate; intros _ H;
    unfold handleButton.
  - (* digit *)
    left. destruct (String_of_digit_numeral n) as (Hn & Hu & Ha).
    unfold inputDigit. cbn [display overwrite error].
    destruct er; [exact Hn |]. destruct ow; [exact Hn |].
    destruct H as [H | H]; [| discriminate].
    cbn [display].
    destruct (String.eqb d "0"); [exact Hn |].
    destruct (String.eqb d "-0").
    + destruct (String_of_digit_shape n) as (c & r & Heq & Hc & Hr).
      rewrite Heq in *. cbn [append]. unfold decimal_numeral.
      cbn. exact Hu.
    + apply decimal_numeral_app_digits; assumption.
  - (* decimal *)
    left. unfold inputDecimal. cbn [display overwrite error].
    destruct er; [reflexivity |]. destruct ow; [reflexivity |].
    destruct H as [H | H]; [| discriminate].
    cbn [display].
    destruct (includes "." d) eqn:Ei; [exact H |].
    destruct (String.eqb d "Error"); [reflexivity |].
    destruct (String.eqb d "-" || String.eqb d ""); [reflexivity |].
    apply decimal_numeral_app_point; assumption.
  - (* clear *)
    left. reflexivity.
  - (* sign *)
    unfold toggleSign. cbn [display error].
    destruct er; [right; reflexivity |].
    destruct H as [H | H]; [| discriminate].
    left. cbn [display].
    destruct (String.eqb d "0" || String.eqb d "0.") eqn:E0.
    + destruct (endsWith "." d); reflexivity.
    + destruct (String.eqb d "-0" || String.eqb d "-0.") eqn:E1.
      * destruct (endsWith "." d); reflexivity.
      * apply decimal_numeral_toggle. exact H.
  - (* backspace *)
    left. unfold backspace, clearAll. cbn [display overwrite error].
    destruct er; [reflexivity |].
    destruct H as [H | H]; [| discriminate].
    cbn [display].
    destruct ow; [reflexivity |].
    destruct (String.length d <=? 1)%nat eqn:E1; [reflexivity |].
    destruct ((String.length d =? 2)%nat && startsWith "-" d) eqn:E2;
      [reflexivity |].
    apply decimal_numeral_backspace; assumption.
Qed.

(** *** What [String(x)] and [formatNumber] start with *)

Lemma led_well_headed (s : string) : led s = true -> well_headed s = true.
Proof.
  destruct s as [| c [| c' t]]; cbn; [discriminate | |].
  - destruct (Ascii.eqb c "-"); auto.
  - destruct (Ascii.eqb c "-"); [| auto].
    unfold lead. intros H. apply andb_true_iff in H. apply H.
Qed.

Lemma digit_led (c : ascii) (r : string) :
  is_digit c = true -> led (String c r) = true.
Proof.
  intros H. cbn [led]. rewrite (is_digit_not_minus _ H).
  apply is_digit_lead, H.
Qed.

Lemma render_head (ds : string) (n : Z) :
  (exists c r, ds = String c r /\ is_digit c = true) ->
  exists c r, render ds n = String c r /\ is_digit c = true.
Proof.
  intros (c & r & -> & Hc). unfold render.
  destruct ((Z.of_nat (String.length (String c r)) <=? n) && (n <=? 21)).
  { cbn [append]. eauto. }
  destruct ((0 <? n) && (n <=? 21)) eqn:E.
  { apply andb_true_iff in E. destruct E as [E _]. apply Z.ltb_lt in E.
    destruct (Z.to_nat n) as [| k] eqn:En; [lia |].
    cbn [substring append]. eauto. }
  destruct ((-6 <? n) && (n <=? 0)).
  { cbn [append]. exists "0"%char. eexists. split; reflexivity. }
  destruct r; eauto.
Qed.

Lemma toString_pos_head (m : positive) (e : Z) :
  exists c r, toString_pos m e = String c r /\ is_digit c = true.
Proof.
  unfold toString_pos.
  destruct (fraction m e) as [a b].
  destruct (shortest 17 (S754_finite false m e) a b (magnitude a b) 1) as [s n].
  apply render_head. unfold digits.
  destruct (decimal_string_shape (N.to_uint (Z.to_N s))) as (c & r & H & Hc & _).
  eauto.
Qed.

Lemma toString_led (x : num) : led (toString x) = true.
Proof.
  destruct x as [s | [|] | | [|] m e]; try reflexivity.
  - cbn [toString].
    destruct (toString_pos_head m e) as (c & r & -> & Hc).
    cbn [append led]. cbn. apply is_digit_lead, Hc.
  - cbn [toString].
    destruct (toString_pos_head m e) as (c & r & -> & Hc).
    apply digit_led, Hc.
Qed.

(** *** Trimming only removes a tail *)

Lemma drop_zeros_split (l : list ascii) :
  exists z,
    l = (z ++ drop_zeros l)%list /\ Forall (fun c => c = "0"%char) z.
Proof.
  induction l as [| c r (z & Hz & Hf)].
  - exists []. split; [reflexivity | constructor].
  - cbn [drop_zeros]. destruct (Ascii.eqb c "0") eqn:E.
    + apply Ascii.eqb_eq in E. exists (c :: z). split.
      * cbn. f_equal. exact Hz.
      * constructor; assumption.
    + exists []. split; [reflexivity | constructor].
Qed.

Lemma zeros_no_point (z : list ascii) :
  Forall (fun c => c = "0"%char) z -> ~ In "."%char z.
Proof.
  intros Hf Hin. rewrite Forall_forall in Hf.
  specialize (Hf _ Hin). discriminate.
Qed.

(** [trim_list] returns a prefix of its argument; a point of the
    argument is either kept or the first character cut off. *)
Lemma trim_list_prefix (l : list ascii) :
  exists q,
    l = (trim_list l ++ q)%list /\
    (In "."%char l -> In "."%char (trim_list l) \/ exists q', q = "."%char :: q').
Proof.
  unfold trim_list.
  destruct (List.rev l) as [| c r] eqn:E.
  { exists []. rewrite app_nil_r. auto. }
  destruct (Ascii.eqb c "0") eqn:Ec.
  2:{ exists []. rewrite app_nil_r. auto. }
  apply Ascii.eqb_eq in Ec. subst c.
  assert (Hl : l = (List.rev r ++ ["0"%char])%list).
  { rewrite <- (rev_involutive l), E. reflexivity. }
  destruct (drop_zeros_split r) as (z & Hz & Hf).
  assert (Hzr : Forall (fun c => c = "0"%char) (List.rev z ++ ["0"%char])%list).
  { apply Forall_app. split; [apply Forall_rev, Hf | repeat constructor]. }
  destruct (drop_zeros r) as [| c' r'] eqn:Ed.
  - exists l. split; [reflexivity |].
    intros Hin. exfalso. rewrite app_nil_r in Hz. subst r.
    rewrite Hl in Hin. exact (zeros_no_point _ Hzr Hin).
  - assert (Hl' : l = (List.rev r' ++ c' :: (List.rev z ++ ["0"%char]))%list).
    { rewrite Hl, Hz, rev_app_distr. cbn [List.rev].
      rewrite <- !app_assoc. reflexivity. }
    destruct (Ascii.eqb c' ".") eqn:Ep.
    + apply Ascii.eqb_eq in Ep. subst c'.
      exists ("."%char :: (List.rev z ++ ["0"%char]))%list.
      split; [exact Hl' |]. intros _. right. eauto.
    + exists (List.rev z ++ ["0"%char])%list. cbn [List.rev]. split.
      * rewrite <- app_assoc. exact Hl'.
      * intros Hin. left. rewrite Hl' in Hin.
        apply in_app_or in Hin. apply in_or_app.
        destruct Hin as [Hin | [Hin | Hin]]; [left; exact Hin | |].
        -- right. left. exact Hin.
        -- exfalso. exact (zeros_no_point _ Hzr Hin).
Qed.

Lemma includes_In (c : ascii) (s : string) :
  includes c s = true <-> In c (list_ascii_of_string s).
Proof.
  induction s as [| c' r IH]; cbn [includes list_ascii_of_string In].
  - split; [discriminate | contradiction].
  - rewrite orb_true_iff, IH, Ascii.eqb_eq. reflexivity.
Qed.

Lemma string_of_list_ascii_app (l1 l2 : list ascii) :
  string_of_list_ascii (l1 ++ l2) =
  string_of_list_ascii l1 ++ string_of_list_ascii l2.
Proof.
  induction l1 as [| c r IH]; cbn; [reflexivity |]. rewrite IH. reflexivity.
Qed.

Lemma trim_zeros_prefix (s : string) :
  exists q,
    s = trim_zeros s ++ q /\
    (includes "." s = true ->
     includes "." (trim_zeros s) = true \/ exists q', q = String "." q').
Proof.
  unfold trim_zeros.
  destruct (trim_list_prefix (list_ascii_of_string s)) as (q & Hq & Hin).
  exists (string_of_list_ascii q). split.
  - rewrite <- string_of_list_ascii_app, <- Hq.
    symmetry. apply string_of_list_ascii_of_string.
  - intros Hi. apply includes_In in Hi. destruct (Hin Hi) as [H | (q' & ->)].
    + left. apply includes_In.
      rewrite list_ascii_of_string_of_list_ascii. exact H.
    + right. exists (string_of_list_ascii q'). reflexivity.
Qed.

(** A prefix that reaches the first point keeps the head. *)
Lemma prefix_well_headed (p q : string) :
  led (p ++ q) = true ->
  (includes "." p = true \/ exists q', q = String "." q') ->
  well_headed p = true.
Proof.
  destruct p as [| c1 [| c2 t]]; cbn [append].
  - intros Hl [H | (q' & ->)]; [discriminate |].
    cbn in Hl. discriminate.
  - cbn [led well_headed]. destruct (Ascii.eqb c1 "-") eqn:E; [| auto].
    intros Hl [H | (q' & ->)].
    + cbn [includes] in H. apply Ascii.eqb_eq in E. subst c1. discriminate.
    + cbn in Hl. discriminate.
  - cbn [led well_headed]. destruct (Ascii.eqb c1 "-"); [| auto].
    unfold lead. intros Hl _. apply andb_true_iff in Hl. apply Hl.
Qed.

Lemma formatNumber_well_headed (n : num) : well_headed (formatNumber n) = true.
Proof.
  unfold formatNumber.
  destruct (negb (isFiniteNumber n)); [reflexivity |].
  cbv zeta.
  set (x := if is_neg_zero _ then zero else _).
  pose proof (toString_led x) as Hl.
  destruct (includes "e" (toString x) || includes "E" (toString x)).
  { apply led_well_headed, Hl. }
  destruct (includes "." (toString x)) eqn:Ei.
  2:{ apply led_well_headed, Hl. }
  destruct (trim_zeros_prefix (toString x)) as (q & Hq & Hp).
  apply (prefix_well_headed _ q).
  - rewrite <- Hq. exact Hl.
  - apply Hp, Ei.
Qed.

(** *** Every key keeps the display well headed *)

Lemma well_headed_app (p x : string) :
  well_headed p = true -> well_headed (p ++ x) = true.
Proof.
  destruct p as [| c [| c' t]]; cbn [append well_headed]; try discriminate.
  - destruct (Ascii.eqb c "-"); [discriminate | auto].
  - auto.
Qed.

Lemma well_headed_digit (d : nat) :
  well_headed (String_of_digit d) = true /\
  well_headed ("-" ++ String_of_digit d) = true.
Proof.
  destruct (String_of_digit_shape d) as (c & r & -> & Hc & _).
  cbn [append well_headed]. cbn. rewrite (is_digit_not_minus _ Hc). auto.
Qed.

Lemma well_headed_toggle (p : string) :
  well_headed p = true ->
  well_headed (if startsWith "-" p then slice_from_1 p else "-" ++ p) = true.
Proof.
  destruct p as [| c [| c' t]]; cbn [startsWith slice_from_1 well_headed append];
    try discriminate.
  - destruct (Ascii.eqb c "-") eqn:E; [discriminate |].
    intros _. cbn. rewrite E. reflexivity.
  - destruct (Ascii.eqb c "-") eqn:E.
    + intros H. apply negb_true_iff in H. cbn [well_headed].
      rewrite H. reflexivity.
    + intros _. cbn. rewrite E. reflexivity.
Qed.

Lemma well_headed_backspace (p : string) :
  well_headed p = true ->
  (String.length p <=? 1)%nat = false ->
  (String.length p =? 2)%nat && startsWith "-" p = false ->
  well_headed (slice_to_last p) = true.
Proof.
  destruct p as [| c [| c' [| c'' u]]]; try discriminate.
  - cbn [String.length startsWith well_headed]. cbn [Nat.eqb andb].
    intros _ _ E. cbn [slice_to_last well_headed]. rewrite E. reflexivity.
  - change (slice_to_last (String c (String c' (String c'' u))))
      with (String c (String c' (slice_to_last (String c'' u)))).
    cbn [well_headed]. auto.
Qed.

Lemma well_headed_step (st : State) (a : Action) :
  well_headed (display st) = true ->
  well_headed (display (handleButton st a)) = true.
Proof.
  destruct st as [d pv po lo pl ow er]. cbn [display]. intros H.
  destruct a as [n | | o | | | | |]; unfold handleButton.
  - unfold inputDigit. cbn [display overwrite error].
    destruct (well_headed_digit n) as [H1 H2].
    destruct er; [exact H1 |]. destruct ow; [exact H1 |]. cbn [display].
    destruct (String.eqb d "0"); [exact H1 |].
    destruct (String.eqb d "-0"); [exact H2 |].
    apply well_headed_app, H.
  - unfold inputDecimal. cbn [display overwrite error].
    destruct er; [reflexivity |]. destruct ow; [reflexivity |]. cbn [display].
    destruct (includes "." d); [exact H |].
    destruct (String.eqb d "Error"); [reflexivity |].
    destruct (String.eqb d "-" || String.eqb d ""); [reflexivity |].
    apply well_headed_app, H.
  - unfold setOperator, setErrorState.
    cbn [display prevValue pendingOp overwrite error].
    destruct er; [exact H |]. destruct po; [| exact H].
    destruct ow; [exact H |]. destruct pv; [| exact H].
    cbv zeta.
    destruct (negb _ || negb _); [reflexivity |].
    apply formatNumber_well_headed.
  - unfold evaluateEquals, setErrorState.
    cbn [display prevValue pendingOp lastOp overwrite error].
    destruct er; [exact H |].
    destruct po, pv, lo; cbv zeta; try exact H;
      destruct (negb _ || negb _); try reflexivity;
      apply formatNumber_well_headed.
  - reflexivity.
  - unfold toggleSign. cbn [display error].
    destruct er; [exact H |]. cbn [display].
    destruct (String.eqb d "0" || String.eqb d "0.").
    { destruct (endsWith "." d); reflexivity. }
    destruct (String.eqb d "-0" || String.eqb d "-0.").
    { destruct (endsWith "." d); reflexivity. }
    apply well_headed_toggle, H.
  - unfold applyPercent. cbn [display prevValue pendingOp error].
    destruct er; [exact H |].
    destruct po, pv; apply formatNumber_well_headed.
  - unfold backspace, clearAll. cbn [display overwrite error].
    destruct er; [reflexivity |]. cbn [display].
    destruct ow; [reflexivity |].
    destruct (String.length d <=? 1)%nat eqn:E1; [reflexivity |].
    destruct ((String.length d =? 2)%nat && startsWith "-" d) eqn:E2;
      [reflexivity |].
    apply well_headed_backspace; assumption.
Qed.

Lemma well_headed_run (actions : list Action) :
  well_headed (display (run actions)) = true.
Proof.
  apply (run_ind (fun st => well_headed (display st) = true));
    [reflexivity | exact well_headed_step].
Qed.

(** 0.00001 and then percent: the result 1e-7 is shown in exponential
    notation, which is neither a decimal numeral nor the error marker. *)
Lemma exponent_on_display :
  let st :=
    run [decimal; digit 0; digit 0; digit 0; digit 0; digit 1; percent] in
  display st = "1e-7" /\ error st = false /\
  ~ numeral_or_marker (display st).
Proof.
  vm_compute. split; [reflexivity |]. split; [reflexivity |].
  intros [H | H]; discriminate H.
Qed.

(** A key that computes leaves the display, latches the error marker or
    shows what [formatNumber] returns. *)
Lemma computing_key_display (st : State) (a : Action) :
  editing a = false ->
  display (handleButton st a) = display st \/
  display (handleButton st a) = "Error" \/
  exists v, display (handleButton st a) = formatNumber v.
Proof.
  destruct st as [d pv po lo pl ow er].
  destruct a; cbn [editing]; try discriminate; intros _;
    unfold_handlers; split_ifs; eauto.
Qed.

(** ** Formatting *)

(** C8: what [formatNumber] does on the claim's examples and where it
    leaves the rounding the claim describes.  A number that is not
    finite gives the error marker and 0.1 + 0.2 gives "0.3"; but the
    number 424631.3526954118 gives "424631.3526954119", and the finite
    number 1e300 gives "Infinity". *)
Theorem formatNumber_rounding :
  (forall n, isFiniteNumber n = false -> formatNumber n = "Error") /\
  (let sum := add (ofString "0.1") (ofString "0.2") in
   toString sum = "0.30000000000000004" /\ formatNumber sum = "0.3" /\
   rounded_to_10_places sum = "0.3") /\
  (let n := ofString "424631.3526954118" in
   isFiniteNumber n = true /\ toString n = "424631.3526954118" /\
   rounded_to_10_places n = "424631.3526954118" /\
   formatNumber n = "424631.3526954119") /\
  (let n := ofString "1e300" in
   isFiniteNumber n = true /\ toString n = "1e+300" /\
   formatNumber n = "Infinity").
Proof.
  split; [| split; [| split]].
  - intros n H. unfold formatNumber. rewrite H. reflexivity.
  - vm_compute. repeat split.
  - vm_compute. repeat split.
  - vm_compute. repeat split.
Qed.

(** C9: formatting what was formatted and read back is not always the
    same text.  The number 424631.35269541177 is shown as
    "424631.3526954118", which read back and formatted again is
    "424631.3526954119"; 1e300 is shown as "Infinity", which read back
    and formatted again is the error marker. *)
Theorem formatNumber_not_idempotent :
  (let x := ofString "424631.35269541177" in
   isFiniteNumber x = true /\
   formatNumber x = "424631.3526954118" /\
   formatNumber (parseDisplayToNumber (formatNumber x)) = "424631.3526954119") /\
  (let x := ofString "1e300" in
   isFiniteNumber x = true /\
   formatNumber x = "Infinity" /\
   formatNumber (parseDisplayToNumber (formatNumber x)) = "Error").
Proof.
  split; vm_compute; repeat split.
Qed.

(** ** The tail of a formatted number *)

Lemma count_points_app (s t : string) :
  count_points (s ++ t) = (count_points s + count_points t)%nat.
Proof.
  induction s as [| c r IH]; cbn [append count_points]; [reflexivity |].
  rewrite IH. lia.
Qed.

Lemma count_points_includes (s : string) :
  count_points s = 0%nat <-> includes "." s = false.
Proof.
  induction s as [| c r IH]; cbn [count_points includes]; [tauto |].
  destruct (Ascii.eqb c "."); cbn [orb].
  - split; [lia | discriminate].
  - exact IH.
Qed.

Lemma all_digits_no_point (s : string) :
  all_digits s = true -> count_points s = 0%nat.
Proof.
  induction s as [| c r IH]; cbn [all_digits count_points]; [reflexivity |].
  intros H. apply andb_true_iff in H. destruct H as [Hc Hr].
  rewrite (is_digit_not_point _ Hc), (IH Hr). reflexivity.
Qed.

Lemma ends_in_digit_app (s t : string) :
  t <> "" -> ends_in_digit (s ++ t) = ends_in_digit t.
Proof.
  intros Ht. induction s as [| c r IH]; cbn [append]; [reflexivity |].
  cbn [ends_in_digit]. rewrite IH.
  destruct (r ++ t) eqn:E; [| reflexivity].
  destruct r; cbn in E; [congruence | discriminate].
Qed.

Lemma all_digits_ends_in_digit (s : string) :
  all_digits s = true -> s <> "" -> ends_in_digit s = true.
Proof.
  induction s as [| c r IH]; [congruence |].
  cbn [all_digits]. intros H _. apply andb_true_iff in H. destruct H as [Hc Hr].
  destruct r as [| c' t]; [exact Hc |].
  change (ends_in_digit (String c (String c' t)))
    with (ends_in_digit (String c' t)).
  apply IH; [exact Hr | discriminate].
Qed.

Lemma ends_in_digit_not (c : ascii) (s : string) :
  is_digit c = false -> ends_in_digit s = true -> endsWith c s = false.
Proof.
  intros Hc. induction s as [| c' r IH]; [reflexivity |].
  destruct r as [| c'' t].
  - cbn. intros H. destruct (Ascii.eqb c' c) eqn:E; [| reflexivity].
    apply Ascii.eqb_eq in E. congruence.
  - change (ends_in_digit (String c' (String c'' t)))
      with (ends_in_digit (String c'' t)).
    change (endsWith c (String c' (String c'' t)))
      with (endsWith c (String c'' t)).
    exact IH.
Qed.

Lemma all_digits_zeros (k : nat) : all_digits (zeros k) = true.
Proof.
  induction k; cbn; auto.
Qed.

Lemma all_digits_substring (s : string) (n m : nat) :
  all_digits s = true -> all_digits (substring n m s) = true.
Proof.
  revert n m. induction s as [| c r IH]; intros n m H.
  - destruct n, m; reflexivity.
  - cbn [all_digits] in H. apply andb_true_iff in H. destruct H as [Hc Hr].
    destruct n as [| n'].
    + destruct m as [| m']; [reflexivity |].
      cbn [substring all_digits]. rewrite Hc. cbn [andb]. apply IH, Hr.
    + cbn [substring]. apply IH, Hr.
Qed.

Lemma substring_nonempty (s : string) (n m : nat) :
  (n < String.length s)%nat -> (0 < m)%nat -> substring n m s <> "".
Proof.
  revert n m. induction s as [| c r IH]; intros n m Hn Hm.
  - cbn in Hn. lia.
  - destruct n as [| n'].
    + destruct m as [| m']; [lia |]. cbn [substring]. discriminate.
    + cbn [substring]. apply IH; [cbn [String.length] in Hn; lia | exact Hm].
Qed.

Lemma digits_shape (s : Z) :
  all_digits (digits s) = true /\ digits s <> "".
Proof.
  unfold digits.
  destruct (decimal_string_shape (N.to_uint (Z.to_N s))) as (c & r & -> & Hc & Hr).
  cbn [all_digits]. rewrite Hc, Hr. split; [reflexivity | discriminate].
Qed.

(** A rendered number has at most one point and ends in a digit. *)
Lemma render_tail (ds : string) (n : Z) :
  all_digits ds = true -> ds <> "" ->
  (count_points (render ds n) <= 1)%nat /\ ends_in_digit (render ds n) = true.
Proof.
  intros Hd Hne. unfold render.
  pose proof (all_digits_no_point _ Hd) as Hc.
  destruct ((Z.of_nat (String.length ds) <=? n) && (n <=? 21)) eqn:E1.
  { assert (Ha : all_digits (ds ++ zeros (Z.to_nat (n - Z.of_nat (String.length ds)))) = true)
      by (apply all_digits_app; [exact Hd | apply all_digits_zeros]).
    split.
    - rewrite (all_digits_no_point _ Ha). lia.
    - apply all_digits_ends_in_digit; [exact Ha |].
      destruct ds; [congruence | discriminate]. }
  destruct ((0 <? n) && (n <=? 21)) eqn:E2.
  { apply andb_true_iff in E2. destruct E2 as [E2 E3].
    apply Z.ltb_lt in E2.
    assert (Hlt : n < Z.of_nat (String.length ds)).
    { apply andb_false_iff in E1. destruct E1 as [E1 | E1].
      - apply Z.leb_gt in E1. exact E1.
      - congruence. }
    set (a := substring 0 (Z.to_nat n) ds).
    set (b := substring (Z.to_nat n) (Z.to_nat (Z.of_nat (String.length ds) - n)) ds).
    assert (Ha : all_digits a = true) by (apply all_digits_substring, Hd).
    assert (Hb : all_digits b = true) by (apply all_digits_substring, Hd).
    assert (Hbn : b <> "") by (apply substring_nonempty; lia).
    split.
    - rewrite !count_points_app, (all_digits_no_point _ Ha),
        (all_digits_no_point _ Hb). cbn. lia.
    - rewrite ends_in_digit_app.
      + rewrite ends_in_digit_app; [| exact Hbn].
        apply all_digits_ends_in_digit; assumption.
      + destruct b; [congruence | discriminate]. }
  destruct ((-6 <? n) && (n <=? 0)) eqn:E3.
  { split.
    - rewrite !count_points_app, Hc,
        (all_digits_no_point _ (all_digits_zeros _)). cbn. lia.
    - rewrite ends_in_digit_app.
      + rewrite ends_in_digit_app; [| exact Hne].
        apply all_digits_ends_in_digit; assumption.
      + destruct (zeros (Z.to_nat (- n))); destruct ds; try congruence;
          discriminate. }
  cbv zeta.
  set (es := (if n - 1 <? 0 then "-" else "+") ++ digits (Z.abs (n - 1))).
  destruct (digits_shape (Z.abs (n - 1))) as [Hed Hen].
  assert (Hes : count_points es = 0%nat /\ ends_in_digit es = true).
  { unfold es. rewrite count_points_app, (all_digits_no_point _ Hed).
    rewrite ends_in_digit_app; [| exact Hen].
    split; [destruct (n - 1 <? 0); reflexivity |].
    apply all_digits_ends_in_digit; assumption. }
  destruct Hes as [Hes1 Hes2].
  assert (Hesn : es <> "") by (destruct es; [discriminate | discriminate]).
  destruct ds as [| c r]; [congruence |].
  cbn [all_digits] in Hd. apply andb_true_iff in Hd. destruct Hd as [Hdc Hdr].
  destruct r as [| c' t].
  - split.
    + change (String c ("e" ++ es)) with ((String c "e") ++ es).
      rewrite count_points_app, Hes1. cbn [count_points].
      rewrite (is_digit_not_point _ Hdc). cbn. lia.
    + change (String c ("e" ++ es)) with ((String c "e") ++ es).
      rewrite ends_in_digit_app; assumption.
  - split.
    + change (String c ("." ++ String c' t ++ "e" ++ es))
        with ((String c ".") ++ (String c' t ++ ("e" ++ es))).
      rewrite !count_points_app, (all_digits_no_point _ Hdr), Hes1.
      cbn [count_points]. rewrite (is_digit_not_point _ Hdc). cbn. lia.
    + change (String c ("." ++ String c' t ++ "e" ++ es))
        with ((String c ".") ++ (String c' t ++ ("e" ++ es))).
      rewrite ends_in_digit_app.
      * rewrite ends_in_digit_app; [| discriminate].
        rewrite ends_in_digit_app; assumption.
      * discriminate.
Qed.

Lemma toString_tail (x : num) :
  (count_points (toString x) <= 1)%nat /\ endsWith "." (toString x) = false.
Proof.
  assert (Hp : forall m e,
             (count_points (toString_pos m e) <= 1)%nat /\
             ends_in_digit (toString_pos m e) = true).
  { intros m e. unfold toString_pos.
    destruct (fraction m e) as [a b].
    destruct (shortest 17 (S754_finite false m e) a b (magnitude a b) 1) as [s n].
    destruct (digits_shape s) as [Hd Hn].
    apply render_tail; assumption. }
  destruct x as [s | [|] | | [|] m e]; cbn [toString];
    try (split; [cbn; lia | reflexivity]).
  - destruct (Hp m e) as [Hc He]. split.
    + rewrite count_points_app. cbn. exact Hc.
    + apply ends_in_digit_not; [reflexivity |].
      rewrite ends_in_digit_app; [exact He |].
      destruct (toString_pos m e); [discriminate | discriminate].
  - destruct (Hp m e) as [Hc He]. split; [exact Hc |].
    apply ends_in_digit_not; [reflexivity | exact He].
Qed.

Lemma endsWith_includes (c : ascii) (s : string) :
  endsWith c s = true -> includes c s = true.
Proof.
  induction s as [| c' r IH]; [discriminate |].
  destruct r as [| c'' t].
  - cbn. intros H. rewrite H. reflexivity.
  - change (endsWith c (String c' (String c'' t)))
      with (endsWith c (String c'' t)).
    intros H. cbn [includes]. cbn [includes] in IH. rewrite (IH H).
    apply orb_true_r.
Qed.

Lemma endsWith_snoc (c c' : ascii) (p : list ascii) :
  endsWith c (string_of_list_ascii (p ++ [c'])) = Ascii.eqb c' c.
Proof.
  induction p as [| a p IH]; [reflexivity |].
  cbn [List.app string_of_list_ascii].
  destruct (string_of_list_ascii (p ++ [c'])) eqn:E.
  - destruct p; discriminate E.
  - cbn [endsWith]. exact IH.
Qed.

Lemma endsWith_inv (c : ascii) (s : string) :
  endsWith c s = true -> exists p, list_ascii_of_string s = (p ++ [c])%list.
Proof.
  induction s as [| c' r IH]; [discriminate |].
  destruct r as [| c'' t].
  - cbn. intros H. apply Ascii.eqb_eq in H. subst. exists []. reflexivity.
  - change (endsWith c (String c' (String c'' t)))
      with (endsWith c (String c'' t)).
    intros H. destruct (IH H) as (p & Hp). exists (c' :: p).
    cbn [list_ascii_of_string List.app] in *. rewrite Hp. reflexivity.
Qed.

Lemma drop_zeros_head (l : list ascii) (c : ascii) (r : list ascii) :
  drop_zeros l = c :: r -> Ascii.eqb c "0" = false.
Proof.
  induction l as [| a l IH]; cbn [drop_zeros]; [discriminate |].
  destruct (Ascii.eqb a "0") eqn:E; [exact IH |].
  intros H. injection H as <- _. exact E.
Qed.

(** The four ways [trim_list] ends: nothing to trim; zeros and the
    point before them cut; zeros cut after another character; nothing
    but zeros. *)
Lemma trim_list_cases (l : list ascii) :
  (trim_list l = l /\ forall p, l <> (p ++ ["0"%char])%list) \/
  (exists z, l = (trim_list l ++ "."%char :: z)%list) \/
  (exists p c,
     trim_list l = (p ++ [c])%list /\
     Ascii.eqb c "0" = false /\ Ascii.eqb c "." = false) \/
  trim_list l = [].
Proof.
  unfold trim_list.
  destruct (List.rev l) as [| c r] eqn:E.
  { left. split; [reflexivity |]. intros p Hp.
    rewrite Hp, rev_app_distr in E. discriminate E. }
  assert (Hl : l = (List.rev r ++ [c])%list).
  { rewrite <- (rev_involutive l), E. reflexivity. }
  destruct (Ascii.eqb c "0") eqn:Ec.
  2:{ left. split; [reflexivity |]. intros p Hp. rewrite Hp in Hl.
      apply app_inj_tail in Hl. destruct Hl as [_ <-]. discriminate Ec. }
  destruct (drop_zeros_split r) as (z & Hz & _).
  destruct (drop_zeros r) as [| c' r'] eqn:Ed; [right; right; right; reflexivity |].
  pose proof (drop_zeros_head _ _ _ Ed) as H0.
  destruct (Ascii.eqb c' ".") eqn:Ep.
  - right; left. apply Ascii.eqb_eq in Ep. subst c'.
    exists (List.rev z ++ [c])%list.
    rewrite Hl, Hz, rev_app_distr. cbn [List.rev].
    rewrite <- !app_assoc. reflexivity.
  - right; right; left. exists (List.rev r'), c'. cbn [List.rev]. auto.
Qed.

(** X1: a formatted number never ends in a point and, outside
    exponential notation, never in a zero after a point. *)
Theorem formatNumber_tail :
  forall n,
    endsWith "." (formatNumber n) = false /\
    (includes "e" (formatNumber n) = false ->
     includes "E" (formatNumber n) = false ->
     includes "." (formatNumber n) = true ->
     endsWith "0" (formatNumber n) = false).
Proof.
  intros n. unfold formatNumber.
  destruct (negb (isFiniteNumber n)); [split; [reflexivity | discriminate] |].
  cbv zeta.
  set (x := if is_neg_zero _ then zero else _).
  destruct (toString_tail x) as [Hc Hp].
  destruct (includes "e" (toString x) || includes "E" (toString x)) eqn:Ee.
  { split; [exact Hp |]. intros H1 H2. rewrite H1, H2 in Ee. discriminate. }
  destruct (includes "." (toString x)) eqn:Ei.
  2:{ split; [exact Hp |]. intros _ _ H. rewrite H in Ei. discriminate. }
  unfold trim_zeros.
  assert (Hs : toString x = string_of_list_ascii (list_ascii_of_string (toString x)))
    by (symmetry; apply string_of_list_ascii_of_string).
  destruct (trim_list_cases (list_ascii_of_string (toString x)))
    as [[Ht Hn] | [(z & Hz) | [(p & c & Ht & H0 & Hd) | Ht]]].
  - rewrite Ht, <- Hs. split; [exact Hp |]. intros _ _ _.
    destruct (endsWith "0" (toString x)) eqn:E0; [| reflexivity].
    destruct (endsWith_inv _ _ E0) as (p & Hp'). destruct (Hn p Hp').
  - set (t := trim_list (list_ascii_of_string (toString x))) in *.
    assert (H0 : count_points (string_of_list_ascii t) = 0%nat).
    { rewrite Hs, Hz, string_of_list_ascii_app, count_points_app in Hc.
      cbn [string_of_list_ascii count_points] in Hc. cbn in Hc. lia. }
    apply count_points_includes in H0. split.
    + destruct (endsWith "." (string_of_list_ascii t)) eqn:E; [| reflexivity].
      apply endsWith_includes in E. congruence.
    + intros _ _ H. congruence.
  - rewrite Ht, !endsWith_snoc. split; [exact Hd |]. intros _ _ _. exact H0.
  - rewrite Ht. split; [reflexivity | discriminate].
Qed.

(** 1.5, 0.3 and 120: the tail of each formatted number. *)
Lemma formatNumber_tail_example :
  formatNumber (ofString "1.50") = "1.5" /\
  includes "e" (formatNumber (ofString "1.50")) = false /\
  includes "E" (formatNumber (ofString "1.50")) = false /\
  includes "." (formatNumber (ofString "1.50")) = true /\
  endsWith "0" (formatNumber (ofString "1.50")) = false.
Proof.
  assert (He : includes "e" (formatNumber (ofString "1.50")) = false)
    by (vm_compute; reflexivity).
  assert (HE : includes "E" (formatNumber (ofString "1.50")) = false)
    by (vm_compute; reflexivity).
  assert (Hp : includes "." (formatNumber (ofString "1.50")) = true)
    by (vm_compute; reflexivity).
  split; [vm_compute; reflexivity |].
  split; [exact He |]. split; [exact HE |]. split; [exact Hp |].
  exact (proj2 (formatNumber_tail (ofString "1.50")) He HE Hp).
Defined.

(** ** The Error state, clear and the sign key *)

(** X2: the Error state is entered only by an operator key or by equals. *)
Theorem error_only_from_failed_compute :
  forall (st : State) (a : Action),
    error st = false ->
    error (handleButton st a) = true ->
    (exists o, a = op_key o) \/ a = equals.
Proof.
  intros st a H. destruct st as [d pv po lo pl ow er].
  cbn [error] in H. subst er.
  destruct a; unfold_handlers; split_ifs; intros E;
    try discriminate E; eauto.
Qed.

Lemma error_only_from_failed_compute_example :
  error (run [digit 8; op_key Divide; digit 0]) = false /\
  error (handleButton (run [digit 8; op_key Divide; digit 0]) equals) = true /\
  ((exists o, equals = op_key o) \/ equals = equals).
Proof.
  assert (H : error (run [digit 8; op_key Divide; digit 0]) = false)
    by (vm_compute; reflexivity).
  assert (H' : error (handleButton (run [digit 8; op_key Divide; digit 0]) equals)
               = true) by (vm_compute; reflexivity).
  split; [exact H |]. split; [exact H' |].
  exact (error_only_from_failed_compute _ equals H H').
Defined.

Lemma toggle_twice (d : string) :
  well_headed d = true ->
  let toggle (prev : string) :=
    if String.eqb prev "0" || String.eqb prev "0." then
      "-0" ++ (if endsWith "." prev then "." else "")
    else if String.eqb prev "-0" || String.eqb prev "-0." then
      "0" ++ (if endsWith "." prev then "." else "")
    else if startsWith "-" prev then slice_from_1 prev
    else "-" ++ prev in
  toggle (toggle d) = d.
Proof.
  intros H toggle. unfold toggle.
  destruct (String.eqb d "0") eqn:E1.
  { apply String.eqb_eq in E1. subst d. reflexivity. }
  destruct (String.eqb d "0.") eqn:E2.
  { apply String.eqb_eq in E2. subst d. reflexivity. }
  destruct (String.eqb d "-0") eqn:E3.
  { apply String.eqb_eq in E3. subst d. reflexivity. }
  destruct (String.eqb d "-0.") eqn:E4.
  { apply String.eqb_eq in E4. subst d. reflexivity. }
  cbn [orb].
  destruct d as [| c r]; [discriminate |].
  cbn [startsWith slice_from_1]. cbn [well_headed] in H.
  destruct (Ascii.eqb c "-") eqn:Ec.
  - apply Ascii.eqb_eq in Ec. subst c.
    destruct r as [| c' t]; [discriminate |].
    apply negb_true_iff in H.
    assert (Hr3 : String.eqb (String c' t) "-0" = false).
    { apply String.eqb_neq. intros Heq. injection Heq as -> _. discriminate. }
    assert (Hr4 : String.eqb (String c' t) "-0." = false).
    { apply String.eqb_neq. intros Heq. injection Heq as -> _. discriminate. }
    assert (Hr1 : String.eqb (String c' t) "0" = false).
    { apply String.eqb_neq. intros Heq. rewrite Heq in E3. discriminate. }
    assert (Hr2 : String.eqb (String c' t) "0." = false).
    { apply String.eqb_neq. intros Heq. rewrite Heq in E4. discriminate. }
    rewrite Hr1, Hr2, Hr3, Hr4. cbn [orb startsWith]. rewrite H.
    reflexivity.
  - change ("-" ++ String c r) with (String "-" (String c r)).
    assert (Hm1 : String.eqb (String "-" (String c r)) "0" = false) by reflexivity.
    assert (Hm2 : String.eqb (String "-" (String c r)) "0." = false) by reflexivity.
    assert (Hm3 : String.eqb (String "-" (String c r)) "-0" = false).
    { apply String.eqb_neq. intros Heq. injection Heq as Hc Hr.
      subst c r. vm_compute in E1. discriminate. }
    assert (Hm4 : String.eqb (String "-" (String c r)) "-0." = false).
    { apply String.eqb_neq. intros Heq. injection Heq as Hc Hr.
      subst c r. vm_compute in E2. discriminate. }
    rewrite Hm1, Hm2, Hm3, Hm4. reflexivity.
Qed.

(** X3: the sign key pressed twice gives the state back, in every
    reachable state; on a fresh zero it shows "-0", and a digit typed
    then replaces the zero. *)
Theorem sign_key_involutive :
  (forall actions,
     let st := run actions in
     handleButton (handleButton st sign) sign = st) /\
  display (run [clear; sign]) = "-0" /\
  display (run [clear; sign; digit 5]) = "-5".
Proof.
  split; [| split; vm_compute; reflexivity].
  intros actions st.
  pose proof (well_headed_run actions) as H. fold st in H.
  destruct st as [d pv po lo pl ow er]. cbn [display] in H.
  unfold handleButton, toggleSign.
  cbn [display prevValue pendingOp lastOp previousLine overwrite error].
  destruct er; [reflexivity |].
  cbn [display prevValue pendingOp lastOp previousLine overwrite error].
  pose proof (toggle_twice d H) as Ht. cbv zeta in Ht.
  rewrite Ht. reflexivity.
Qed.

(** ** Leaving the Error state *)

(** X4: in the Error state the operator, equals, percent and sign keys
    do nothing; a digit, the point, backspace and clear do what they do
    from the initial state. *)
Theorem error_state_recovery :
  forall (st : State) (a : Action),
    error st = true ->
    handleButton st a =
    match a with
    | op_key _ | equals | percent | sign => st
    | digit _ | decimal | clear | backspace_key => handleButton initial a
    end.
Proof.
  intros st a H. destruct a; unfold_handlers; try rewrite H; reflexivity.
Qed.

Lemma error_state_recovery_example :
  error (run [digit 8; op_key Divide; digit 0; equals]) = true /\
  run [digit 8; op_key Divide; digit 0; equals; op_key Plus]
    = run [digit 8; op_key Divide; digit 0; equals] /\
  run [digit 8; op_key Divide; digit 0; equals; decimal] = run [decimal].
Proof.
  assert (H : error (run [digit 8; op_key Divide; digit 0; equals]) = true)
    by (vm_compute; reflexivity).
  split; [exact H |]. split.
  - exact (error_state_recovery _ (op_key Plus) H).
  - exact (error_state_recovery _ decimal H).
Defined.

(** ** Keyboard and keypad *)

Lemma digit_key_value (c : ascii) :
  is_digit c = true -> (Z.to_nat (digit_value c) <= 9)%nat.
Proof.
  destruct c as [[|] [|] [|] [|] [|] [|] [|] [|]];
    intros H; try discriminate H; vm_compute; lia.
Qed.

Lemma digit_in_buttons (n : nat) :
  (n <= 9)%nat -> In (digit n) (map action buttons).
Proof.
  intros H.
  do 10 (destruct n as [| n]; [vm_compute; tauto |]).
  lia.
Qed.

(** X5: every key the listener takes sends an action that a button sends
    too, so a digit from either is at most 9; every button but the sign
    button has a key; and no key toggles the sign. *)
Theorem keyboard_matches_buttons :
  (forall tag key a,
     onKeyDown tag key = Some a -> In a (map action buttons)) /\
  (forall tag key n, onKeyDown tag key = Some (digit n) -> (n <= 9)%nat) /\
  (forall b,
     In b buttons -> action b <> sign ->
     exists key, onKeyDown "" key = Some (action b)) /\
  (forall tag key, onKeyDown tag key <> Some sign).
Proof.
  assert (Hkeys : forall tag key a,
             onKeyDown tag key = Some a ->
             (exists c, key = String c "" /\ is_digit c = true /\
                        a = digit (Z.to_nat (digit_value c))) \/
             In a [decimal; op_key Plus; op_key Minus; op_key Times;
                   op_key Divide; percent; equals; clear; backspace_key]).
  { intros tag key a. unfold onKeyDown.
    destruct (String.eqb tag "INPUT" || String.eqb tag "TEXTAREA"
              || String.eqb tag "SELECT"); [discriminate |].
    destruct (is_digit_key key) eqn:Ed.
    { intros [= <-]. left. destruct key as [| c [| c' r]]; try discriminate Ed.
      exists c. cbn in Ed. auto. }
    repeat match goal with
      | |- (if ?b then _ else _) = _ -> _ =>
          destruct b; [intros [= <-]; right; cbn; tauto |]
      end.
    discriminate. }
  split; [| split; [| split]].
  - intros tag key a H. destruct (Hkeys tag key a H) as [(c & _ & Hc & ->) | Hin].
    + apply digit_in_buttons, digit_key_value, Hc.
    + cbn in Hin.
      repeat (destruct Hin as [<- | Hin]; [vm_compute; tauto |]).
      contradiction.
  - intros tag key n H. destruct (Hkeys tag key _ H) as [(c & _ & Hc & Heq) | Hin].
    + injection Heq as ->. apply digit_key_value, Hc.
    + cbn in Hin. repeat (destruct Hin as [Hin | Hin]; [discriminate Hin |]).
      contradiction.
  - intros b Hb Hs. unfold buttons, keypad, footer_button in Hb. cbn in Hb.
    repeat (destruct Hb as [<- | Hb];
            [cbn [action] in *;
             first [ congruence
                   | exists "Escape"; reflexivity
                   | exists "%"; reflexivity
                   | exists "/"; reflexivity
                   | exists "*"; reflexivity
                   | exists "-"; reflexivity
                   | exists "+"; reflexivity
                   | exists "."; reflexivity
                   | exists "="; reflexivity
                   | exists "Backspace"; reflexivity
                   | exists "0"; reflexivity
                   | exists "1"; reflexivity
                   | exists "2"; reflexivity
                   | exists "3"; reflexivity
                   | exists "4"; reflexivity
                   | exists "5"; reflexivity
                   | exists "6"; reflexivity
                   | exists "7"; reflexivity
                   | exists "8"; reflexivity
                   | exists "9"; reflexivity ] |]).
    contradiction.
  - intros tag key H. destruct (Hkeys tag key _ H) as [(c & _ & _ & Heq) | Hin].
    + discriminate Heq.
    + cbn in Hin. repeat (destruct Hin as [Hin | Hin]; [discriminate Hin |]).
      contradiction.
Qed.

(** The key "7" sends the digit 7, as the button "7" does; the button
    "AC" has the key Escape. *)
Lemma keyboard_matches_buttons_example :
  onKeyDown "" "7" = Some (digit 7) /\
  In (digit 7) (map action buttons) /\
  (exists key, onKeyDown "" key = Some clear).
Proof.
  assert (H : onKeyDown "" "7" = Some (digit 7)) by reflexivity.
  split; [exact H |].
  split; [exact (proj1 keyboard_matches_buttons "" "7" (digit 7) H) |].
  apply (proj1 (proj2 (proj2 keyboard_matches_buttons))
           (mkButton "AC" (Some "Clear all") clear)).
  - left. reflexivity.
  - discriminate.
Defined.

(** X6: what a button shows is what it does: a digit button is labelled
    with its digit, an operator button with the symbol the secondary
    line prints for its operator; and no two buttons have the same
    accessible name. *)
Theorem buttons_labelled_by_action :
  (forall b,
     In b buttons ->
     match action b with
     | digit n => label b = String_of_digit n
     | op_key o => label b = opSymbol o
     | _ => True
     end) /\
  NoDup (map accessible_name buttons).
Proof.
  split.
  - intros b Hb. unfold buttons, keypad, footer_button in Hb. cbn in Hb.
    repeat (destruct Hb as [<- | Hb]; [cbn; try reflexivity; exact I |]).
    contradiction.
  - unfold buttons, keypad, footer_button. cbn.
    repeat (constructor; [cbn; intros H;
                          repeat (destruct H as [H | H]; [discriminate H |]);
                          contradiction |]).
    constructor.
Qed.

(** The divide button shows the symbol the secondary line prints for a
    pending division. *)
Lemma buttons_labelled_example :
  In (mkButton "÷" (Some "Divide") (op_key Divide)) buttons /\
  "÷" = opSymbol Divide.
Proof.
  assert (H : In (mkButton "÷" (Some "Divide") (op_key Divide)) buttons)
    by (vm_compute; tauto).
  split; [exact H |].
  exact (proj1 buttons_labelled_by_action _ H).
Defined.

(** ** What [compute] returns *)

Section RoundingNeverNaN.

Variables prec emax : Z.

Lemma iter_pos_keeps {A : Type} (P : A -> Prop) (f : A -> A) :
  (forall x, P x -> P (f x)) ->
  forall p x, P x -> P (iter_pos f p x).
Proof.
  intros Hf p. induction p as [p IH | p IH |]; intros x Hx;
    cbn [iter_pos]; auto.
Qed.

Lemma shr_1_nonneg (mrs : shr_record) :
  0 <= shr_m mrs -> 0 <= shr_m (shr_1 mrs).
Proof.
  destruct mrs as [m r s]. cbn [shr_m].
  destruct m as [| [p | p |] | p]; cbn; lia.
Qed.

Lemma shr_fexp_nonneg (m e : Z) (l : location) :
  0 <= m -> 0 <= shr_m (fst (shr_fexp prec emax m e l)).
Proof.
  intros Hm. unfold shr_fexp, shr.
  assert (H0 : 0 <= shr_m (shr_record_of_loc m l)).
  { destruct l as [| []]; exact Hm. }
  destruct (fexp prec emax (Zdigits2 m + e) - e) as [| p | p]; cbn [fst];
    try exact H0.
  apply (iter_pos_keeps (fun mrs => 0 <= shr_m mrs)); [| exact H0].
  exact shr_1_nonneg.
Qed.

Lemma round_nearest_even_nonneg (m : Z) (l : location) :
  0 <= m -> 0 <= round_nearest_even m l.
Proof.
  intros Hm. unfold round_nearest_even.
  destruct l as [| []]; try destruct (Z.even m); lia.
Qed.

(** Rounding a non-negative significand gives a zero, a finite number
    or an infinity, never NaN. *)
Lemma binary_round_aux_not_nan (sx : bool) (mx ex : Z) (lx : location) :
  0 <= mx -> binary_round_aux prec emax sx mx ex lx <> S754_nan.
Proof.
  intros Hm. unfold binary_round_aux.
  pose proof (shr_fexp_nonneg mx ex lx Hm) as H1.
  destruct (shr_fexp prec emax mx ex lx) as [mrs' e'] eqn:E1. cbn [fst] in H1.
  pose proof (shr_fexp_nonneg
                (round_nearest_even (shr_m mrs') (loc_of_shr_record mrs'))
                e' loc_Exact (round_nearest_even_nonneg _ _ H1)) as H2.
  destruct (shr_fexp prec emax
              (round_nearest_even (shr_m mrs') (loc_of_shr_record mrs'))
              e' loc_Exact) as [mrs'' e''].
  cbn [fst] in H2.
  destruct (shr_m mrs'') as [| p | p]; [discriminate | | lia].
  destruct (e'' <=? emax - prec); discriminate.
Qed.

Lemma binary_round_not_nan (sx : bool) (mx : positive) (ex : Z) :
  binary_round prec emax sx mx ex <> S754_nan.
Proof.
  unfold binary_round.
  destruct (shl_align mx ex (fexp prec emax (Z.pos (digits2_pos mx) + ex)))
    as [mz ez].
  apply binary_round_aux_not_nan. lia.
Qed.

Lemma binary_normalize_not_nan (m e : Z) (szero : bool) :
  binary_normalize prec emax m e szero <> S754_nan.
Proof.
  destruct m; cbn [binary_normalize];
    [discriminate | apply binary_round_not_nan | apply binary_round_not_nan].
Qed.

End RoundingNeverNaN.

Lemma add_not_nan (a b : num) :
  isFinite a = true -> isFinite b = true -> isNaN (add a b) = false.
Proof.
  intros Ha Hb.
  destruct (add a b) eqn:E; try reflexivity. exfalso.
  unfold add, SFadd in E.
  destruct a as [sa | | | sa ma ea]; try discriminate Ha;
    destruct b as [sb | | | sb mb eb]; try discriminate Hb;
    try discriminate E.
  - destruct sa, sb; discriminate E.
  - exact (binary_normalize_not_nan _ _ _ _ _ E).
Qed.

Lemma sub_not_nan (a b : num) :
  isFinite a = true -> isFinite b = true -> isNaN (sub a b) = false.
Proof.
  intros Ha Hb.
  destruct (sub a b) eqn:E; try reflexivity. exfalso.
  unfold sub, SFsub in E.
  destruct a as [sa | | | sa ma ea]; try discriminate Ha;
    destruct b as [sb | | | sb mb eb]; try discriminate Hb;
    try discriminate E.
  - destruct sa, sb; discriminate E.
  - exact (binary_normalize_not_nan _ _ _ _ _ E).
Qed.

Lemma mul_not_nan (a b : num) :
  isFinite a = true -> isFinite b = true -> isNaN (mul a b) = false.
Proof.
  intros Ha Hb.
  destruct (mul a b) eqn:E; try reflexivity. exfalso.
  unfold mul, SFmul in E.
  destruct a as [sa | | | sa ma ea]; try discriminate Ha;
    destruct b as [sb | | | sb mb eb]; try discriminate Hb;
    try discriminate E.
  refine (binary_round_aux_not_nan _ _ _ _ _ _ _ E). lia.
Qed.

Lemma div_not_nan (a b : num) :
  isFinite a = true -> isFinite b = true -> is_zero b = false ->
  isNaN (div a b) = false.
Proof.
  intros Ha Hb Hz.
  destruct (div a b) eqn:E; try reflexivity. exfalso.
  unfold div, SFdiv in E.
  destruct a as [sa | | | sa ma ea]; try discriminate Ha;
    destruct b as [sb | | | sb mb eb]; try discriminate Hb;
    try discriminate Hz; try discriminate E.
  destruct (SFdiv_core_binary prec emax (Z.pos ma) ea (Z.pos mb) eb)
    as [[mz ez] lz] eqn:Ed.
  refine (binary_round_aux_not_nan _ _ _ _ _ _ _ E).
  unfold SFdiv_core_binary in Ed.
  set (m' := match _ - _ - _ with Z0 => _ | Z.pos _ => _ | Z.neg _ => _ end) in Ed.
  assert (Hm' : 0 <= m').
  { unfold m'. destruct (_ - _ - _); try lia.
    rewrite Z.shiftl_mul_pow2 by lia.
    apply Z.mul_nonneg_nonneg; [lia | apply Z.pow_nonneg; lia]. }
  destruct (Z.div_eucl m' (Z.pos mb)) as [q r] eqn:Eq.
  injection Ed as <- _ _.
  pose proof (Z_div_mod m' (Z.pos mb) eq_refl) as Hdm. rewrite Eq in Hdm.
  destruct Hdm as [Heq Hr]. nia.
Qed.

Lemma compute_refusal (a b : num) (o : Op) :
  ok (compute a o b) = false <->
  isFiniteNumber a = false \/ isFiniteNumber b = false \/
  (o = Divide /\ is_zero b = true).
Proof.
  unfold compute, isFiniteNumber.
  destruct (isFinite a), (isFinite b); cbn [negb orb ok].
  - destruct o; cbn [ok].
    + split; [discriminate | intros [H | [H | [H _]]]; discriminate].
    + split; [discriminate | intros [H | [H | [H _]]]; discriminate].
    + split; [discriminate | intros [H | [H | [H _]]]; discriminate].
    + destruct (is_zero b); cbn [ok].
      * split; auto.
      * split; [discriminate | intros [H | [H | [_ H]]]; discriminate].
  - split; auto.
  - split; auto.
  - split; auto.
Qed.

Lemma compute_value_nan (a b : num) (o : Op) :
  isNaN (value (compute a o b)) = negb (ok (compute a o b)).
Proof.
  unfold compute, isFiniteNumber.
  destruct (isFinite a) eqn:Ea, (isFinite b) eqn:Eb; cbn [negb orb];
    try reflexivity.
  destruct o; cbn [ok value negb].
  - apply add_not_nan; assumption.
  - apply sub_not_nan; assumption.
  - apply mul_not_nan; assumption.
  - destruct (is_zero b) eqn:Ez; cbn [ok value negb]; [reflexivity |].
    apply div_not_nan; assumption.
Qed.

(** X7: [compute] refuses exactly an operand that is not finite and a
    division by zero; its value is NaN exactly when it refuses, so the
    callers' finiteness test on an accepted value only catches an
    overflow to an infinity. *)
Theorem compute_failure_causes :
  forall (a b : num) (o : Op),
    let r := compute a o b in
    (ok r = false <->
     isFiniteNumber a = false \/ isFiniteNumber b = false \/
     (o = Divide /\ is_zero b = true)) /\
    isNaN (value r) = negb (ok r) /\
    (negb (ok r) || negb (isFiniteNumber (value r)) = true <->
     ok r = false \/ exists s, value r = S754_infinity s).
Proof.
  intros a b o r.
  pose proof (compute_value_nan a b o) as H2. fold r in H2.
  split; [apply compute_refusal |]. split; [exact H2 |].
  destruct (ok r) eqn:Eok; cbn [negb orb] in *.
  - split.
    + intros H. right. apply negb_true_iff in H.
      unfold isFiniteNumber in H.
      destruct (value r) as [| s | |]; try discriminate; eauto.
    + intros [H | (s & H)]; [discriminate |]. rewrite H. reflexivity.
  - split; auto.
Qed.

(** X8: addition and multiplication do not depend on the order of their
    operands. *)
Theorem compute_commutative :
  forall (a b : num),
    compute a Plus b = compute b Plus a /\
    compute a Times b = compute b Times a.
Proof.
  intros a b. unfold compute, isFiniteNumber.
  destruct (isFinite a) eqn:Ea, (isFinite b) eqn:Eb; cbn [negb orb]; auto.
  split; f_equal.
  - unfold add, SFadd.
    destruct a as [sa | | | sa ma ea]; try discriminate Ea;
      destruct b as [sb | | | sb mb eb]; try discriminate Eb;
      try reflexivity.
    + destruct sa, sb; reflexivity.
    + rewrite (Z.min_comm eb ea), Z.add_comm. reflexivity.
  - unfold mul, SFmul.
    destruct a as [sa | | | sa ma ea]; try discriminate Ea;
      destruct b as [sb | | | sb mb eb]; try discriminate Eb;
      rewrite ?(xorb_comm sb sa); try reflexivity.
    rewrite (Pos.mul_comm mb ma), (Z.add_comm eb ea). reflexivity.
Qed.

(** ** At most one decimal point *)

Lemma count_points_slice_to_last (s : string) :
  (count_points (slice_to_last s) <= count_points s)%nat.
Proof.
  induction s as [| c r IH]; [cbn; lia |].
  destruct r as [| c' t]; [cbn; lia |].
  change (slice_to_last (String c (String c' t)))
    with (String c (slice_to_last (String c' t))).
  cbn [count_points] in *. lia.
Qed.

Lemma String_of_digit_no_point (d : nat) :
  count_points (String_of_digit d) = 0%nat.
Proof.
  apply all_digits_no_point. apply String_of_digit_numeral.
Qed.

Lemma formatNumber_points (n : num) :
  (count_points (formatNumber n) <= 1)%nat.
Proof.
  unfold formatNumber.
  destruct (negb (isFiniteNumber n)); [cbn; lia |].
  cbv zeta.
  set (x := if is_neg_zero _ then zero else _).
  destruct (toString_tail x) as [Hc _].
  destruct (includes "e" (toString x) || includes "E" (toString x));
    [exact Hc |].
  destruct (includes "." (toString x)); [| exact Hc].
  destruct (trim_zeros_prefix (toString x)) as (q & Hq & _).
  rewrite Hq, count_points_app in Hc. lia.
Qed.

Lemma one_point_step (st : State) (a : Action) :
  (count_points (display st) <= 1)%nat ->
  (count_points (display (handleButton st a)) <= 1)%nat.
Proof.
  destruct st as [d pv po lo pl ow er]. cbn [display]. intros H.
  destruct a as [n | | o | | | | |]; unfold handleButton.
  - unfold inputDigit. cbn [display overwrite error].
    pose proof (String_of_digit_no_point n) as Hn.
    destruct er; [cbn [display]; lia |].
    destruct ow; [cbn [display]; lia |]. cbn [display].
    destruct (String.eqb d "0"); [lia |].
    destruct (String.eqb d "-0");
      rewrite count_points_app; [cbn; lia | lia].
  - unfold inputDecimal. cbn [display overwrite error].
    destruct er; [cbn; lia |]. destruct ow; [cbn; lia |]. cbn [display].
    destruct (includes "." d) eqn:Ei; [exact H |].
    destruct (String.eqb d "Error"); [cbn; lia |].
    destruct (String.eqb d "-" || String.eqb d ""); [cbn; lia |].
    apply count_points_includes in Ei.
    rewrite count_points_app, Ei. cbn. lia.
  - unfold setOperator, setErrorState.
    cbn [display prevValue pendingOp overwrite error].
    destruct er; [exact H |]. destruct po; [| exact H].
    destruct ow; [exact H |]. destruct pv; [| exact H].
    cbv zeta. destruct (negb _ || negb _); [cbn; lia |].
    apply formatNumber_points.
  - unfold evaluateEquals, setErrorState.
    cbn [display prevValue pendingOp lastOp overwrite error].
    destruct er; [exact H |].
    destruct po, pv, lo; cbv zeta; try exact H;
      destruct (negb _ || negb _); try (cbn; lia);
      apply formatNumber_points.
  - cbn. lia.
  - unfold toggleSign. cbn [display error].
    destruct er; [exact H |]. cbn [display].
    destruct (String.eqb d "0" || String.eqb d "0.").
    { destruct (endsWith "." d); cbn; lia. }
    destruct (String.eqb d "-0" || String.eqb d "-0.").
    { destruct (endsWith "." d); cbn; lia. }
    destruct d as [| c r]; [cbn; lia |].
    cbn [startsWith slice_from_1].
    destruct (Ascii.eqb c "-") eqn:Ec.
    + cbn [count_points] in H. lia.
    + rewrite count_points_app. cbn [count_points] in *. cbn. lia.
  - unfold applyPercent. cbn [display prevValue pendingOp error].
    destruct er; [exact H |].
    destruct po, pv; apply formatNumber_points.
  - unfold backspace, clearAll. cbn [display overwrite error].
    destruct er; [cbn; lia |]. cbn [display].
    destruct ow; [cbn; lia |].
    destruct (String.length d <=? 1)%nat; [cbn; lia |].
    destruct ((String.length d =? 2)%nat && startsWith "-" d); [cbn; lia |].
    pose proof (count_points_slice_to_last d). lia.
Qed.

Lemma includes_app_point (s : string) : includes "." (s ++ ".") = true.
Proof.
  induction s as [| c r IH]; [reflexivity |].
  cbn [append includes]. rewrite IH. apply orb_true_r.
Qed.

(** X9: the display never holds two decimal points, whatever the keys
    pressed, and pressing the point a second time changes nothing. *)
Theorem decimal_point_at_most_once :
  (forall actions, (count_points (display (run actions)) <= 1)%nat) /\
  (forall st, inputDecimal (inputDecimal st) = inputDecimal st).
Proof.
  split.
  - apply (run_ind (fun st => (count_points (display st) <= 1)%nat));
      [cbn; lia | exact one_point_step].
  - intros [d pv po lo pl ow er]. unfold inputDecimal.
    cbn [display prevValue pendingOp lastOp previousLine overwrite error].
    destruct er; [reflexivity |]. destruct ow; [reflexivity |].
    cbn [display prevValue pendingOp lastOp previousLine overwrite error].
    destruct (includes "." d) eqn:Ei; [rewrite Ei; reflexivity |].
    destruct (String.eqb d "Error"); [reflexivity |].
    destruct (String.eqb d "-" || String.eqb d ""); [reflexivity |].
    rewrite includes_app_point. reflexivity.
Qed.

(** ** Backspace takes back what was typed *)

Lemma slice_to_last_snoc (s : string) (c : ascii) :
  slice_to_last (s ++ String c "") = s.
Proof.
  induction s as [| c' r IH]; [reflexivity |].
  cbn [append]. destruct (r ++ String c "") eqn:E.
  - destruct r; discriminate E.
  - change (slice_to_last (String c' (String a s)))
      with (String c' (slice_to_last (String a s))).
    rewrite IH. reflexivity.
Qed.

Lemma length_snoc (s : string) (c : ascii) :
  String.length (s ++ String c "") = S (String.length s).
Proof.
  induction s as [| c' r IH]; cbn [append String.length]; [reflexivity |].
  rewrite IH. reflexivity.
Qed.

Lemma startsWith_snoc (s : string) (c c' : ascii) :
  s <> "" -> startsWith c' (s ++ String c "") = startsWith c' s.
Proof.
  destruct s; [congruence | reflexivity].
Qed.

Lemma single_digit_string (d : nat) :
  (d <= 9)%nat -> exists c, String_of_digit d = String c "".
Proof.
  intros H.
  do 10 (destruct d as [| d]; [eexists; reflexivity |]). lia.
Qed.

(** Deleting the last character of [s ++ c], for a well-headed [s],
    as [backspace] does it. *)
Lemma backspace_snoc (s : string) (c : ascii) :
  well_headed s = true ->
  (if (String.length (s ++ String c "") <=? 1)%nat then "0"
   else if (String.length (s ++ String c "") =? 2)%nat
           && startsWith "-" (s ++ String c "")
        then "0"
        else slice_to_last (s ++ String c "")) = s.
Proof.
  intros H. rewrite length_snoc.
  destruct s as [| c1 [| c2 r]]; [discriminate H | |].
  - cbn [String.length Nat.leb Nat.eqb append startsWith andb].
    cbn [well_headed] in H.
    destruct (Ascii.eqb c1 "-"); [discriminate H | reflexivity].
  - cbn [String.length Nat.leb Nat.eqb andb].
    apply (slice_to_last_snoc (String c1 (String c2 r))).
Qed.

(** X10: in a reachable state outside the Error state and with the
    overwrite flag off, backspace right after a digit key (0 to 9) gives
    the state back unless the display was "-0", and backspace right
    after the point gives the state back when the display had no point
    and was not the error marker. *)
Theorem backspace_undoes_entry :
  forall actions,
    let st := run actions in
    error st = false -> overwrite st = false ->
    (forall d, (d <= 9)%nat -> display st <> "-0" ->
               backspace (inputDigit d st) = st) /\
    (includes "." (display st) = false -> display st <> "Error" ->
     backspace (inputDecimal st) = st).
Proof.
  intros actions st He Ho.
  pose proof (well_headed_run actions) as Hw. fold st in Hw.
  destruct st as [d0 pv po lo pl ow er].
  cbn [display overwrite error] in *. subst ow er.
  split.
  - intros d Hd Hm. destruct (single_digit_string d Hd) as (c & Hc).
    unfold backspace, inputDigit.
    cbn [display prevValue pendingOp lastOp previousLine overwrite error].
    rewrite Hc.
    destruct (String.eqb d0 "0") eqn:E0.
    { apply String.eqb_eq in E0. subst d0. reflexivity. }
    destruct (String.eqb d0 "-0") eqn:E1.
    { apply String.eqb_eq in E1. congruence. }
    rewrite (backspace_snoc d0 c Hw). reflexivity.
  - intros Hi Hn. unfold backspace, inputDecimal.
    cbn [display prevValue pendingOp lastOp previousLine overwrite error].
    rewrite Hi.
    destruct (String.eqb d0 "Error") eqn:E0.
    { apply String.eqb_eq in E0. congruence. }
    destruct (String.eqb d0 "-" || String.eqb d0 "") eqn:E1.
    { apply orb_true_iff in E1.
      destruct E1 as [E1 | E1]; apply String.eqb_eq in E1; subst d0;
        discriminate Hw. }
    rewrite (backspace_snoc d0 "." Hw). reflexivity.
Qed.

(** After 1, 2: typing 3 and deleting it, or typing the point and
    deleting it, gives the state back; after a sign on zero the digit
    takes the zero's place and backspace drops the sign with it. *)
Lemma backspace_undoes_entry_example :
  error (run [digit 1; digit 2]) = false /\
  overwrite (run [digit 1; digit 2]) = false /\
  backspace (inputDigit 3 (run [digit 1; digit 2])) = run [digit 1; digit 2] /\
  backspace (inputDecimal (run [digit 1; digit 2])) = run [digit 1; digit 2] /\
  display (run [sign]) = "-0" /\
  display (backspace (inputDigit 3 (run [sign]))) = "0".
Proof.
  pose proof (backspace_undoes_entry [digit 1; digit 2]) as E.
  cbv zeta in E.
  assert (He : error (run [digit 1; digit 2]) = false) by reflexivity.
  assert (Ho : overwrite (run [digit 1; digit 2]) = false) by reflexivity.
  destruct (E He Ho) as [Hd Hp].
  split; [exact He |]. split; [exact Ho |].
  split; [apply Hd; [lia | vm_compute; discriminate] |].
  split; [apply Hp; [reflexivity | vm_compute; discriminate] |].
  split; reflexivity.
Defined.

(** ** After a result, the next entry starts afresh *)

Lemma computing_key_overwrites (st : State) (a : Action) :
  editing a = false ->
  overwrite (handleButton st a) = true \/ error (handleButton st a) = true.
Proof.
  destruct st as [d0 pv po lo pl ow er].
  destruct a; cbn [editing]; try discriminate; intros _;
    unfold_handlers; destruct er; auto;
    destruct po, pv, lo, ow; cbv zeta;
    cbn [display prevValue pendingOp lastOp previousLine overwrite error];
    auto;
    destruct (negb _ || negb _);
    cbn [display prevValue pendingOp lastOp previousLine overwrite error];
    auto.
Qed.

(** X11: whatever the state, after an operator key, equals or percent, a
    digit replaces the display and the point shows "0.". *)
Theorem entry_after_result_starts_afresh :
  forall (st : State) (a : Action) (d : nat),
    editing a = false ->
    display (inputDigit d (handleButton st a)) = String_of_digit d /\
    overwrite (inputDigit d (handleButton st a)) = false /\
    display (inputDecimal (handleButton st a)) = "0.".
Proof.
  intros st a d Ha.
  pose proof (computing_key_overwrites st a Ha) as H.
  destruct (handleButton st a) as [d1 pv po lo pl ow er].
  cbn [overwrite error] in H. unfold inputDigit, inputDecimal.
  cbn [display prevValue pendingOp lastOp previousLine overwrite error].
  destruct er; [auto |].
  destruct H as [H | H]; [| discriminate]. subst ow. auto.
Qed.

Lemma entry_after_result_example :
  editing equals = false /\
  display (inputDigit 7 (handleButton (run [digit 5; op_key Plus; digit 3]) equals))
    = "7".
Proof.
  split; [reflexivity |].
  exact (proj1 (entry_after_result_starts_afresh
                  (run [digit 5; op_key Plus; digit 3]) equals 7 eq_refl)).
Defined.

(** ** Typing leaves the pending operation alone *)

(** X12: outside the Error state a digit, the point, the sign key and
    backspace change nothing but the display and the overwrite flag. *)
Theorem typing_keeps_operation :
  forall (st : State) (a : Action),
    error st = false ->
    editing a = true -> a <> clear ->
    let st' := handleButton st a in
    prevValue st' = prevValue st /\ pendingOp st' = pendingOp st /\
    lastOp st' = lastOp st /\ previousLine st' = previousLine st /\
    error st' = false.
Proof.
  intros [d0 pv po lo pl ow er] a He. cbn [error] in He. subst er.
  destruct a; cbn [editing]; try discriminate; intros _ Hc;
    try congruence; unfold_handlers; split_ifs; repeat split.
Qed.

Lemma typing_keeps_operation_example :
  error (run [digit 5; op_key Plus]) = false /\
  pendingOp (handleButton (run [digit 5; op_key Plus]) (digit 3)) = Some Plus /\
  previousLine (handleButton (run [digit 5; op_key Plus]) (digit 3)) = "5 +".
Proof.
  assert (He : error (run [digit 5; op_key Plus]) = false) by reflexivity.
  assert (Hc : digit 3 <> clear) by discriminate.
  pose proof (typing_keeps_operation (run [digit 5; op_key Plus]) (digit 3)
                He eq_refl Hc) as E.
  cbv zeta in E. destruct E as (_ & Hp & _ & Hl & _).
  split; [exact He |]. split.
  - rewrite Hp. vm_compute. reflexivity.
  - rewrite Hl. vm_compute. reflexivity.
Defined.

(** ** Operator keys in a row *)

(** X13: when no right operand has been typed (no operator is pending,
    or the overwrite flag is set), pressing two operator keys in a row
    is the same as pressing the second alone. *)
Theorem last_operator_wins :
  forall (st : State) (o1 o2 : Op),
    pendingOp st = None \/ overwrite st = true ->
    setOperator o2 (setOperator o1 st) = setOperator o2 st.
Proof.
  intros [d0 pv po lo pl ow er] o1 o2 H.
  cbn [pendingOp overwrite] in H.
  unfold setOperator.
  cbn [display prevValue pendingOp lastOp previousLine overwrite error].
  destruct er; [reflexivity |].
  destruct po as [p |].
  - destruct H as [H | H]; [discriminate |]. subst ow.
    cbn [display prevValue pendingOp lastOp previousLine overwrite error].
    reflexivity.
  - cbn [display prevValue pendingOp lastOp previousLine overwrite error].
    reflexivity.
Qed.

Lemma last_operator_wins_example :
  (pendingOp (run [digit 5]) = None \/ overwrite (run [digit 5]) = true) /\
  run [digit 5; op_key Plus; op_key Times] = run [digit 5; op_key Times].
Proof.
  assert (H : pendingOp (run [digit 5]) = None \/ overwrite (run [digit 5]) = true)
    by (left; reflexivity).
  split; [exact H |].
  exact (last_operator_wins (run [digit 5]) Plus Times H).
Defined.

(** ** The remembered operation can be replayed *)

Lemma compute_ok_operands (a b : num) (o : Op) :
  ok (compute a o b) = true ->
  isFiniteNumber a = true /\ isFiniteNumber b = true /\
  (o = Divide -> is_zero b = false).
Proof.
  unfold compute.
  destruct (isFiniteNumber a), (isFiniteNumber b); cbn [negb orb ok];
    try discriminate.
  destruct o; cbn [ok]; intros H; repeat split; try discriminate.
  destruct (is_zero b); [discriminate H | reflexivity].
Qed.

Lemma replayable_step (st : State) (a : Action) :
  replayable st -> replayable (handleButton st a).
Proof.
  unfold replayable. destruct st as [d pv po lo pl ow er].
  cbn [lastOp]. intros H.
  destruct a; unfold_handlers; destruct er; try exact H;
    try (intros l Hl; discriminate Hl).
  - destruct ow; exact H.
  - destruct ow; exact H.
  - destruct po; [| intros l Hl; discriminate Hl].
    destruct ow; [exact H |].
    destruct pv; [| intros l Hl; discriminate Hl].
    cbv zeta. destruct (negb _ || negb _); intros l Hl; discriminate Hl.
  - destruct po as [p |].
    + destruct pv as [v |].
      * cbv zeta.
        destruct (ok (compute v p (parseDisplayToNumber d))) eqn:Eok;
          cbn [negb orb]; [| intros l Hl; discriminate Hl].
        destruct (negb (isFiniteNumber _)); [intros l Hl; discriminate Hl |].
        cbn [lastOp]. intros l [= <-]. cbn [rhs op].
        destruct (compute_ok_operands _ _ _ Eok) as (_ & Hb & Hd). auto.
      * destruct lo; exact H.
    + destruct lo as [l0 |].
      * cbv zeta. destruct (negb _ || negb _);
          [intros l Hl; discriminate Hl | exact H].
      * destruct pv; exact H.
  - destruct po, pv; exact H.
Qed.

(** X14: in every reachable state the remembered operation has a finite
    right operand, and a non-zero one when it is a division: a repeated
    equals never divides by zero. *)
Theorem remembered_operation_replayable :
  forall actions l,
    lastOp (run actions) = Some l ->
    isFiniteNumber (rhs l) = true /\
    (op l = Divide -> is_zero (rhs l) = false).
Proof.
  intros actions.
  apply (run_ind replayable); [| exact replayable_step].
  intros l Hl. discriminate Hl.
Qed.

Lemma remembered_operation_example :
  lastOp (run [digit 8; op_key Divide; digit 2; equals])
    = Some {| op := Divide; rhs := of_Z 2 |} /\
  isFiniteNumber (of_Z 2) = true /\
  (Divide = Divide -> is_zero (of_Z 2) = false).
Proof.
  assert (H : lastOp (run [digit 8; op_key Divide; digit 2; equals])
              = Some {| op := Divide; rhs := of_Z 2 |})
    by (vm_compute; reflexivity).
  split; [exact H |].
  exact (remembered_operation_replayable _ _ H).
Defined.

(** ** The secondary line follows the pending operator *)

Lemma line_follows_step (st : State) (a : Action) :
  line_follows st -> line_follows (handleButton st a).
Proof.
  unfold line_follows. destruct st as [d pv po lo pl ow er].
  cbn [pendingOp previousLine]. intros H.
  destruct a as [n | | o | | | | |]; unfold_handlers; destruct er;
    try exact H; try reflexivity.
  - destruct ow; exact H.
  - destruct ow; exact H.
  - unfold line. destruct po as [p |].
    + destruct ow; [eexists; reflexivity |].
      destruct pv; [| eexists; reflexivity].
      cbv zeta. destruct (negb _ || negb _); [reflexivity |].
      eexists; reflexivity.
    + eexists; reflexivity.
  - destruct po as [p |].
    + destruct pv as [v |].
      * cbv zeta. destruct (negb _ || negb _); reflexivity.
      * destruct lo; exact H.
    + destruct lo as [l0 |].
      * cbv zeta. destruct (negb _ || negb _); [reflexivity | exact H].
      * destruct pv; exact H.
  - destruct po, pv; exact H.
Qed.

(** X15: in every reachable state the secondary line is blank when no
    operator is pending, and otherwise is a formatted number, a space
    and the symbol of the pending operator. *)
Theorem secondary_line_follows_operator :
  forall actions,
    match pendingOp (run actions) with
    | Some p =>
        exists v,
          previousLine (run actions) = formatNumber v ++ " " ++ opSymbol p
    | None => previousLine (run actions) = ""
    end.
Proof.
  apply (run_ind line_follows); [reflexivity | exact line_follows_step].
Qed.

(** ** Typing a number *)

Lemma nonzero_digit_string (d : nat) :
  (1 <= d <= 9)%nat -> starts_with_nonzero_digit (String_of_digit d).
Proof.
  intros [H1 H9]. destruct d as [| d]; [lia |].
  do 9 (destruct d as [| d];
        [eexists; eexists; repeat split; discriminate |]).
  lia.
Qed.

Lemma append_assoc (a b c : string) : (a ++ b) ++ c = a ++ (b ++ c).
Proof.
  induction a as [| x a IH]; cbn [append]; [reflexivity |].
  rewrite IH. reflexivity.
Qed.

(** Digits typed after a text that starts with a non-zero digit are
    appended to it. *)
Lemma typing_appends (ds : list nat) :
  forall st,
    error st = false -> overwrite st = false ->
    starts_with_nonzero_digit (display st) ->
    fold_left handleButton (map digit ds) st =
    {| display := display st ++ typed ds; prevValue := prevValue st;
       pendingOp := pendingOp st; lastOp := lastOp st;
       previousLine := previousLine st; overwrite := false; error := false |}.
Proof.
  induction ds as [| d ds IH]; intros [d0 pv po lo pl ow er] He Ho Hs;
    cbn [display prevValue pendingOp lastOp previousLine overwrite error] in *;
    subst ow er.
  - cbn [map fold_left typed]. f_equal.
    clear. induction d0 as [| c r IHr]; cbn [append]; [reflexivity |].
    rewrite <- IHr. reflexivity.
  - cbn [map fold_left typed]. unfold handleButton at 2. unfold inputDigit.
    cbn [display prevValue pendingOp lastOp previousLine overwrite error].
    destruct Hs as (c & r & -> & Hc & Hz).
    assert (E0 : String.eqb (String c r) "0" = false).
    { apply String.eqb_neq. intros [= -> _]. congruence. }
    assert (E1 : String.eqb (String c r) "-0" = false).
    { apply String.eqb_neq. intros [= -> _]. discriminate Hc. }
    rewrite E0, E1. rewrite IH; try reflexivity.
    + cbn [display prevValue pendingOp lastOp previousLine overwrite error].
      rewrite append_assoc. reflexivity.
    + cbn [display append]. exists c. eexists. auto.
Qed.

(** X16: from a state that shows "0" or whose overwrite flag is set,
    outside the Error state, typing a digit from 1 to 9 and then any
    digits shows exactly the digits typed and changes nothing else but
    the overwrite flag; the digit 0 typed on "0" changes nothing. *)
Theorem typed_digits_shown :
  forall (st : State) (d : nat) (ds : list nat),
    error st = false ->
    display st = "0" \/ overwrite st = true ->
    (1 <= d <= 9)%nat ->
    fold_left handleButton (map digit (d :: ds)) st =
    {| display := typed (d :: ds); prevValue := prevValue st;
       pendingOp := pendingOp st; lastOp := lastOp st;
       previousLine := previousLine st; overwrite := false; error := false |}.
Proof.
  intros [d0 pv po lo pl ow er] d ds He H Hd.
  cbn [display prevValue pendingOp lastOp previousLine overwrite error] in *.
  subst er. cbn [map fold_left]. unfold handleButton at 2. unfold inputDigit.
  cbn [display prevValue pendingOp lastOp previousLine overwrite error].
  assert (Hfirst :
            (if ow then
               {| display := String_of_digit d; prevValue := pv; pendingOp := po;
                  lastOp := lo; previousLine := pl; overwrite := false;
                  error := false |}
             else
               {| display :=
                    if String.eqb d0 "0" then String_of_digit d
                    else if String.eqb d0 "-0" then "-" ++ String_of_digit d
                    else d0 ++ String_of_digit d;
                  prevValue := pv; pendingOp := po; lastOp := lo;
                  previousLine := pl; overwrite := ow; error := false |}) =
            {| display := String_of_digit d; prevValue := pv; pendingOp := po;
               lastOp := lo; previousLine := pl; overwrite := false;
               error := false |}).
  { destruct ow; [reflexivity |].
    destruct H as [-> | H]; [reflexivity | discriminate]. }
  rewrite Hfirst.
  rewrite typing_appends; try reflexivity.
  cbn [display]. apply nonzero_digit_string, Hd.
Qed.

Lemma typed_digits_shown_example :
  error (run [digit 5; op_key Plus]) = false /\
  (display (run [digit 5; op_key Plus]) = "0" \/
   overwrite (run [digit 5; op_key Plus]) = true) /\
  display (fold_left handleButton (map digit [1; 0; 2]%nat)
             (run [digit 5; op_key Plus])) = "102" /\
  handleButton initial (digit 0) = initial.
Proof.
  assert (He : error (run [digit 5; op_key Plus]) = false) by reflexivity.
  assert (Ho : display (run [digit 5; op_key Plus]) = "0" \/
               overwrite (run [digit 5; op_key Plus]) = true)
    by (right; reflexivity).
  split; [exact He |]. split; [exact Ho |]. split; [| reflexivity].
  rewrite (typed_digits_shown (run [digit 5; op_key Plus]) 1%nat [0; 2]%nat He Ho);
    [reflexivity | lia].
Defined.

(** ** Reading the display back as a number *)

Lemma span_digits_all (s : string) :
  all_digits s = true -> span_digits s = (s, "").
Proof.
  induction s as [| c r IH]; [reflexivity |].
  cbn [all_digits span_digits]. intros H.
  apply andb_true_iff in H. destruct H as [Hc Hr].
  rewrite Hc, (IH Hr). reflexivity.
Qed.

Lemma span_digits_point (s t : string) :
  all_digits s = true -> span_digits (s ++ String "." t) = (s, String "." t).
Proof.
  induction s as [| c r IH]; [reflexivity |].
  cbn [all_digits append span_digits]. intros H.
  apply andb_true_iff in H. destruct H as [Hc Hr].
  rewrite Hc, (IH Hr). reflexivity.
Qed.

(** An unsigned numeral is a non-empty run of digits, alone or followed
    by a point and a run of digits. *)
Lemma unsigned_numeral_split (u : string) :
  unsigned_numeral u = true ->
  exists ip,
    ip <> "" /\ all_digits ip = true /\
    (u = ip \/ exists fp, all_digits fp = true /\ u = ip ++ String "." fp).
Proof.
  induction u as [| c r IH]; [discriminate |].
  cbn [unsigned_numeral]. fold unsigned_numeral. intros H.
  apply andb_true_iff in H. destruct H as [Hc Hr].
  destruct r as [| c' t].
  - exists (String c ""). cbn [all_digits]. rewrite Hc.
    split; [discriminate |]. split; [reflexivity |]. left. reflexivity.
  - destruct (Ascii.eqb c' ".") eqn:E.
    + apply Ascii.eqb_eq in E. subst c'. exists (String c "").
      cbn [all_digits]. rewrite Hc.
      split; [discriminate |]. split; [reflexivity |]. right. exists t. auto.
    + destruct (IH Hr) as (ip & Hn & Ha & Hu).
      exists (String c ip). cbn [all_digits]. rewrite Hc, Ha.
      split; [discriminate |]. split; [reflexivity |].
      destruct Hu as [-> | (fp & Hf & ->)]; [left; reflexivity |].
      right. exists fp. auto.
Qed.

Lemma append_empty_r (s : string) : s ++ "" = s.
Proof.
  induction s as [| c r IH]; cbn [append]; [reflexivity |].
  rewrite IH. reflexivity.
Qed.

Lemma parse_unsigned_numeral (u : string) :
  unsigned_numeral u = true ->
  exists m q, parse_unsigned u = Some (m, q).
Proof.
  intros H. destruct (unsigned_numeral_split u H) as (ip & Hn & Ha & Hu).
  unfold parse_unsigned.
  destruct Hu as [-> | (fp & Hf & ->)].
  - rewrite (span_digits_all _ Ha). rewrite append_empty_r.
    destruct ip; [congruence |]. cbn [parse_exponent]. eauto.
  - rewrite (span_digits_point _ _ Ha), (span_digits_all _ Hf).
    destruct ip as [| c r]; [congruence |]. cbn [append parse_exponent]. eauto.
Qed.

Lemma of_decimal_not_nan (neg : bool) (s : positive) (q : Z) :
  of_decimal neg s q <> S754_nan.
Proof.
  unfold of_decimal. destruct (0 <=? q); [apply binary_round_not_nan |].
  destruct (SFdiv_core_binary prec emax (Z.pos s) 0 (10 ^ (- q)) 0)
    as [[mz ez] lz] eqn:Ed.
  apply binary_round_aux_not_nan.
  unfold SFdiv_core_binary in Ed.
  set (m' := match _ - _ - _ with Z0 => _ | Z.pos _ => _ | Z.neg _ => _ end) in Ed.
  assert (Hm' : 0 <= m').
  { unfold m'. destruct (_ - _ - _); try lia.
    rewrite Z.shiftl_mul_pow2 by lia.
    apply Z.mul_nonneg_nonneg; [lia | apply Z.pow_nonneg; lia]. }
  destruct (Z.div_eucl m' (10 ^ (- q))) as [d r] eqn:Eq.
  injection Ed as <- _ _.
  pose proof (Zdiv.Z_div_mod_full m' (10 ^ (- q))) as Hdm.
  pose proof (Z.div_pos m' (10 ^ (- q))) as Hp.
  unfold Z.div in Hp. rewrite Eq in Hp. cbn [fst] in Hp.
  destruct (Z.eq_dec (10 ^ (- q)) 0) as [E0 | E0].
  - rewrite E0 in Eq. destruct m'; cbn in Eq; injection Eq as <- _; lia.
  - apply Hp; [exact Hm' |].
    pose proof (Z.pow_nonneg 10 (- q)). lia.
Qed.

Lemma ofString_unsigned (c : ascii) (r : string) :
  is_digit c = true ->
  ofString (String c r) =
  match parse_unsigned (String c r) with
  | Some (0, _) => S754_zero false
  | Some (m, q) => of_decimal false (Z.to_pos m) q
  | None => S754_nan
  end.
Proof.
  destruct c as [[|] [|] [|] [|] [|] [|] [|] [|]];
    intros H; try discriminate H; reflexivity.
Qed.

Lemma ofString_minus (c : ascii) (r : string) :
  is_digit c = true ->
  ofString (String "-" (String c r)) =
  match parse_unsigned (String c r) with
  | Some (0, _) => S754_zero true
  | Some (m, q) => of_decimal true (Z.to_pos m) q
  | None => S754_nan
  end.
Proof.
  destruct c as [[|] [|] [|] [|] [|] [|] [|] [|]];
    intros H; try discriminate H; reflexivity.
Qed.

Lemma binary_round_aux_sign (mx ex : Z) (lx : location) :
  binary_round_aux prec emax true mx ex lx =
  SFopp (binary_round_aux prec emax false mx ex lx).
Proof.
  unfold binary_round_aux.
  destruct (shr_fexp prec emax mx ex lx) as [mrs' e'].
  destruct (shr_fexp prec emax _ e' loc_Exact) as [mrs'' e''].
  destruct (shr_m mrs''); try reflexivity.
  destruct (e'' <=? emax - prec); reflexivity.
Qed.

Lemma of_decimal_sign (s : positive) (q : Z) :
  of_decimal true s q = SFopp (of_decimal false s q).
Proof.
  unfold of_decimal. destruct (0 <=? q).
  - unfold binary_round. destruct (shl_align _ _ _). apply binary_round_aux_sign.
  - destruct (SFdiv_core_binary _ _ _ _ _ _) as [[mz ez] lz].
    apply binary_round_aux_sign.
Qed.

Lemma ofString_minus_opp (u : string) :
  unsigned_numeral u = true ->
  ofString (String "-" u) = SFopp (ofString u) /\ isNaN (ofString u) = false.
Proof.
  intros H. destruct (unsigned_numeral_head _ H) as (c & r & -> & Hc).
  rewrite (ofString_minus c r Hc), (ofString_unsigned c r Hc).
  destruct (parse_unsigned_numeral _ H) as (m & q & ->).
  destruct m as [| p | p]; try (split; reflexivity).
  - split; [apply of_decimal_sign |].
    pose proof (of_decimal_not_nan false (Z.to_pos (Z.pos p)) q).
    destruct (of_decimal false _ q); try reflexivity. congruence.
  - split; [apply of_decimal_sign |].
    pose proof (of_decimal_not_nan false (Z.to_pos (Z.neg p)) q).
    destruct (of_decimal false _ q); try reflexivity. congruence.
Qed.

Lemma SFopp_not_nan (x : num) : isNaN x = false -> isNaN (SFopp x) = false.
Proof.
  destruct x; cbn; auto.
Qed.

Lemma SFopp_involutive (x : num) : SFopp (SFopp x) = x.
Proof.
  destruct x as [s | s | | s m e]; cbn; try rewrite negb_involutive; reflexivity.
Qed.

Lemma numeral_not_special (s : string) :
  decimal_numeral s = true ->
  String.eqb s "-" || String.eqb s "" || String.eqb s "." = false.
Proof.
  intros H.
  destruct (String.eqb s "-") eqn:E1.
  { apply String.eqb_eq in E1. subst s. discriminate H. }
  destruct (String.eqb s "") eqn:E2.
  { apply String.eqb_eq in E2. subst s. discriminate H. }
  destruct (String.eqb s ".") eqn:E3.
  { apply String.eqb_eq in E3. subst s. discriminate H. }
  reflexivity.
Qed.

Lemma numeral_parse (s : string) :
  decimal_numeral s = true ->
  isNaN (ofString s) = false /\ parseDisplayToNumber s = ofString s.
Proof.
  intros H.
  assert (Hn : isNaN (ofString s) = false).
  { destruct s as [| c r]; [discriminate H |].
    unfold decimal_numeral in H. destruct (Ascii.eqb c "-") eqn:E.
    - apply Ascii.eqb_eq in E. subst c.
      destruct (ofString_minus_opp r H) as [-> Hr]. apply SFopp_not_nan, Hr.
    - apply (ofString_minus_opp _ H). }
  split; [exact Hn |].
  unfold parseDisplayToNumber. rewrite (numeral_not_special s H), Hn.
  reflexivity.
Qed.

(** X17: a display that is a decimal numeral is read as the number it
    writes: the reading never falls back to zero for want of a number. *)
Theorem numeral_read_without_fallback :
  forall s,
    decimal_numeral s = true ->
    isNaN (ofString s) = false /\ parseDisplayToNumber s = ofString s.
Proof.
  intros s H. destruct (numeral_parse s H) as [Hn Hp]. split; assumption.
Qed.

(** "12.5" is read as written; "1e-", what backspace leaves of "1e-7",
    is no number and is read as zero. *)
Lemma numeral_read_example :
  decimal_numeral "12.5" = true /\
  parseDisplayToNumber "12.5" = ofString "12.5" /\
  isNaN (ofString "1e-") = true /\
  parseDisplayToNumber "1e-" = zero.
Proof.
  assert (H : decimal_numeral "12.5" = true) by reflexivity.
  split; [exact H |].
  split; [exact (proj2 (numeral_read_without_fallback "12.5" H)) |].
  split; vm_compute; reflexivity.
Defined.

(** ** The sign key negates the number shown *)

(** X18: outside the Error state, when the display is a decimal numeral
    the sign key turns the number read from it into its opposite. *)
Theorem sign_key_negates :
  forall st,
    error st = false ->
    decimal_numeral (display st) = true ->
    parseDisplayToNumber (display (toggleSign st)) =
    SFopp (parseDisplayToNumber (display st)).
Proof.
  intros [d pv po lo pl ow er] He H.
  cbn [display error] in *. subst er.
  unfold toggleSign. cbn [display error].
  destruct (String.eqb d "0") eqn:E1.
  { apply String.eqb_eq in E1. subst d. reflexivity. }
  destruct (String.eqb d "0.") eqn:E2.
  { apply String.eqb_eq in E2. subst d. reflexivity. }
  destruct (String.eqb d "-0") eqn:E3.
  { apply String.eqb_eq in E3. subst d. reflexivity. }
  destruct (String.eqb d "-0.") eqn:E4.
  { apply String.eqb_eq in E4. subst d. reflexivity. }
  cbn [orb].
  pose proof (decimal_numeral_toggle d H) as Ht.
  rewrite (proj2 (numeral_parse _ Ht)), (proj2 (numeral_parse _ H)).
  destruct d as [| c r]; [discriminate H |].
  cbn [startsWith slice_from_1] in *.
  unfold decimal_numeral in H.
  destruct (Ascii.eqb c "-") eqn:Ec.
  - apply Ascii.eqb_eq in Ec. subst c.
    rewrite (proj1 (ofString_minus_opp r H)), SFopp_involutive. reflexivity.
  - apply (ofString_minus_opp _ H).
Qed.

Lemma sign_key_negates_example :
  error (run [digit 1; digit 2; decimal; digit 5]) = false /\
  decimal_numeral (display (run [digit 1; digit 2; decimal; digit 5])) = true /\
  display (toggleSign (run [digit 1; digit 2; decimal; digit 5])) = "-12.5" /\
  parseDisplayToNumber "-12.5" = SFopp (parseDisplayToNumber "12.5").
Proof.
  assert (He : error (run [digit 1; digit 2; decimal; digit 5]) = false)
    by reflexivity.
  assert (Hn : decimal_numeral
                 (display (run [digit 1; digit 2; decimal; digit 5])) = true)
    by reflexivity.
  split; [exact He |]. split; [exact Hn |]. split; [reflexivity |].
  exact (sign_key_negates _ He Hn).
Defined.

(** ** The integer typed is the integer read *)

Lemma digit_value_nonneg (c : ascii) : is_digit c = true -> 0 <= digit_value c.
Proof.
  destruct c as [[|] [|] [|] [|] [|] [|] [|] [|]];
    intros H; try discriminate H; vm_compute; discriminate.
Qed.

Lemma digits_value_nonneg (s : string) :
  all_digits s = true -> forall acc, 0 <= acc -> 0 <= digits_value acc s.
Proof.
  induction s as [| c r IH]; intros H acc Hacc; [exact Hacc |].
  cbn [all_digits] in H. apply andb_true_iff in H. destruct H as [Hc Hr].
  cbn [digits_value]. apply (IH Hr).
  pose proof (digit_value_nonneg c Hc). lia.
Qed.

Lemma digits_value_app (s t : string) (acc : Z) :
  digits_value acc (s ++ t) = digits_value (digits_value acc s) t.
Proof.
  revert acc. induction s as [| c r IH]; intros acc; cbn [append digits_value];
    [reflexivity | apply IH].
Qed.

Lemma digit_key_string (d : nat) :
  (d <= 9)%nat ->
  exists c, String_of_digit d = String c "" /\ digit_value c = Z.of_nat d.
Proof.
  intros H.
  do 10 (destruct d as [| d]; [eexists; split; reflexivity |]). lia.
Qed.

Lemma digits_value_typed (ds : list nat) :
  Forall (fun d => (d <= 9)%nat) ds ->
  forall acc,
    digits_value acc (typed ds) =
    fold_left (fun acc d => 10 * acc + Z.of_nat d) ds acc.
Proof.
  induction 1 as [| d ds Hd _ IH]; intros acc; [reflexivity |].
  cbn [typed fold_left]. rewrite digits_value_app, IH. f_equal.
  destruct (digit_key_string d Hd) as (c & -> & <-). reflexivity.
Qed.

Lemma typed_all_digits (ds : list nat) : all_digits (typed ds) = true.
Proof.
  induction ds as [| d ds IH]; [reflexivity |].
  cbn [typed]. apply all_digits_app; [apply String_of_digit_numeral | exact IH].
Qed.

(** X19: the digits typed are read as the number they write, rounded
    once to the nearest number. *)
Theorem typed_integer_read :
  forall (d : nat) (ds : list nat),
    Forall (fun d => (d <= 9)%nat) (d :: ds) ->
    parseDisplayToNumber (typed (d :: ds)) = of_Z (decimal_value (d :: ds)).
Proof.
  intros d ds Hall.
  pose proof (typed_all_digits (d :: ds)) as Ha.
  assert (Hne : typed (d :: ds) <> "").
  { cbn [typed]. destruct (String_of_digit_shape d) as (c & r & -> & _).
    discriminate. }
  destruct (typed (d :: ds)) as [| c r] eqn:Et; [congruence |].
  assert (Hc : is_digit c = true).
  { cbn [all_digits] in Ha. apply andb_true_iff in Ha. apply Ha. }
  assert (Hnum : decimal_numeral (String c r) = true).
  { unfold decimal_numeral. rewrite (is_digit_not_minus _ Hc).
    cbn [all_digits] in Ha. apply andb_true_iff in Ha.
    apply all_digits_numeral; apply Ha. }
  rewrite (proj2 (numeral_parse _ Hnum)), (ofString_unsigned c r Hc).
  unfold parse_unsigned. rewrite (span_digits_all _ Ha), append_empty_r.
  cbn [parse_exponent String.length Z.of_nat Z.sub].
  unfold decimal_value. rewrite <- (digits_value_typed _ Hall 0), Et.
  pose proof (digits_value_nonneg _ Ha 0 (Z.le_refl 0)) as Hv.
  destruct (digits_value 0 (String c r)) as [| p | p]; [reflexivity | | lia].
  unfold of_decimal, of_Z. cbn [Z.leb Z.compare Z.pow Z.to_pos binary_normalize].
  change (Z.to_pos (10 ^ 0)) with 1%positive.
  rewrite Pos.mul_1_r. reflexivity.
Qed.

Lemma typed_integer_read_example :
  Forall (fun d => (d <= 9)%nat) [1; 0; 2]%nat /\
  typed [1; 0; 2]%nat = "102" /\
  parseDisplayToNumber "102" = of_Z 102.
Proof.
  assert (H : Forall (fun d => (d <= 9)%nat) [1; 0; 2]%nat)
    by (repeat constructor; lia).
  split; [exact H |]. split; [reflexivity |].
  exact (typed_integer_read 1%nat [0; 2]%nat H).
Defined.

(** ** The error marker stands for a number that is not finite *)

Lemma toString_head (x : num) :
  exists c r, toString x = String c r /\ number_head c = true.
Proof.
  destruct x as [s | [|] | | [|] m e]; cbn [toString];
    try (eexists; eexists; split; reflexivity).
  destruct (toString_pos_head m e) as (c & r & H & Hc).
  exists c, r. split; [exact H |]. unfold number_head. rewrite Hc. reflexivity.
Qed.

Lemma formatNumber_head (n : num) :
  isFiniteNumber n = true ->
  exists c r, formatNumber n = String c r /\ number_head c = true.
Proof.
  intros Hf. pose proof (formatNumber_well_headed n) as Hw.
  remember (formatNumber n) as out eqn:Hout.
  try rewrite <- Hout in Hw.
  unfold formatNumber in Hout. rewrite Hf in Hout.
  cbn [negb] in Hout. cbv zeta in Hout.
  set (x := if is_neg_zero _ then zero else _) in Hout.
  destruct (toString_head x) as (c & r & Hs & Hc).
  destruct (includes "e" (toString x) || includes "E" (toString x));
    [subst out; eauto |].
  destruct (includes "." (toString x)); [| subst out; eauto].
  destruct (trim_zeros_prefix (toString x)) as (q & Hq & _).
  rewrite <- Hout in Hq.
  destruct out as [| c' r']; [discriminate Hw |].
  rewrite Hs in Hq. cbn [append] in Hq. injection Hq as <- _. eauto.
Qed.

(** X20: [formatNumber] returns the error marker exactly for the numbers
    that are not finite. *)
Theorem error_marker_iff_not_finite :
  forall n, formatNumber n = "Error" <-> isFiniteNumber n = false.
Proof.
  intros n. split.
  - intros H. destruct (isFiniteNumber n) eqn:E; [| reflexivity].
    destruct (formatNumber_head n E) as (c & r & Hs & Hc).
    rewrite Hs in H. injection H as -> _. discriminate Hc.
  - intros H. unfold formatNumber. rewrite H. reflexivity.
Qed.

(** ** The shapes of a formatted number *)

Lemma span_digits_stop (s t : string) (c : ascii) :
  all_digits s = true -> is_digit c = false ->
  span_digits (s ++ String c t) = (s, String c t).
Proof.
  intros Hs Hc. induction s as [| a r IH].
  - cbn [append span_digits]. rewrite Hc. reflexivity.
  - cbn [all_digits] in Hs. apply andb_true_iff in Hs. destruct Hs as [Ha Hr].
    cbn [append span_digits]. rewrite Ha, (IH Hr). reflexivity.
Qed.

Lemma parse_exponent_form (sg ex : string) :
  (sg = "+" \/ sg = "-") -> all_digits ex = true -> ex <> "" ->
  exists v, parse_exponent (String "e" (sg ++ ex)) = Some v.
Proof.
  intros Hsg Ha Hn. destruct ex as [| d ds]; [congruence |].
  assert (Hd : is_digit d = true).
  { cbn [all_digits] in Ha. apply andb_true_iff in Ha. apply Ha. }
  unfold parse_exponent. cbn [Ascii.eqb Bool.eqb orb].
  change (Ascii.eqb "e" "e") with true.
  destruct Hsg as [-> | ->]; cbn [append]; cbn [orb];
    rewrite (span_digits_all _ Ha); eauto.
Qed.

Lemma parse_unsigned_exponent_form (s : string) :
  exponent_form s -> exists m q, parse_unsigned s = Some (m, q).
Proof.
  intros (c & fp & sg & ex & Hc & Hf & Hsg & He & Hn & Hs).
  destruct (parse_exponent_form sg ex Hsg He Hn) as (v & Hv).
  unfold parse_unsigned. destruct Hs as [-> | ->].
  - change (String c ("e" ++ sg ++ ex))
      with (String c "" ++ String "e" (sg ++ ex)).
    rewrite span_digits_stop; [| cbn; rewrite Hc; reflexivity | reflexivity].
    cbn [append]. rewrite Hv. eauto.
  - change (String c ("." ++ fp ++ "e" ++ sg ++ ex))
      with (String c "" ++ String "." (fp ++ String "e" (sg ++ ex))).
    rewrite span_digits_stop; [| cbn; rewrite Hc; reflexivity | reflexivity].
    rewrite span_digits_stop; [| exact Hf | reflexivity].
    cbn [append]. rewrite Hv. eauto.
Qed.

Lemma exponent_form_head (s : string) :
  exponent_form s ->
  exists c r, s = String c r /\ is_digit c = true /\ includes "e" s = true.
Proof.
  intros (c & fp & sg & ex & Hc & Hf & Hsg & He & Hn & Hs).
  assert (Hi : forall a b, includes "e" (a ++ String "e" b) = true).
  { intros a b. induction a as [| x a IH]; cbn [append includes].
    - reflexivity.
    - rewrite IH. apply orb_true_r. }
  destruct Hs as [-> | ->]; exists c; eexists; (split; [reflexivity |]);
    (split; [exact Hc |]).
  - apply (Hi (String c "") (sg ++ ex)).
  - change (String c ("." ++ fp ++ "e" ++ sg ++ ex))
      with (String c (String "." fp) ++ String "e" (sg ++ ex)) at 1.
    + apply Hi.
Qed.

(** A text that starts with a digit and parses as a literal is read as
    a number, with or without a minus sign in front. *)
Lemma parsed_not_nan (c : ascii) (r : string) :
  is_digit c = true ->
  (exists m q, parse_unsigned (String c r) = Some (m, q)) ->
  isNaN (ofString (String c r)) = false /\
  isNaN (ofString (String "-" (String c r))) = false.
Proof.
  intros Hc (m & q & Hp).
  rewrite (ofString_minus c r Hc), (ofString_unsigned c r Hc), Hp.
  destruct m as [| p | p]; split; try reflexivity;
    match goal with
    | |- isNaN (of_decimal ?n ?s ?q) = false =>
        pose proof (of_decimal_not_nan n s q);
        destruct (of_decimal n s q); try reflexivity; congruence
    end.
Qed.

Lemma render_shape (ds : string) (n : Z) :
  all_digits ds = true -> ds <> "" ->
  unsigned_numeral (render ds n) = true \/ exponent_form (render ds n).
Proof.
  intros Hd Hne. unfold render.
  destruct ((Z.of_nat (String.length ds) <=? n) && (n <=? 21)) eqn:E1.
  { left. destruct ds as [| c r]; [congruence |].
    cbn [all_digits] in Hd. apply andb_true_iff in Hd. destruct Hd as [Hc Hr].
    cbn [append]. apply all_digits_numeral; [exact Hc |].
    apply all_digits_app; [exact Hr | apply all_digits_zeros]. }
  destruct ((0 <? n) && (n <=? 21)) eqn:E2.
  { left. apply andb_true_iff in E2. destruct E2 as [E2 _].
    apply Z.ltb_lt in E2.
    set (a := substring 0 (Z.to_nat n) ds).
    set (b := substring (Z.to_nat n) (Z.to_nat (Z.of_nat (String.length ds) - n)) ds).
    assert (Ha : all_digits a = true) by (apply all_digits_substring, Hd).
    assert (Hb : all_digits b = true) by (apply all_digits_substring, Hd).
    assert (Han : a <> "").
    { apply substring_nonempty; [| lia].
      destruct ds; [congruence | cbn [String.length]; lia]. }
    destruct a as [| c r]; [congruence |].
    cbn [all_digits] in Ha. apply andb_true_iff in Ha. destruct Ha as [Hc Hr].
    change (String c r ++ "." ++ b) with (String c r ++ String "." b).
    replace (String c r ++ String "." b) with ((String c r ++ ".") ++ b).
    - apply unsigned_numeral_app_digits; [| exact Hb].
      apply unsigned_numeral_app_point.
      + apply all_digits_numeral; assumption.
      + apply count_points_includes, all_digits_no_point.
        cbn [all_digits]. rewrite Hc, Hr. reflexivity.
    - rewrite append_assoc. reflexivity. }
  destruct ((-6 <? n) && (n <=? 0)) eqn:E3.
  { left. cbn [append unsigned_numeral]. cbn.
    apply all_digits_app; [apply all_digits_zeros | exact Hd]. }
  right. cbv zeta.
  destruct (digits_shape (Z.abs (n - 1))) as [Hed Hen].
  destruct ds as [| c r]; [congruence |].
  cbn [all_digits] in Hd. apply andb_true_iff in Hd. destruct Hd as [Hc Hr].
  exists c, r, (if n - 1 <? 0 then "-" else "+"), (digits (Z.abs (n - 1))).
  split; [exact Hc |]. split; [exact Hr |].
  split; [destruct (n - 1 <? 0); auto |].
  split; [exact Hed |]. split; [exact Hen |].
  destruct r as [| c' t]; [left; reflexivity | right; reflexivity].
Qed.

Lemma toString_pos_shape (m : positive) (e : Z) :
  unsigned_numeral (toString_pos m e) = true \/ exponent_form (toString_pos m e).
Proof.
  unfold toString_pos.
  destruct (fraction m e) as [a b].
  destruct (shortest 17 (S754_finite false m e) a b (magnitude a b) 1) as [s n].
  destruct (digits_shape s) as [Hd Hn].
  apply render_shape; assumption.
Qed.

(** *** The number formatted is never NaN *)

Lemma mul_finite_not_nan (a : num) (s : bool) (m : positive) (e : Z) :
  isNaN a = false -> isNaN (mul a (S754_finite s m e)) = false.
Proof.
  intros Ha. destruct a as [sa | sa | | sa ma ea]; try discriminate Ha;
    try reflexivity.
  apply mul_not_nan; reflexivity.
Qed.

Lemma div_finite_not_nan (a : num) (s : bool) (m : positive) (e : Z) :
  isNaN a = false -> isNaN (div a (S754_finite s m e)) = false.
Proof.
  intros Ha. destruct a as [sa | sa | | sa ma ea]; try discriminate Ha;
    try reflexivity.
  apply div_not_nan; reflexivity.
Qed.

Lemma round_not_nan (a : num) : isNaN a = false -> isNaN (JSNumber.round a) = false.
Proof.
  intros Ha. destruct a as [sa | sa | | sa ma ea]; try discriminate Ha;
    try reflexivity.
  unfold JSNumber.round.
  destruct (0 <=? ea); [reflexivity |]. cbv zeta.
  destruct (_ =? 0); [reflexivity |].
  unfold of_Z.
  match goal with
  | |- isNaN (binary_normalize ?p ?q ?z ?e ?s) = false =>
      pose proof (binary_normalize_not_nan p q z e s);
      destruct (binary_normalize p q z e s); try reflexivity; congruence
  end.
Qed.

Lemma rounded_not_nan (n : num) :
  isFiniteNumber n = true ->
  isNaN (div (JSNumber.round (mul (add n EPSILON) ten_to_10)) ten_to_10) = false.
Proof.
  intros Hf.
  change ten_to_10 with (S754_finite false 5242880000000000 (-19)).
  apply div_finite_not_nan, round_not_nan, mul_finite_not_nan.
  apply add_not_nan; [exact Hf | reflexivity].
Qed.

Lemma decimal_numeral_prefix (p q : string) :
  decimal_numeral (p ++ q) = true -> well_headed p = true ->
  decimal_numeral p = true.
Proof.
  assert (Hu : forall u v, unsigned_numeral (u ++ v) = true -> u <> "" ->
                           unsigned_numeral u = true).
  { induction u as [| c r IH]; intros v H Hn; [congruence |].
    cbn [append] in H. cbn [unsigned_numeral] in H. fold unsigned_numeral in H.
    apply andb_true_iff in H. destruct H as [Hc Hr].
    cbn [unsigned_numeral]. fold unsigned_numeral. rewrite Hc. cbn [andb].
    destruct r as [| c' t]; [reflexivity |].
    cbn [append] in Hr.
    destruct (Ascii.eqb c' ".").
    - clear IH. revert Hr. generalize t. clear.
      induction t as [| x t IH]; [reflexivity |].
      cbn [append all_digits]. intros H.
      apply andb_true_iff in H. destruct H as [Hx Ht].
      rewrite Hx. cbn [andb]. apply IH, Ht.
    - apply (IH v Hr). discriminate. }
  destruct p as [| c [| c' t]]; [discriminate | |].
  - cbn [well_headed append]. unfold decimal_numeral.
    destruct (Ascii.eqb c "-"); [discriminate |].
    intros H _. apply (Hu (String c "") q H). discriminate.
  - unfold decimal_numeral. cbn [append].
    destruct (Ascii.eqb c "-"); intros H _.
    + apply (Hu (String c' t) q H). discriminate.
    + apply (Hu (String c (String c' t)) q H). discriminate.
Qed.

(** The shapes [formatNumber] gives a finite number: a decimal numeral,
    exponential notation (with or without a minus sign), or the name of
    an infinity; each of them is read back as a number. *)
Lemma formatNumber_shape (n : num) :
  isFiniteNumber n = true ->
  (decimal_numeral (formatNumber n) = true \/
   exponent_form (formatNumber n) \/
   (exists s, formatNumber n = String "-" s /\ exponent_form s) \/
   formatNumber n = "Infinity" \/ formatNumber n = "-Infinity") /\
  isNaN (ofString (formatNumber n)) = false.
Proof.
  intros Hf. pose proof (formatNumber_well_headed n) as Hw.
  pose proof (rounded_not_nan n Hf) as Hr.
  remember (formatNumber n) as out eqn:Hout.
  try rewrite <- Hout in Hw.
  unfold formatNumber in Hout. rewrite Hf in Hout.
  cbn [negb] in Hout. cbv zeta in Hout.
  set (x := if is_neg_zero _ then zero else _) in Hout.
  assert (Hx : isNaN x = false).
  { unfold x. destruct (is_neg_zero _); [reflexivity | exact Hr]. }
  clearbody x. clear Hr.
  assert (Hnum : forall s, decimal_numeral s = true ->
                           isNaN (ofString s) = false)
    by (intros s Hs; apply (numeral_parse s Hs)).
  assert (Hexp : forall s, exponent_form s ->
                           includes "e" s = true /\
                           isNaN (ofString s) = false /\
                           isNaN (ofString (String "-" s)) = false).
  { intros s Hs. destruct (exponent_form_head s Hs) as (c & r & -> & Hc & Hi).
    split; [exact Hi |].
    apply parsed_not_nan; [exact Hc |].
    apply parse_unsigned_exponent_form, Hs. }
  assert (Hcase :
            decimal_numeral (toString x) = true \/
            exponent_form (toString x) \/
            (exists s, toString x = String "-" s /\ exponent_form s) \/
            toString x = "Infinity" \/ toString x = "-Infinity").
  { destruct x as [s | [|] | | [|] m e]; try discriminate Hx; cbn [toString];
      auto.
    - destruct (toString_pos_shape m e) as [H | H].
      + left. unfold decimal_numeral. cbn [append]. cbn. exact H.
      + right; right; left. exists (toString_pos m e). auto.
    - destruct (toString_pos_shape m e) as [H | H]; [| auto].
      left. destruct (unsigned_numeral_head _ H) as (c & r & Heq & Hc).
      rewrite Heq in *. unfold decimal_numeral.
      rewrite (is_digit_not_minus _ Hc). exact H. }
  destruct Hcase as [H | [H | [(s & Hs & H) | [H | H]]]].
  - (* a numeral: kept, or trimmed to a prefix *)
    assert (Hd : decimal_numeral out = true).
    { destruct (includes "e" (toString x) || includes "E" (toString x));
        [subst out; exact H |].
      destruct (includes "." (toString x)); [| subst out; exact H].
      destruct (trim_zeros_prefix (toString x)) as (q & Hq & _).
      rewrite <- Hout in Hq. rewrite Hq in H.
      apply (decimal_numeral_prefix out q H Hw). }
    split; [left; exact Hd | apply Hnum, Hd].
  - destruct (Hexp _ H) as (Hi & Hn & _).
    rewrite Hi in Hout. cbn [orb] in Hout. subst out. auto.
  - destruct (Hexp _ H) as (Hi & _ & Hn).
    assert (Hi' : includes "e" (toString x) = true).
    { rewrite Hs. cbn [includes]. rewrite Hi. apply orb_true_r. }
    rewrite Hi' in Hout. cbn [orb] in Hout. subst out. rewrite Hs.
    split; [right; right; left; eauto | exact Hn].
  - rewrite H in Hout. cbn in Hout. subst out. split; [auto | reflexivity].
  - rewrite H in Hout. cbn in Hout. subst out.
    split; [right; right; right; right; reflexivity | reflexivity].
Qed.

(** X21: whatever the keys pressed, the number shown by a computing key
    for a finite result has one of three shapes: a decimal numeral,
    exponential notation, or the name of an infinity. *)
Theorem formatNumber_shapes :
  forall n,
    isFiniteNumber n = true ->
    decimal_numeral (formatNumber n) = true \/
    exponent_form (formatNumber n) \/
    (exists s, formatNumber n = String "-" s /\ exponent_form s) \/
    formatNumber n = "Infinity" \/ formatNumber n = "-Infinity".
Proof.
  intros n Hf. destruct (formatNumber_shape n Hf) as [H _]. exact H.
Qed.

Lemma formatNumber_shapes_example :
  isFiniteNumber (ofString "1e300") = true /\
  formatNumber (ofString "1e300") = "Infinity" /\
  formatNumber (ofString "12.50") = "12.5" /\
  formatNumber (ofString "1e21") = "1e+21" /\
  (decimal_numeral (formatNumber (ofString "12.50")) = true \/
   exponent_form (formatNumber (ofString "12.50")) \/
   (exists s, formatNumber (ofString "12.50") = String "-" s /\ exponent_form s) \/
   formatNumber (ofString "12.50") = "Infinity" \/
   formatNumber (ofString "12.50") = "-Infinity").
Proof.
  split; [vm_compute; reflexivity |].
  split; [vm_compute; reflexivity |].
  split; [vm_compute; reflexivity |].
  split; [vm_compute; reflexivity |].
  apply formatNumber_shapes. vm_compute. reflexivity.
Defined.

(** ** The stored operand is a number *)

Lemma parseDisplayToNumber_not_nan (s : string) :
  isNaN (parseDisplayToNumber s) = false.
Proof.
  unfold parseDisplayToNumber.
  destruct (String.eqb s "-" || String.eqb s "" || String.eqb s ".");
    [reflexivity |].
  cbv zeta. destruct (isNaN (ofString s)) eqn:E; [reflexivity | exact E].
Qed.

Lemma operand_is_number_step (st : State) (a : Action) :
  operand_is_number st -> operand_is_number (handleButton st a).
Proof.
  unfold operand_is_number. destruct st as [d pv po lo pl ow er].
  cbn [prevValue]. intros H.
  assert (Hc : forall v, Some (parseDisplayToNumber d) = Some v -> isNaN v = false).
  { intros v [= <-]. apply parseDisplayToNumber_not_nan. }
  assert (Hfmt : forall r v,
             negb (ok r) || negb (isFiniteNumber (value r)) = false ->
             Some (ofString (formatNumber (value r))) = Some v ->
             isNaN v = false).
  { intros r v Hr [= <-]. apply orb_false_iff in Hr. destruct Hr as [_ Hr].
    apply negb_false_iff in Hr. apply (formatNumber_shape _ Hr). }
  destruct a as [n | | o | | | | |]; unfold_handlers; destruct er;
    try exact H; try (intros v Hv; discriminate Hv).
  - destruct ow; exact H.
  - destruct ow; exact H.
  - destruct po as [p |]; [| exact Hc].
    destruct ow; [exact H |].
    destruct pv as [v0 |]; [| exact Hc].
    cbv zeta. destruct (negb _ || negb _) eqn:E;
      [intros v Hv; discriminate Hv |].
    cbn [prevValue]. intros v. apply Hfmt. exact E.
  - destruct po as [p |].
    + destruct pv as [v0 |].
      * cbv zeta. destruct (negb _ || negb _) eqn:E;
          [intros v Hv; discriminate Hv |].
        cbn [prevValue]. intros v. apply Hfmt. exact E.
      * destruct lo; exact H.
    + destruct lo as [l0 |].
      * cbv zeta. destruct (negb _ || negb _);
          [intros v Hv; discriminate Hv | exact H].
      * destruct pv; exact H.
  - destruct po, pv; exact H.
Qed.

(** X22: in every reachable state the stored operand is a number, never
    NaN: the text of a formatted result always reads back as one. *)
Theorem stored_operand_is_number :
  forall actions v,
    prevValue (run actions) = Some v -> isNaN v = false.
Proof.
  intros actions.
  apply (run_ind operand_is_number); [| exact operand_is_number_step].
  intros v Hv. discriminate Hv.
Qed.

Lemma stored_operand_is_number_example :
  prevValue (run [digit 5; op_key Plus; digit 3; op_key Times])
    = Some (of_Z 8) /\
  isNaN (of_Z 8) = false.
Proof.
  assert (H : prevValue (run [digit 5; op_key Plus; digit 3; op_key Times])
              = Some (of_Z 8)) by (vm_compute; reflexivity).
  split; [exact H |].
  exact (stored_operand_is_number _ _ H).
Defined.

(** ** Division by zero *)

(** X23: outside the Error state, with a division pending on a stored
    operand, equals enters the Error state when the display reads as
    zero, and so does an operator key pressed after a right operand was
    typed. *)
Theorem division_by_zero_latches_error :
  forall (st : State) (pv : num) (o : Op),
    error st = false ->
    pendingOp st = Some Divide ->
    prevValue st = Some pv ->
    is_zero (parseDisplayToNumber (display st)) = true ->
    evaluateEquals st = setErrorState st /\
    (overwrite st = false -> setOperator o st = setErrorState st).
Proof.
  intros st pv o He Hp Hv Hz.
  assert (Hok : ok (compute pv Divide (parseDisplayToNumber (display st))) = false).
  { apply compute_refusal. right; right. auto. }
  split.
  - unfold evaluateEquals. rewrite He, Hp, Hv. cbv zeta. rewrite Hok. reflexivity.
  - intros Ho. unfold setOperator. rewrite He, Hp, Ho, Hv. cbv zeta.
    rewrite Hok. reflexivity.
Qed.

Lemma division_by_zero_example :
  error (run [digit 8; op_key Divide; digit 0]) = false /\
  pendingOp (run [digit 8; op_key Divide; digit 0]) = Some Divide /\
  prevValue (run [digit 8; op_key Divide; digit 0]) = Some (of_Z 8) /\
  is_zero (parseDisplayToNumber (display (run [digit 8; op_key Divide; digit 0])))
    = true /\
  evaluateEquals (run [digit 8; op_key Divide; digit 0])
    = setErrorState (run [digit 8; op_key Divide; digit 0]).
Proof.
  assert (He : error (run [digit 8; op_key Divide; digit 0]) = false)
    by reflexivity.
  assert (Hp : pendingOp (run [digit 8; op_key Divide; digit 0]) = Some Divide)
    by reflexivity.
  assert (Hv : prevValue (run [digit 8; op_key Divide; digit 0]) = Some (of_Z 8))
    by (vm_compute; reflexivity).
  assert (Hz : is_zero (parseDisplayToNumber
                          (display (run [digit 8; op_key Divide; digit 0])))
               = true) by (vm_compute; reflexivity).
  split; [exact He |]. split; [exact Hp |]. split; [exact Hv |].
  split; [exact Hz |].
  exact (proj1 (division_by_zero_latches_error _ (of_Z 8) Plus He Hp Hv Hz)).
Defined.

(** ** Arithmetic with zero *)

(** X24: for a finite number [a] that is not zero, [compute] gives [a]
    for [a + 0], [0 + a] and [a - 0], and a zero for [a - a], [a * 0],
    [0 * a] and [0 / a]; every zero is shown as "0". *)
Theorem arithmetic_with_zero :
  forall (s z : bool) (m : positive) (e : Z),
    let a := S754_finite s m e in
    let o := S754_zero z in
    compute a Plus o = {| ok := true; value := a |} /\
    compute o Plus a = {| ok := true; value := a |} /\
    compute a Minus o = {| ok := true; value := a |} /\
    compute a Minus a = {| ok := true; value := S754_zero false |} /\
    compute a Times o = {| ok := true; value := S754_zero (xorb s z) |} /\
    compute o Times a = {| ok := true; value := S754_zero (xorb z s) |} /\
    compute o Divide a = {| ok := true; value := S754_zero (xorb z s) |} /\
    formatNumber o = "0".
Proof.
  intros s z m e a o. subst a o.
  repeat (split; [reflexivity |]).
  split.
  - unfold compute. cbn [isFiniteNumber isFinite negb orb]. f_equal.
    unfold sub, SFsub.
    destruct (shl_align m e (Z.min e e)) as [m' e'].
    cbn [fst]. rewrite Z.sub_diag. reflexivity.
  - repeat (split; [reflexivity |]).
    destruct z; vm_compute; reflexivity.
Qed.

(** ** The shape of the display in every reachable state *)

(** Whatever [formatNumber] returns has one of the shapes. *)
Lemma formatNumber_shown (v : num) : shown_shape (formatNumber v).
Proof.
  destruct (isFiniteNumber v) eqn:Hf.
  - destruct (formatNumber_shape v Hf) as [H _]. unfold shown_shape.
    destruct H as [H | [H | [H | [H | H]]]]; auto 8.
  - unfold formatNumber. rewrite Hf. cbn [negb]. unfold shown_shape. auto 8.
Qed.

(** The sign key moves between the shapes: it takes a leading minus
    sign off or puts one on. *)
Lemma shown_shape_toggle (d : string) :
  shown_shape d ->
  shown_shape (if startsWith "-" d then slice_from_1 d else "-" ++ d).
Proof.
  unfold shown_shape.
  intros [H | [H | [(r & -> & H) | [-> | [-> | [-> | ->]]]]]];
    try (cbn; auto 8; fail).
  - left. apply decimal_numeral_toggle, H.
  - destruct (exponent_form_head d H) as (c & r & -> & Hc & _).
    cbn [startsWith]. rewrite (is_digit_not_minus c Hc).
    right; right; left. eexists. split; [reflexivity | exact H].
Qed.

(** Every key keeps the shape: typing builds a numeral, a computing
    key sets the overwrite flag with its result. *)
Lemma display_shape_step (st : State) (a : Action) :
  display_shape st -> display_shape (handleButton st a).
Proof.
  destruct st as [d pv po lo pl ow er].
  unfold display_shape. cbn [display overwrite]. intros [Hs Hn].
  assert (Hnum : forall st', decimal_numeral (display st') = true ->
                        shown_shape (display st') /\
                        (overwrite st' = false ->
                         decimal_numeral (display st') = true)).
  { intros st' H. split; [left; exact H | intros _; exact H]. }
  assert (Hshow : forall st', shown_shape (display st') -> overwrite st' = true ->
                          shown_shape (display st') /\
                          (overwrite st' = false ->
                           decimal_numeral (display st') = true)).
  { intros st' H E. split; [exact H | rewrite E; discriminate]. }
  destruct a as [n | | | | | | |]; unfold handleButton.
  - (* digit *)
    destruct (String_of_digit_numeral n) as (Hd & Hu & Ha).
    unfold inputDigit. cbn [display overwrite error].
    destruct er; [apply Hnum; exact Hd |].
    destruct ow; [apply Hnum; exact Hd |].
    specialize (Hn eq_refl).
    apply Hnum; cbn [display].
    destruct (String.eqb d "0"); [exact Hd |].
    destruct (String.eqb d "-0").
    + destruct (String_of_digit_shape n) as (c & r & Heq & Hc & Hr).
      rewrite Heq in *. cbn [append]. unfold decimal_numeral.
      cbn. exact Hu.
    + apply decimal_numeral_app_digits; assumption.
  - (* decimal *)
    unfold inputDecimal. cbn [display overwrite error].
    destruct er; [apply Hnum; reflexivity |].
    destruct ow; [apply Hnum; reflexivity |].
    specialize (Hn eq_refl).
    apply Hnum; cbn [display].
    destruct (includes "." d) eqn:Ei; [exact Hn |].
    destruct (String.eqb d "Error"); [reflexivity |].
    destruct (String.eqb d "-" || String.eqb d ""); [reflexivity |].
    apply decimal_numeral_app_point; assumption.
  - (* operator *)
    unfold setOperator, setErrorState.
    cbn [display prevValue pendingOp lastOp previousLine overwrite error].
    destruct er; [split; assumption |].
    destruct po as [p |].
    + destruct ow; [split; assumption |].
      destruct pv as [v |].
      * destruct (negb _ || negb _).
        -- apply Hshow; [right; right; right; right; right; left |]; reflexivity.
        -- apply Hshow; [apply formatNumber_shown | reflexivity].
      * apply Hshow; [exact Hs | reflexivity].
    + apply Hshow; [exact Hs | reflexivity].
  - (* equals *)
    unfold evaluateEquals, setErrorState.
    cbn [display prevValue pendingOp lastOp previousLine overwrite error].
    destruct er; [split; assumption |].
    destruct po as [p |], pv as [v |], lo as [l |];
      try (apply Hshow; [exact Hs | reflexivity]);
      destruct (negb _ || negb _);
      try (apply Hshow; [apply formatNumber_shown | reflexivity]);
      (apply Hshow; [right; right; right; right; right; left |]; reflexivity).
  - (* clear *)
    apply Hnum; reflexivity.
  - (* sign *)
    unfold toggleSign. cbn [display overwrite error].
    destruct er; [split; assumption |].
    destruct (String.eqb d "0" || String.eqb d "0.") eqn:E0.
    { apply Hnum; cbn [display]. destruct (endsWith "." d); reflexivity. }
    destruct (String.eqb d "-0" || String.eqb d "-0.") eqn:E1.
    { apply Hnum; cbn [display]. destruct (endsWith "." d); reflexivity. }
    cbn [display overwrite]. split.
    + apply shown_shape_toggle, Hs.
    + intros E. apply decimal_numeral_toggle, Hn, E.
  - (* percent *)
    unfold applyPercent.
    cbn [display prevValue pendingOp lastOp previousLine overwrite error].
    destruct er; [split; assumption |].
    destruct po as [p |], pv as [v |];
      (apply Hshow; [apply formatNumber_shown | reflexivity]).
  - (* backspace *)
    unfold backspace, clearAll. cbn [display overwrite error].
    destruct er; [apply Hnum; reflexivity |].
    destruct ow; [apply Hnum; reflexivity |].
    specialize (Hn eq_refl).
    apply Hnum; cbn [display].
    destruct (String.length d <=? 1)%nat eqn:E1; [reflexivity |].
    destruct ((String.length d =? 2)%nat && startsWith "-" d) eqn:E2;
      [reflexivity |].
    apply decimal_numeral_backspace; assumption.
Qed.

Lemma display_shape_run (actions : list Action) : display_shape (run actions).
Proof.
  apply (run_ind display_shape); [| exact display_shape_step].
  split; [left |]; reflexivity.
Qed.

(** Where the overflowing keys leave the calculator. *)
Lemma overflowing_state :
  run overflowing_keys =
    {| display := "Infinity";
       prevValue := Some (of_Z 100000000000000000000);
       pendingOp := None;
       lastOp := Some {| op := Times; rhs := of_Z 10000000000 |};
       previousLine := ""; overwrite := true; error := false |}.
Proof.
  vm_compute. reflexivity.
Qed.

(** C7, as the code has it: in every reachable state the display is
    not empty and is a decimal numeral, a number in exponential
    notation (with or without a minus sign), "Infinity", "-Infinity",
    "Error" or "-Error"; it is a decimal numeral whenever the overwrite
    flag is off, and the error marker whenever the error flag is set;
    digit, point, sign, backspace and clear keep a display that is a
    decimal numeral (or the latched marker) that way; the other keys
    leave the display, latch the marker or show a formatted number; and
    backspace on a display of at most one character, or with the
    overwrite flag set, shows "0".  Each shape besides the numerals is
    reached: 0.00001 and percent shows "1e-7" and the sign key turns it
    into "-1e-7"; 10000000000 multiplied by itself up to 1e300 shows
    "Infinity", which the sign key turns into "-Infinity" and percent
    into "Error" with the error flag off, which the sign key turns into
    "-Error". *)
Theorem display_shape_kept :
  (forall actions,
     let st := run actions in
     display st <> "" /\
     shown_shape (display st) /\
     (overwrite st = false -> decimal_numeral (display st) = true) /\
     (error st = true -> display st = "Error") /\
     (forall a,
        editing a = true ->
        decimal_numeral (display st) = true \/ error st = true ->
        decimal_numeral (display (handleButton st a)) = true \/
        error (handleButton st a) = true) /\
     (forall a,
        editing a = false ->
        display (handleButton st a) = display st \/
        display (handleButton st a) = "Error" \/
        exists v, display (handleButton st a) = formatNumber v) /\
     ((String.length (display st) <= 1)%nat \/ overwrite st = true ->
      display (backspace st) = "0")) /\
  snapshot (run tiny_keys) = ("1e-7", "", false) /\
  snapshot (run (tiny_keys ++ [sign])) = ("-1e-7", "", false) /\
  snapshot (run overflowing_keys) = ("Infinity", "", false) /\
  snapshot (run (overflowing_keys ++ [sign])) = ("-Infinity", "", false) /\
  snapshot (run (overflowing_keys ++ [percent])) = ("Error", "", false) /\
  snapshot (run ((overflowing_keys ++ [percent]) ++ [sign]))
    = ("-Error", "", false).
Proof.
  split.
  - intros actions st.
    pose proof (display_shape_run actions) as [Hs Hn]. fold st in Hs, Hn.
    split; [| split; [| split; [| split; [| split; [| split]]]]].
    + pose proof (well_headed_run actions) as H. fold st in H.
      intros E. rewrite E in H. discriminate.
    + exact Hs.
    + exact Hn.
    + intros E. apply (coh_error _ (coherent_run actions) E).
    + intros a. apply editing_keeps_numeral.
    + intros a. apply computing_key_display.
    + intros H. unfold backspace, clearAll.
      destruct (error st); [reflexivity |]. cbn [display].
      destruct (overwrite st); [reflexivity |].
      destruct H as [H | H]; [| discriminate].
      apply Nat.leb_le in H. rewrite H. reflexivity.
  - split; [vm_compute; reflexivity |].
    split; [vm_compute; reflexivity |].
    rewrite !run_snoc.
    rewrite overflowing_state.
    split; [vm_compute; reflexivity |].
    split; [vm_compute; reflexivity |].
    split; vm_compute; reflexivity.
Qed.
